(** * Startup tracker: the filter, rank and export pipeline of
      [startup_tracker.py], embedded and verified.

    The development follows the Python source function by function:
    - [PyStr]: the [str] methods the tracker calls ([replace] of a single
      character by the empty string, [upper], [lower], the [in] test);
    - [PyFloat]: the builtin [float] on text, IEEE binary64 arithmetic and
      the format specification [,.0f];
    - the tracker itself: [filter_startups], [display_summary],
      [export_to_csv], then [load_manual_data] with [csv.DictReader],
      [create_template] and [main] (without what they print).

    Text is modelled as [string], a sequence of 8-bit characters.  Case
    mapping acts on the ASCII letters and leaves every other character
    alone, and no character above 127 is a digit or white space for [float]:
    the embedding is exact on ASCII text ([is_ascii] below), and the
    statements about what every text is read as are made for such text.
    Python itself also maps letters outside ASCII (the dotless i, the Kelvin
    sign) and reads the digits and spaces of other scripts. *)

From Stdlib Require Import ZArith String Ascii List Bool Lia Permutation Sorted.
From Stdlib Require Import Floats.SpecFloat.
From Stdlib Require Import Numbers.DecimalString Numbers.DecimalN.
From stdpp Require Import gmap strings list sorting.

(** ** Exceptions

    The exception classes that the tracker's code can meet.  A computation
    either returns a value or raises. *)

Inductive exn : Type :=
  | ValueError
  | TypeError
  | AttributeError.

Inductive result (A : Type) : Type :=
  | Ok (a : A)
  | Raise (e : exn).
Arguments Ok {A} a.
Arguments Raise {A} e.

Definition bind {A B : Type} (m : result A) (k : A -> result B) : result B :=
  match m with
  | Ok a => k a
  | Raise e => Raise e
  end.

Global Instance result_ret : MRet result := @Ok.
Global Instance result_bind : MBind result :=
  fun A B k m => bind m k.
Global Instance result_fmap : FMap result :=
  fun A B f m => bind m (fun a => Ok (f a)).

(** [try: body except (classes): handler] *)
Definition try_except {A : Type} (body : result A) (caught : exn -> bool)
    (handler : result A) : result A :=
  match body with
  | Ok a => Ok a
  | Raise e => if caught e then handler else Raise e
  end.

(** ** Python values held by a row

    [csv.DictReader] maps every header name to the text of the cell, and to
    [None] (its default [restval]) when the row is shorter than the header. *)

Inductive pyval : Type :=
  | PStr (s : string)
  | PNone.

Global Instance pyval_eq_dec : EqDecision pyval.
Proof. solve_decision. Defined.

(** ** String methods *)

Module PyStr.

Definition is_upper (c : ascii) : bool :=
  (65 <=? nat_of_ascii c)%nat && (nat_of_ascii c <=? 90)%nat.

Definition is_lower (c : ascii) : bool :=
  (97 <=? nat_of_ascii c)%nat && (nat_of_ascii c <=? 122)%nat.

Definition upper_char (c : ascii) : ascii :=
  if is_lower c then ascii_of_nat (nat_of_ascii c - 32) else c.

Definition lower_char (c : ascii) : ascii :=
  if is_upper c then ascii_of_nat (nat_of_ascii c + 32) else c.

(** [s.upper()] on ASCII text: a to z go to A to Z, every other character
    stays (Python also maps letters outside ASCII, the dotless i to I). *)
Fixpoint upper (s : string) : string :=
  match s with
  | EmptyString => EmptyString
  | String c t => String (upper_char c) (upper t)
  end.

(** [s.lower()] on ASCII text: A to Z go to a to z, every other character
    stays (Python also maps letters outside ASCII, the Kelvin sign to k). *)
Fixpoint lower (s : string) : string :=
  match s with
  | EmptyString => EmptyString
  | String c t => String (lower_char c) (lower t)
  end.

(** [s.replace(c, '')] for a one-character [c]: every occurrence goes. *)
Fixpoint remove_char (c : ascii) (s : string) : string :=
  match s with
  | EmptyString => EmptyString
  | String d t =>
      if Ascii.eqb d c then remove_char c t else String d (remove_char c t)
  end.

(** [c in s] for a one-character [c]. *)
Fixpoint char_in (c : ascii) (s : string) : bool :=
  match s with
  | EmptyString => false
  | String d t => Ascii.eqb d c || char_in c t
  end.

Fixpoint starts_with (needle hay : string) : bool :=
  match needle, hay with
  | EmptyString, _ => true
  | String _ _, EmptyString => false
  | String a n, String b h => Ascii.eqb a b && starts_with n h
  end.

(** [needle in hay]: [needle] occurs as a contiguous substring. *)
Fixpoint contains (needle hay : string) : bool :=
  starts_with needle hay ||
  match hay with
  | EmptyString => false
  | String _ h => contains needle h
  end.

(** [s in l] for a list of strings [l]. *)
Definition in_list (s : string) (l : list string) : bool :=
  existsb (String.eqb s) l.

End PyStr.

(** ** Floats

    A Python [float] is an IEEE 754 binary64 number: [spec_float] at
    precision 53 and maximal exponent 1024. *)

Module PyFloat.

Local Open Scope Z_scope.

Definition prec : Z := 53.
Definition emax : Z := 1024.

Abbreviation float := spec_float.

Definition mul : float -> float -> float := SFmul prec emax.
Definition leb : float -> float -> bool := SFleb.
Definition ltb : float -> float -> bool := SFltb.
Definition eqb : float -> float -> bool := SFeqb.

(** [float(n)] for an integer [n]: the nearest binary64 number (ties to
    even).  The integers the tracker converts are below [2^53], where the
    conversion is exact. *)
Definition of_int (n : Z) : float := binary_normalize prec emax n 0 false.

(** The value [(-1)^neg * m * 10^e], rounded to nearest (ties to even);
    what correctly rounded decimal to binary conversion returns. *)
Definition of_decimal (neg : bool) (m : N) (e : Z) : float :=
  match m with
  | N0 => S754_zero neg
  | Npos p =>
      if 0 <=? e
      then binary_round prec emax neg (p * Z.to_pos (10 ^ e)) 0
      else SFdiv prec emax (S754_finite neg p 0)
                           (S754_finite false (Z.to_pos (10 ^ (- e))) 0)
  end.

(** The integer that [x] is exactly, when it is one. *)
Definition to_integer (x : float) : option Z :=
  match x with
  | S754_zero _ => Some 0
  | S754_finite s m e =>
      if 0 <=? e then Some (cond_Zopp s (Zpos m * 2 ^ e))
      else if Zpos m mod 2 ^ (- e) =? 0 then Some (cond_Zopp s (Zpos m / 2 ^ (- e)))
      else None
  | _ => None
  end.

(** *** [float(text)] *)

Definition is_digit (c : ascii) : bool :=
  (48 <=? nat_of_ascii c)%nat && (nat_of_ascii c <=? 57)%nat.

(** White space of the C locale: tab, line feed, vertical tab, form feed,
    carriage return and space. *)
Definition is_space (c : ascii) : bool :=
  ((9 <=? nat_of_ascii c)%nat && (nat_of_ascii c <=? 13)%nat)
  || (nat_of_ascii c =? 32)%nat.

(** Underscores may only stand between two digits; they are removed before
    the number is read.  [prev] is the character just before [s], NUL at
    the start. *)
Fixpoint drop_underscores (prev : ascii) (s : string) : option string :=
  match s with
  | EmptyString =>
      if Ascii.eqb prev "_" then None else Some EmptyString
  | String c t =>
      if Ascii.eqb c "_" then
        if is_digit prev then drop_underscores c t else None
      else if Ascii.eqb prev "_" && negb (is_digit c) then None
      else String c <$> drop_underscores c t
  end.

Fixpoint lstrip (s : string) : string :=
  match s with
  | EmptyString => EmptyString
  | String c t => if is_space c then lstrip t else s
  end.

Fixpoint rstrip (s : string) : string :=
  match s with
  | EmptyString => EmptyString
  | String c t =>
      match rstrip t with
      | EmptyString => if is_space c then EmptyString else String c EmptyString
      | r => String c r
      end
  end.

Definition split_sign (s : string) : bool * string :=
  match s with
  | EmptyString => (false, s)
  | String c t =>
      if Ascii.eqb c "-" then (true, t)
      else if Ascii.eqb c "+" then (false, t)
      else (false, s)
  end.

(** The longest prefix of digits, and what follows it. *)
Fixpoint span_digits (s : string) : string * string :=
  match s with
  | EmptyString => (EmptyString, EmptyString)
  | String c t =>
      if is_digit c
      then let '(d, r) := span_digits t in (String c d, r)
      else (EmptyString, s)
  end.

(** The number written by a string of digits. *)
Definition digits_value (d : string) : option N :=
  N.of_uint <$> NilEmpty.uint_of_string d.

(** An exponent part [e], [e+] or [e-] followed by at least one digit. *)
Definition parse_exponent (s : string) : option (Z * string) :=
  match s with
  | EmptyString => Some (0, EmptyString)
  | String c t =>
      if Ascii.eqb c "e" || Ascii.eqb c "E" then
        let '(neg, t') := split_sign t in
        let '(d, r) := span_digits t' in
        match d with
        | EmptyString => None
        | _ =>
            n ← digits_value d;
            Some (if neg : bool then - Z.of_N n else Z.of_N n, r)
        end
      else Some (0, s)
  end.

(** Digits with an optional point and an optional exponent; at least one
    digit before the exponent, and nothing after the number. *)
Definition parse_decimal (neg : bool) (s : string) : option float :=
  let '(ip, s1) := span_digits s in
  let '(fp, s2) :=
    match s1 with
    | EmptyString => (EmptyString, s1)
    | String c t => if Ascii.eqb c "." then span_digits t else (EmptyString, s1)
    end in
  match String.append ip fp with
  | EmptyString => None
  | ds =>
      m ← digits_value ds;
      '(ex, s3) ← parse_exponent s2;
      match s3 with
      | EmptyString => Some (of_decimal neg m (ex - Z.of_nat (String.length fp)))
      | _ => None
      end
  end.

Definition parse_special (neg : bool) (s : string) : option float :=
  let l := PyStr.lower s in
  if String.eqb l "inf" || String.eqb l "infinity" then Some (S754_infinity neg)
  else if String.eqb l "nan" then Some S754_nan
  else None.

(** [float(s)] on ASCII text: a [ValueError] when [s] is not a float
    literal.  The digits are 0 to 9 and the white space stripped is that of
    [is_space] (on text with characters outside ASCII Python also reads the
    digits and strips the spaces of other scripts). *)
Definition of_string (s : string) : result float :=
  match drop_underscores "000" s with
  | None => Raise ValueError
  | Some s1 =>
      let '(neg, body) := split_sign (rstrip (lstrip s1)) in
      match parse_special neg body with
      | Some x => Ok x
      | None =>
          match parse_decimal neg body with
          | Some x => Ok x
          | None => Raise ValueError
          end
      end
  end.

(** *** [format(x, ',.0f')] *)

(** The magnitude [m * 2^e] rounded to an integer, ties to even. *)
Definition round_half_even (m : positive) (e : Z) : N :=
  if (0 <=? e)%Z then Z.to_N (Zpos m * 2 ^ e)%Z
  else
    let d := (2 ^ (- e))%Z in
    let q := (Zpos m / d)%Z in
    let r := (Zpos m mod d)%Z in
    match (2 * r ?= d)%Z with
    | Lt => Z.to_N q
    | Gt => Z.to_N (q + 1)
    | Eq => if Z.even q then Z.to_N q else Z.to_N (q + 1)
    end.

(** A comma before every group of three digits, counted from the right. *)
Fixpoint group_thousands (s : string) : string :=
  match s with
  | EmptyString => EmptyString
  | String c t =>
      String c
        (if (0 <? String.length t)%nat && (String.length t mod 3 =? 0)%nat
         then String "," (group_thousands t)
         else group_thousands t)
  end.

Definition sign_text (neg : bool) : string := if neg then "-" else "".

Definition format_comma_0f (x : float) : string :=
  match x with
  | S754_nan => "nan"
  | S754_infinity s => String.append (sign_text s) "inf"
  | S754_zero s => String.append (sign_text s) "0"
  | S754_finite s m e =>
      String.append (sign_text s)
        (group_thousands
           (NilZero.string_of_uint (N.to_uint (round_half_even m e))))
  end.

End PyFloat.

(** ** The tracker *)

(** A row of the input table: a dictionary from column names to values.
    (A row longer than the header also carries its surplus cells under the key
    [None]; no code of the tracker reads that key, and it is left out.) *)
Abbreviation record := (gmap string pyval).

(** [d.get(key, default)] *)
Definition get (d : record) (key : string) (default : string) : pyval :=
  match d !! key with
  | Some v => v
  | None => PStr default
  end.

(** The receiver of a [str] method call: looking the method up on [None]
    raises [AttributeError]. *)
Definition str_receiver (v : pyval) : result string :=
  match v with
  | PStr s => Ok s
  | PNone => Raise AttributeError
  end.

(** [str(v)], as an f-string interpolates it. *)
Definition py_str (v : pyval) : string :=
  match v with
  | PStr s => s
  | PNone => "None"
  end.

(** [self.min_funding] and [self.target_regions], set in [__init__]. *)
Definition min_funding : Z := 100000000.

Definition target_regions : list string :=
  [ "usa"; "united states"; "us"; "america";
    "europe"; "uk"; "united kingdom"; "germany"; "france";
    "spain"; "italy"; "netherlands"; "sweden"; "ireland";
    "belgium"; "austria"; "denmark"; "finland"; "norway";
    "switzerland"; "portugal"; "poland" ].

(** *** [filter_startups] *)

(** [funding_str]: the funding cell without commas and dollar signs. *)
Definition funding_str (raw : pyval) : result string :=
  s ← str_receiver raw;
  Ok (PyStr.remove_char "$" (PyStr.remove_char "," s)).

(** [funding]: the amount read from the cleaned text, by magnitude suffix. *)
Definition funding_of_text (cleaned : string) : result PyFloat.float :=
  if PyStr.char_in "M" (PyStr.upper cleaned) then
    x ← PyFloat.of_string (PyStr.remove_char "M" (PyStr.upper cleaned));
    Ok (PyFloat.mul x (PyFloat.of_int 1000000))
  else if PyStr.char_in "B" (PyStr.upper cleaned) then
    x ← PyFloat.of_string (PyStr.remove_char "B" (PyStr.upper cleaned));
    Ok (PyFloat.mul x (PyFloat.of_int 1000000000))
  else PyFloat.of_string cleaned.

Definition funding (raw : pyval) : result PyFloat.float :=
  cleaned ← funding_str raw;
  funding_of_text cleaned.

(** [funding >= self.min_funding]: the integer is compared as the float it
    converts to exactly. *)
Definition meets_funding (x : PyFloat.float) : bool :=
  PyFloat.leb (PyFloat.of_int min_funding) x.

Definition meets_location (location : string) : bool :=
  existsb (fun region => PyStr.contains region location) target_regions.

Definition meets_status (status : string) : bool :=
  PyStr.contains "active" status || String.eqb status "".

Definition not_ipod (ipo_status : string) : bool :=
  negb (PyStr.in_list ipo_status ["ipo"; "public"; "listed"]).

(** The text stored under [funding_amount_parsed]. *)
Definition funding_display (x : PyFloat.float) : string :=
  String "$" (PyFloat.format_comma_0f x).

(** What one turn of the loop does with its row. *)
Inductive outcome : Type :=
  | Kept (startup' : record)
  | Dropped
  | Skipped (name : string).

(** The body of the [try]. *)
Definition examine (startup : record) : result outcome :=
  x ← funding (get startup "funding_amount" "0");
  location ← PyStr.lower <$> str_receiver (get startup "location" "");
  status ← PyStr.lower <$> str_receiver (get startup "status" "");
  ipo_status ← PyStr.lower <$> str_receiver (get startup "ipo_status" "");
  if meets_funding x && meets_location location
     && meets_status status && not_ipod ipo_status
  then Ok (Kept (<["funding_amount_parsed" := PStr (funding_display x)]> startup))
  else Ok Dropped.

(** [except (ValueError, TypeError)] *)
Definition caught (e : exn) : bool :=
  match e with
  | ValueError | TypeError => true
  | AttributeError => false
  end.

Definition turn (startup : record) : result outcome :=
  try_except (examine startup) caught
    (Ok (Skipped (py_str (get startup "company_name" "Unknown")))).

(** The state the loop threads: [objects] are the dictionaries of
    [self.startups] visited so far, as the loop leaves them (a kept row is
    updated in place, so the list [filtered] and [self.startups] share it);
    [warnings] are the company names of the skip warnings printed. *)
Record loop_state : Type := {
  objects : list record;
  filtered : list record;
  warnings : list string
}.

Definition loop_body (st : loop_state) (startup : record) : result loop_state :=
  o ← turn startup;
  Ok match o with
     | Kept startup' =>
         {| objects := objects st ++ [startup'];
            filtered := filtered st ++ [startup'];
            warnings := warnings st |}
     | Dropped =>
         {| objects := objects st ++ [startup];
            filtered := filtered st;
            warnings := warnings st |}
     | Skipped name =>
         {| objects := objects st ++ [startup];
            filtered := filtered st;
            warnings := warnings st ++ [name] |}
     end.

(** [for x in l: st = body(st, x)], stopping at the first exception. *)
Fixpoint for_each {S A : Type} (body : S -> A -> result S) (l : list A) (st : S)
    : result S :=
  match l with
  | [] => Ok st
  | x :: l' => st' ← body st x; for_each body l' st'
  end.

Definition filter_startups (startups : list record) : result loop_state :=
  for_each loop_body startups {| objects := []; filtered := []; warnings := [] |}.

(** *** [sorted(l, key=..., reverse=True)]

    Python's sort is stable, also when reversed.  On keys that are totally
    preordered by [lt] every stable sort returns the same list (lemma
    [sorted_reverse_unique]); insertion from the right stands for it here. *)
Section Sorted.
Context {A K : Type} (lt : K -> K -> bool) (key : A -> K).

Fixpoint insert_reverse (x : A) (l : list A) : list A :=
  match l with
  | [] => [x]
  | y :: l' =>
      if lt (key x) (key y) then y :: insert_reverse x l' else x :: l
  end.

Definition sorted_reverse (l : list A) : list A :=
  foldr insert_reverse [] l.

(** [a] may stand before [b]: its key is not below the key of [b]. *)
Definition not_below (a b : A) : Prop := lt (key a) (key b) = false.
End Sorted.

(** *** [display_summary] *)

(** [locations[loc] = locations.get(loc, 0) + 1] on an insertion-ordered
    dictionary. *)
Fixpoint tally_add (loc : pyval) (locations : list (pyval * nat)) : list (pyval * nat) :=
  match locations with
  | [] => [(loc, 1)]
  | (l, n) :: rest =>
      if decide (l = loc) then (l, n + 1) :: rest else (l, n) :: tally_add loc rest
  end.

Definition location_tally (filtered_startups : list record) : list (pyval * nat) :=
  fold_left (fun locations startup => tally_add (get startup "location" "Unknown") locations)
    filtered_startups [].

(** The sort key: the float read back from the display text. *)
Definition sort_key (startup : record) : result PyFloat.float :=
  s ← str_receiver (get startup "funding_amount_parsed" "$0");
  PyFloat.of_string (PyStr.remove_char "," (PyStr.remove_char "$" s)).

(** The keys are computed first, one per element; then the list is sorted. *)
Fixpoint keyed (l : list record) : result (list (PyFloat.float * record)) :=
  match l with
  | [] => Ok []
  | startup :: l' =>
      k ← sort_key startup;
      rest ← keyed l';
      Ok ((k, startup) :: rest)
  end.

Definition sorted_startups (filtered_startups : list record) : result (list record) :=
  ks ← keyed filtered_startups;
  Ok (snd <$> sorted_reverse PyFloat.ltb fst ks).

Record summary : Type := {
  top_locations : list (pyval * nat);
  top_funded : list (pyval * pyval * pyval)
}.

Definition display_summary (filtered_startups : list record) : result (option summary) :=
  match filtered_startups with
  | [] => Ok None
  | _ =>
      let locations := location_tally filtered_startups in
      ranked ← sorted_startups filtered_startups;
      Ok (Some {|
        top_locations := take 10 (sorted_reverse Nat.ltb snd locations);
        top_funded :=
          (fun startup =>
             (get startup "company_name" "Unknown",
              get startup "funding_amount_parsed" "$0",
              get startup "location" "Unknown")) <$> take 5 ranked |})
  end.

(** *** [export_to_csv] *)

Definition fieldnames : list string :=
  [ "company_name"; "funding_amount_parsed"; "location";
    "status"; "ipo_status"; "funding_round";
    "description"; "website"; "founded_year" ].

(** The cell [csv.DictWriter] writes for a column: the value of the row, the
    empty [restval] for a missing key, and the empty text for [None]. *)
Definition cell (startup : record) (column : string) : string :=
  match startup !! column with
  | Some (PStr s) => s
  | Some PNone => ""
  | None => ""
  end.

Definition row_of (startup : record) : list string :=
  cell startup <$> fieldnames.

(** The table written: [writeheader] then [writerows]. *)
Definition table_of (filtered_startups : list record) : list (list string) :=
  fieldnames :: (row_of <$> filtered_startups).

(** [writable] says whether opening and writing the destination succeeds;
    when it raises, the [except Exception] branch returns [False].  The
    result is the returned boolean and the table written, if any. *)
Definition export_to_csv (filtered_startups : list record) (writable : bool)
    : bool * option (list (list string)) :=
  match filtered_startups with
  | [] => (false, None)
  | _ =>
      if writable then (true, Some (table_of filtered_startups))
      else (false, None)
  end.

(** ** The specification's wording

    The Funding Normalizer and the eligibility test as the specification
    words them, to be compared with the code above. *)

Module Spec.

(** "Strip comma separators and dollar characters." *)
Definition strip_separators (text : string) : string :=
  PyStr.remove_char "$" (PyStr.remove_char "," text).

(** "contains the letter (case-insensitive)" and "remove the letter" *)
Definition has_letter (big small : ascii) (s : string) : bool :=
  PyStr.char_in big s || PyStr.char_in small s.

Definition remove_letter (big small : ascii) (s : string) : string :=
  PyStr.remove_char small (PyStr.remove_char big s).

Definition Normalizer (text : string) : result PyFloat.float :=
  let cleaned := strip_separators text in
  if has_letter "M" "m" cleaned then
    x ← PyFloat.of_string (remove_letter "M" "m" cleaned);
    Ok (PyFloat.mul x (PyFloat.of_int 1000000))
  else if has_letter "B" "b" cleaned then
    x ← PyFloat.of_string (remove_letter "B" "b" cleaned);
    Ok (PyFloat.mul x (PyFloat.of_int 1000000000))
  else PyFloat.of_string cleaned.

(** The text of a field; "absent fields default to empty string". *)
Definition field (r : record) (name : string) : string :=
  match r !! name with
  | Some (PStr s) => s
  | _ => ""
  end.

Definition funding_ok (r : record) : bool :=
  match Normalizer (field r "funding_amount") with
  | Ok amount => PyFloat.leb (PyFloat.of_int 100000000) amount
  | Raise _ => false
  end.

Definition location_ok (r : record) : bool :=
  existsb (fun keyword => PyStr.contains keyword (PyStr.lower (field r "location")))
    target_regions.

Definition status_ok (r : record) : bool :=
  PyStr.contains "active" (PyStr.lower (field r "status"))
  || String.eqb (field r "status") "".

Definition ipo_ok (r : record) : bool :=
  forallb (fun word => negb (String.eqb (PyStr.lower (field r "ipo_status")) word))
    ["ipo"; "public"; "listed"].

(** The funding text parses, and all four predicates hold. *)
Definition eligible (r : record) : bool :=
  funding_ok r && location_ok r && status_ok r && ipo_ok r.

(** The FundingAmount of a record (not a number when the text does not
    parse). *)
Definition FundingAmount (r : record) : PyFloat.float :=
  match Normalizer (field r "funding_amount") with
  | Ok amount => amount
  | Raise _ => S754_nan
  end.

(** The EligibleRecord made from a raw record. *)
Definition EligibleRecord (r : record) : record :=
  <["funding_amount_parsed" := PStr (funding_display (FundingAmount r))]> r.

(** [needle] is a contiguous part of [hay]. *)
Definition substring (needle hay : string) : Prop :=
  exists before after : string,
    hay = String.append before (String.append needle after).

End Spec.

(** ** Notions used in the statements and proofs *)

(** The rows the specification's data model describes: the cells that the
    filter reads hold text, not [None]. *)
Definition text_row (r : record) : Prop :=
  r !! "funding_amount" <> Some PNone /\ r !! "location" <> Some PNone
  /\ r !! "status" <> Some PNone /\ r !! "ipo_status" <> Some PNone.

(** The amount the summary sorts by: the sort key of a record. *)
Definition shown_amount (startup : record) : PyFloat.float :=
  match sort_key startup with
  | Ok k => k
  | Raise _ => S754_nan
  end.

(** A float rounded to a whole number, ties to even. *)
Definition whole (x : PyFloat.float) : PyFloat.float :=
  match x with
  | S754_finite s m e => PyFloat.of_decimal s (PyFloat.round_half_even m e) 0
  | _ => x
  end.

(** Every character of [s] satisfies [P]. *)
Fixpoint all_chars (P : ascii -> bool) (s : string) : bool :=
  match s with
  | EmptyString => true
  | String c t => P c && all_chars P t
  end.

(** The characters a float literal is made of: digits, white space, the
    underscore, signs, the point, and the letters of [e], [inf], [infinity]
    and [nan] in either case. *)
Definition literal_char_lower (c : ascii) : bool :=
  PyFloat.is_digit c || PyFloat.is_space c || PyStr.char_in c "_-+.einfatyn".

Definition literal_char (c : ascii) : bool :=
  literal_char_lower (PyStr.lower_char c).

(** What the loop does with the outcome [o] of a row. *)
Definition object_after (startup : record) (o : outcome) : record :=
  match o with
  | Kept startup' => startup'
  | _ => startup
  end.

Definition kept (o : outcome) : list record :=
  match o with
  | Kept startup' => [startup']
  | _ => []
  end.

Definition warned (o : outcome) : list string :=
  match o with
  | Skipped name => [name]
  | _ => []
  end.

Definition extend (st : loop_state) (rs : list record) (os : list outcome) : loop_state :=
  {| objects := objects st ++ zip_with object_after rs os;
     filtered := filtered st ++ concat (kept <$> os);
     warnings := warnings st ++ concat (warned <$> os) |}.

(** What the body of the [try] returns on a row whose location, status and
    IPO cells are text, once the funding amount [x] is read. *)
Definition verdict (r : record) (x : PyFloat.float) : outcome :=
  if meets_funding x && Spec.location_ok r && Spec.status_ok r && Spec.ipo_ok r
  then Kept (<["funding_amount_parsed" := PStr (funding_display x)]> r)
  else Dropped.

Definition is_none (v : option pyval) : bool :=
  match v with
  | Some PNone => true
  | _ => false
  end.

(** The location, status and IPO cells of a row hold text, or are absent. *)
Definition side_cells_text (r : record) : bool :=
  negb (is_none (r !! "location")) && negb (is_none (r !! "status"))
  && negb (is_none (r !! "ipo_status")).

(** ** Sample rows *)

Definition sample_row (name funding_text location status ipo_status : string) : record :=
  {[ "company_name" := PStr name; "funding_amount" := PStr funding_text;
     "location" := PStr location; "status" := PStr status;
     "ipo_status" := PStr ipo_status ]}.

(** The three rows of the specification's end-to-end example. *)
Definition sample_rows : list record :=
  [ sample_row "A" "150M" "USA" "active" "private";
    sample_row "B" "50M" "Germany" "active" "private";
    sample_row "C" "200M" "Tokyo" "active" "private" ].

(** What the filter leaves after its run on [sample_rows]. *)
Definition sample_state : loop_state :=
  {| objects :=
       [ Spec.EligibleRecord (sample_row "A" "150M" "USA" "active" "private");
         sample_row "B" "50M" "Germany" "active" "private";
         sample_row "C" "200M" "Tokyo" "active" "private" ];
     filtered := [Spec.EligibleRecord (sample_row "A" "150M" "USA" "active" "private")];
     warnings := [] |}.

(** A row read from a line with the company name only: [csv.DictReader]
    fills the cells the line lacks with [None]. *)
Definition short_row : record :=
  {[ "company_name" := PStr "Acme"; "funding_amount" := PNone;
     "location" := PNone; "status" := PNone; "ipo_status" := PNone ]}.

(** A row that already carries a column [funding_amount_parsed]. *)
Definition stale_row : record :=
  <["funding_amount_parsed" := PStr "stale"]>
    (sample_row "A" "150M" "USA" "active" "private").

(** Two rows whose amounts differ by a fraction of a unit. *)
Definition close_rows : list record :=
  [ sample_row "P" "100000000.1" "USA" "active" "private";
    sample_row "Q" "100000000.3" "USA" "active" "private" ].

(** ** The rest of the program *)

(** *** [load_manual_data]

    [csv.reader] splits the file into lines of cells; [csv.DictReader] takes
    the first line as the field names and turns every later line that is not
    blank into a dictionary. *)

(** [dict(zip(fieldnames, row))]: a later cell under a repeated name replaces
    the earlier one. *)
Fixpoint zip_dict (fieldnames row : list string) (d : record) : record :=
  match fieldnames, row with
  | key :: fieldnames', value :: row' =>
      zip_dict fieldnames' row' (<[key := PStr value]> d)
  | _, _ => d
  end.

(** [for key in fieldnames[lr:]: d[key] = restval], with [restval] [None].
    (The cells of a line longer than the field names go under the key [None],
    which [record] leaves out.) *)
Definition fill_missing (missing : list string) (d : record) : record :=
  fold_left (fun d key => <[key := PNone]> d) missing d.

Definition dict_of_row (fieldnames row : list string) : record :=
  fill_missing (drop (length row) fieldnames) (zip_dict fieldnames row ∅).

Definition is_blank (row : list string) : bool :=
  match row with
  | [] => true
  | _ => false
  end.

(** [list(csv.DictReader(f))] *)
Definition DictReader (lines : list (list string)) : list record :=
  match lines with
  | [] => []
  | fieldnames :: rows =>
      dict_of_row fieldnames <$> List.filter (fun row => negb (is_blank row)) rows
  end.

(** What opening and reading the input file gives. *)
Inductive opened : Type :=
  | FileNotFound
  | OtherError
  | Lines (lines : list (list string)).

(** The returned flag and [self.startups] after the call. *)
Definition load_manual_data (startups : list record) (file : opened)
    : bool * list record :=
  match file with
  | Lines lines => (true, DictReader lines)
  | FileNotFound | OtherError => (false, startups)
  end.

(** *** [create_template] *)

(** The keys of [template_data[0]], in the order of the dictionary display. *)
Definition template_fieldnames : list string :=
  [ "company_name"; "funding_amount"; "location"; "status"; "ipo_status";
    "funding_round"; "description"; "website"; "founded_year" ].

Definition template_data : list record :=
  [ {[ "company_name" := PStr "Example Startup Inc";
       "funding_amount" := PStr "150000000";
       "location" := PStr "San Francisco, USA";
       "status" := PStr "active";
       "ipo_status" := PStr "private";
       "funding_round" := PStr "Series C";
       "description" := PStr "AI-powered analytics platform";
       "website" := PStr "https://example.com";
       "founded_year" := PStr "2018" ]};
    {[ "company_name" := PStr "Euro Tech GmbH";
       "funding_amount" := PStr "200M";
       "location" := PStr "Berlin, Germany";
       "status" := PStr "active";
       "ipo_status" := PStr "private";
       "funding_round" := PStr "Series D";
       "description" := PStr "Enterprise SaaS solution";
       "website" := PStr "https://eurotech.example";
       "founded_year" := PStr "2016" ]} ].

(** The lines written to the template file. *)
Definition create_template : list (list string) :=
  template_fieldnames
    :: ((fun rowdict => cell rowdict <$> template_fieldnames) <$> template_data).

(** *** [main] *)

(** What [main] finds outside the program: whether [input_data.csv] exists,
    what reading it gives, and whether the two files it writes can be
    written. *)
Record world : Type := {
  input_exists : bool;
  input_file : opened;
  template_writable : bool;
  results_writable : bool
}.

(** How a run of [main] ends.  [TemplateFailed], [FilterRaised] and
    [SummaryRaised] are exceptions that leave [main]; the others are its
    returns.  [Complete] carries the warnings printed, the summary, the flag
    [export_to_csv] returned and the results table written, if any. *)
Inductive main_outcome : Type :=
  | TemplateCreated (template : list (list string))
  | TemplateFailed
  | LoadFailed
  | FilterRaised (e : exn)
  | NoMatch (skipped : list string)
  | SummaryRaised (e : exn)
  | Complete (skipped : list string) (shown : option summary)
      (exported : bool) (results : option (list (list string))).

Definition main (w : world) : main_outcome :=
  if negb (input_exists w) then
    if template_writable w then TemplateCreated create_template else TemplateFailed
  else
    let '(loaded, startups) := load_manual_data [] (input_file w) in
    if negb loaded then LoadFailed
    else
      match filter_startups startups with
      | Raise e => FilterRaised e
      | Ok st =>
          match filtered st with
          | [] => NoMatch (warnings st)
          | filtered_startups =>
              match display_summary filtered_startups with
              | Raise e => SummaryRaised e
              | Ok shown =>
                  let '(exported, results) :=
                    export_to_csv filtered_startups (results_writable w) in
                  Complete (warnings st) shown exported results
              end
          end
      end.

(** ** Notions used in the further statements *)

(** One of the four cells that the filter reads is [None]. *)
Definition has_none_cell (r : record) : bool :=
  is_none (r !! "funding_amount") || is_none (r !! "location")
  || is_none (r !! "status") || is_none (r !! "ipo_status").

(** The funding cell is a text that does not parse. *)
Definition unparsable (r : record) : bool :=
  match r !! "funding_amount" with
  | Some (PStr text) =>
      match Spec.Normalizer text with
      | Ok _ => false
      | Raise _ => true
      end
  | _ => false
  end.

(** The name a skip warning shows. *)
Definition shown_name (r : record) : string :=
  py_str (get r "company_name" "Unknown").

(** The location a record is tallied under. *)
Definition location_of (r : record) : pyval := get r "location" "Unknown".

(** The count of [loc] in a tally, 0 when it has no entry. *)
Fixpoint tally_count (loc : pyval) (locations : list (pyval * nat)) : nat :=
  match locations with
  | [] => 0
  | (l, n) :: rest => if decide (l = loc) then n else tally_count loc rest
  end.

(** The values of [l] in the order of their first appearance. *)
Definition first_seen (l : list pyval) : list pyval :=
  reverse (remove_dups (reverse l)).

(** The row exported for an eligible input row. *)
Definition exported_row (r : record) : list string :=
  [ Spec.field r "company_name"; funding_display (Spec.FundingAmount r);
    Spec.field r "location"; Spec.field r "status"; Spec.field r "ipo_status";
    Spec.field r "funding_round"; Spec.field r "description";
    Spec.field r "website"; Spec.field r "founded_year" ].

(** The line of the summary printed for a ranked record. *)
Definition summary_line (startup : record) : pyval * pyval * pyval :=
  (get startup "company_name" "Unknown",
   get startup "funding_amount_parsed" "$0",
   get startup "location" "Unknown").

(** The summary of a list of records whose sort keys are their shown
    amounts: the ten most frequent locations and the lines of the five
    records ranked first. *)
Definition summary_of (found : list record) : summary :=
  {| top_locations := take 10 (sorted_reverse Nat.ltb snd (location_tally found));
     top_funded := summary_line <$> take 5 (sorted_reverse PyFloat.ltb shown_amount found) |}.

(** The world [w] with the results file not writable. *)
Definition results_locked (w : world) : world :=
  {| input_exists := input_exists w; input_file := input_file w;
     template_writable := template_writable w; results_writable := false |}.

(** ** The texts on which the embedding is exact *)

(** Every character of [s] is an ASCII character.  On such a text [upper],
    [lower] and [float] above are what Python computes.  On other text
    Python does more: [upper] and [lower] map letters of other scripts (the
    dotless i to I, the Kelvin sign to k), and [float] reads the decimal
    digits and the spaces of other scripts. *)
Definition is_ascii (s : string) : bool :=
  all_chars (fun c => (nat_of_ascii c <? 128)%nat) s.

(** The field [name] of [r] is absent, [None], or an ASCII text. *)
Definition ascii_field (r : record) (name : string) : bool :=
  match r !! name with
  | Some (PStr s) => is_ascii s
  | _ => true
  end.


(** ** Reading back a written file

    [export_to_csv] opens the results file with [newline=''], so every cell
    is written as it is (quoted where it holds a line break).
    [load_manual_data] opens its file without [newline]: the text layer then
    turns every carriage return, together with the line feed after it if
    there is one, into a line feed before [csv.reader] sees the text.
    [after_cr] says that the character before was a carriage return. *)
Fixpoint universal_newlines (after_cr : bool) (s : string) : string :=
  match s with
  | EmptyString => EmptyString
  | String c t =>
      if Ascii.eqb c "013" then String "010" (universal_newlines true t)
      else if Ascii.eqb c "010" && after_cr then universal_newlines false t
      else String c (universal_newlines false t)
  end.

(** The cells [csv.reader] yields from a file that holds [table] as
    [csv.writer] wrote it. *)
Definition read_back (table : list (list string)) : list (list string) :=
  (fun row : list string => universal_newlines false <$> row) <$> table.

(** No cell of the table holds a carriage return. *)
Definition no_carriage_return (table : list (list string)) : Prop :=
  Forall (Forall (fun text => PyStr.char_in "013" text = false)) table.

(** ** Further sample rows *)

(** Six rows: three are kept, two of them with amounts a fraction of a unit
    apart, and two have a funding text that does not parse. *)
Definition mixed_rows : list record :=
  [ sample_row "P" "100000000.1" "USA" "active" "private";
    sample_row "Bad" "abc" "USA" "active" "private";
    sample_row "Big" "200M" "Berlin, Germany" "active" "private";
    sample_row "Q" "100000000.3" "USA" "active" "private";
    sample_row "Both" "1.5MB" "France" "active" "private";
    sample_row "Low" "50M" "USA" "active" "private" ].

(** What the filter leaves after its run on [mixed_rows]. *)
Definition mixed_state : loop_state :=
  {| objects :=
       [ Spec.EligibleRecord (sample_row "P" "100000000.1" "USA" "active" "private");
         sample_row "Bad" "abc" "USA" "active" "private";
         Spec.EligibleRecord (sample_row "Big" "200M" "Berlin, Germany" "active" "private");
         Spec.EligibleRecord (sample_row "Q" "100000000.3" "USA" "active" "private");
         sample_row "Both" "1.5MB" "France" "active" "private";
         sample_row "Low" "50M" "USA" "active" "private" ];
     filtered :=
       [ Spec.EligibleRecord (sample_row "P" "100000000.1" "USA" "active" "private");
         Spec.EligibleRecord (sample_row "Big" "200M" "Berlin, Germany" "active" "private");
         Spec.EligibleRecord (sample_row "Q" "100000000.3" "USA" "active" "private") ];
     warnings := ["Bad"; "Both"] |}.

(** Sixteen eligible records at thirteen locations, three of them at one
    location and two at another. *)
Definition located (name location : string) : record :=
  Spec.EligibleRecord (sample_row name "150M" location "active" "private").

Definition many_locations : list record :=
  [ located "N1" "Berlin, Germany"; located "N2" "Austin, USA";
    located "N3" "Paris, France"; located "N4" "Austin, USA";
    located "N5" "Madrid, Spain"; located "N6" "Rome, Italy";
    located "N7" "London, UK"; located "N8" "Paris, France";
    located "N9" "Oslo, Norway"; located "N10" "Warsaw, Poland";
    located "N11" "Dublin, Ireland"; located "N12" "Ghent, Belgium";
    located "N13" "Vienna, Austria"; located "N14" "Austin, USA";
    located "N15" "Lisbon, Portugal"; located "N16" "Zurich, Switzerland" ].

(** The summary of [many_locations]. *)
Definition many_locations_summary : summary :=
  {| top_locations :=
       [ (PStr "Austin, USA", 3); (PStr "Paris, France", 2);
         (PStr "Berlin, Germany", 1); (PStr "Madrid, Spain", 1);
         (PStr "Rome, Italy", 1); (PStr "London, UK", 1);
         (PStr "Oslo, Norway", 1); (PStr "Warsaw, Poland", 1);
         (PStr "Dublin, Ireland", 1); (PStr "Ghent, Belgium", 1) ];
     top_funded :=
       [ (PStr "N1", PStr "$150,000,000", PStr "Berlin, Germany");
         (PStr "N2", PStr "$150,000,000", PStr "Austin, USA");
         (PStr "N3", PStr "$150,000,000", PStr "Paris, France");
         (PStr "N4", PStr "$150,000,000", PStr "Austin, USA");
         (PStr "N5", PStr "$150,000,000", PStr "Madrid, Spain") ] |}.

(** * Facts *)

(** ** Characters and strings *)

(** Closes an equation between closed terms by evaluating both sides. *)
Ltac by_evaluation :=
  lazymatch goal with
  | |- ?x = ?y => exact (@eq_refl _ y <: x = y)
  end.

Ltac by_cases_on_char c :=
  destruct c as [[] [] [] [] [] [] [] []]; vm_compute; reflexivity.

Lemma is_digit_upper c : PyFloat.is_digit (PyStr.upper_char c) = PyFloat.is_digit c.
Proof. by_cases_on_char c. Qed.

Lemma is_space_upper c : PyFloat.is_space (PyStr.upper_char c) = PyFloat.is_space c.
Proof. by_cases_on_char c. Qed.

Lemma lower_upper_char c : PyStr.lower_char (PyStr.upper_char c) = PyStr.lower_char c.
Proof. by_cases_on_char c. Qed.

Lemma eqb_upper_underscore c : Ascii.eqb (PyStr.upper_char c) "_" = Ascii.eqb c "_".
Proof. by_cases_on_char c. Qed.

Lemma eqb_upper_minus c : Ascii.eqb (PyStr.upper_char c) "-" = Ascii.eqb c "-".
Proof. by_cases_on_char c. Qed.

Lemma eqb_upper_plus c : Ascii.eqb (PyStr.upper_char c) "+" = Ascii.eqb c "+".
Proof. by_cases_on_char c. Qed.

Lemma eqb_upper_point c : Ascii.eqb (PyStr.upper_char c) "." = Ascii.eqb c ".".
Proof. by_cases_on_char c. Qed.

Lemma eqb_upper_exp c :
  Ascii.eqb (PyStr.upper_char c) "e" || Ascii.eqb (PyStr.upper_char c) "E"
  = Ascii.eqb c "e" || Ascii.eqb c "E".
Proof. by_cases_on_char c. Qed.

Lemma eqb_upper_M c :
  Ascii.eqb (PyStr.upper_char c) "M" = Ascii.eqb c "M" || Ascii.eqb c "m".
Proof. by_cases_on_char c. Qed.

Lemma eqb_upper_B c :
  Ascii.eqb (PyStr.upper_char c) "B" = Ascii.eqb c "B" || Ascii.eqb c "b".
Proof. by_cases_on_char c. Qed.

Lemma uint_of_char_upper c d :
  uint_of_char (PyStr.upper_char c) d = uint_of_char c d.
Proof. destruct d; [|reflexivity]. by_cases_on_char c. Qed.

Lemma lower_upper s : PyStr.lower (PyStr.upper s) = PyStr.lower s.
Proof. induction s as [|c s IH]; simpl; [done|]. by rewrite lower_upper_char, IH. Qed.

Lemma length_upper s : String.length (PyStr.upper s) = String.length s.
Proof. induction s as [|c s IH]; simpl; [done|]. by rewrite IH. Qed.

Lemma upper_app s t :
  PyStr.upper (String.append s t) = String.append (PyStr.upper s) (PyStr.upper t).
Proof. induction s as [|c s IH]; simpl; [done|]. by rewrite IH. Qed.

(** Upper-casing first and then removing a capital letter removes both cases
    of the letter. *)
Section Letters.
Variables big small : ascii.
Hypothesis upper_is_big :
  forall c, Ascii.eqb (PyStr.upper_char c) big = Ascii.eqb c big || Ascii.eqb c small.

Lemma char_in_upper s :
  PyStr.char_in big (PyStr.upper s) = Spec.has_letter big small s.
Proof.
  unfold Spec.has_letter. induction s as [|c s IH]; simpl; [done|].
  rewrite IH, upper_is_big.
  destruct (Ascii.eqb c big), (Ascii.eqb c small), (PyStr.char_in big s); done.
Qed.

Lemma remove_char_upper s :
  PyStr.remove_char big (PyStr.upper s)
  = PyStr.upper (Spec.remove_letter big small s).
Proof.
  unfold Spec.remove_letter. induction s as [|c s IH]; simpl; [done|].
  rewrite upper_is_big.
  destruct (Ascii.eqb c big) eqn:Hb; simpl; [done|].
  destruct (Ascii.eqb c small); simpl; [done|]. by rewrite IH.
Qed.
End Letters.

(** ** [float] reads text without regard to case *)

Lemma drop_underscores_upper p s :
  PyFloat.drop_underscores (PyStr.upper_char p) (PyStr.upper s)
  = PyStr.upper <$> PyFloat.drop_underscores p s.
Proof.
  revert p. induction s as [|c s IH]; intros p; simpl.
  - rewrite eqb_upper_underscore. by destruct (Ascii.eqb p "_").
  - rewrite !eqb_upper_underscore, !is_digit_upper, IH.
    destruct (Ascii.eqb c "_"); [by destruct (PyFloat.is_digit p)|].
    destruct (Ascii.eqb p "_" && negb (PyFloat.is_digit c)); [done|].
    by destruct (PyFloat.drop_underscores c s).
Qed.

Lemma lstrip_upper s : PyFloat.lstrip (PyStr.upper s) = PyStr.upper (PyFloat.lstrip s).
Proof.
  induction s as [|c s IH]; simpl; [done|].
  rewrite is_space_upper. by destruct (PyFloat.is_space c).
Qed.

Lemma rstrip_upper s : PyFloat.rstrip (PyStr.upper s) = PyStr.upper (PyFloat.rstrip s).
Proof.
  induction s as [|c s IH]; simpl; [done|].
  rewrite IH, is_space_upper.
  destruct (PyFloat.rstrip s); simpl; [|done].
  by destruct (PyFloat.is_space c).
Qed.

Lemma split_sign_upper s :
  PyFloat.split_sign (PyStr.upper s)
  = ((PyFloat.split_sign s).1, PyStr.upper (PyFloat.split_sign s).2).
Proof.
  destruct s as [|c s]; simpl; [done|].
  rewrite eqb_upper_minus, eqb_upper_plus.
  by destruct (Ascii.eqb c "-"), (Ascii.eqb c "+").
Qed.

Lemma span_digits_upper s :
  PyFloat.span_digits (PyStr.upper s)
  = (PyStr.upper (PyFloat.span_digits s).1, PyStr.upper (PyFloat.span_digits s).2).
Proof.
  induction s as [|c s IH]; simpl; [done|].
  rewrite is_digit_upper, IH.
  destruct (PyFloat.is_digit c); [|done].
  by destruct (PyFloat.span_digits s).
Qed.

Lemma uint_of_string_upper s :
  NilEmpty.uint_of_string (PyStr.upper s) = NilEmpty.uint_of_string s.
Proof.
  induction s as [|c s IH]; simpl; [done|]. by rewrite IH, uint_of_char_upper.
Qed.

Lemma digits_value_upper s : PyFloat.digits_value (PyStr.upper s) = PyFloat.digits_value s.
Proof. unfold PyFloat.digits_value. by rewrite uint_of_string_upper. Qed.

Lemma parse_exponent_upper s :
  PyFloat.parse_exponent (PyStr.upper s)
  = (fun zr : Z * string => (zr.1, PyStr.upper zr.2)) <$> PyFloat.parse_exponent s.
Proof.
  destruct s as [|c s]; simpl; [done|].
  rewrite eqb_upper_exp.
  destruct (Ascii.eqb c "e" || Ascii.eqb c "E"); [|done].
  rewrite split_sign_upper. destruct (PyFloat.split_sign s) as [neg t]; simpl.
  rewrite span_digits_upper. destruct (PyFloat.span_digits t) as [d r]; simpl.
  destruct d as [|a d]; [done|].
  change (String (PyStr.upper_char a) (PyStr.upper d)) with (PyStr.upper (String a d)).
  rewrite digits_value_upper.
  by destruct (PyFloat.digits_value (String a d)).
Qed.

Lemma parse_decimal_upper neg s :
  PyFloat.parse_decimal neg (PyStr.upper s) = PyFloat.parse_decimal neg s.
Proof.
  unfold PyFloat.parse_decimal.
  rewrite span_digits_upper. destruct (PyFloat.span_digits s) as [ip s1]; simpl.
  assert (Hfp :
    match PyStr.upper s1 with
    | EmptyString => (EmptyString, PyStr.upper s1)
    | String c t =>
        if Ascii.eqb c "." then PyFloat.span_digits t else (EmptyString, PyStr.upper s1)
    end
    = let fr := match s1 with
                | EmptyString => (EmptyString, s1)
                | String c t =>
                    if Ascii.eqb c "." then PyFloat.span_digits t else (EmptyString, s1)
                end in
      (PyStr.upper fr.1, PyStr.upper fr.2)).
  { destruct s1 as [|c t]; simpl; [done|].
    rewrite eqb_upper_point. destruct (Ascii.eqb c "."); [|done].
    by rewrite span_digits_upper. }
  rewrite Hfp. clear Hfp.
  destruct (match s1 with
            | EmptyString => (EmptyString, s1)
            | String c t =>
                if Ascii.eqb c "." then PyFloat.span_digits t else (EmptyString, s1)
            end) as [fp s2]; simpl.
  rewrite <- upper_app.
  destruct (String.append ip fp) as [|a ds] eqn:Hds; [done|].
  change (PyStr.upper (String a ds)) with (String (PyStr.upper_char a) (PyStr.upper ds)).
  cbv iota.
  change (String (PyStr.upper_char a) (PyStr.upper ds)) with (PyStr.upper (String a ds)).
  rewrite digits_value_upper, parse_exponent_upper, length_upper.
  destruct (PyFloat.digits_value (String a ds)); simpl; [|done].
  destruct (PyFloat.parse_exponent s2) as [[ex s3]|]; simpl; [|done].
  by destruct s3.
Qed.

Lemma parse_special_upper neg s :
  PyFloat.parse_special neg (PyStr.upper s) = PyFloat.parse_special neg s.
Proof. unfold PyFloat.parse_special. by rewrite lower_upper. Qed.

Lemma of_string_upper s : PyFloat.of_string (PyStr.upper s) = PyFloat.of_string s.
Proof.
  unfold PyFloat.of_string.
  change "000"%char with (PyStr.upper_char "000") at 1.
  rewrite drop_underscores_upper.
  destruct (PyFloat.drop_underscores "000" s) as [s1|]; simpl; [|done].
  rewrite lstrip_upper, rstrip_upper, split_sign_upper.
  destruct (PyFloat.split_sign _) as [neg body]; simpl.
  by rewrite parse_special_upper, parse_decimal_upper.
Qed.

(** ** A float literal is made of few characters *)

Lemma all_chars_lower P s :
  all_chars (fun c => P (PyStr.lower_char c)) s = all_chars P (PyStr.lower s).
Proof. induction s as [|c s IH]; simpl; [done|]. by rewrite IH. Qed.

Lemma literal_digit c : PyFloat.is_digit c = true -> literal_char c = true.
Proof. destruct c as [[] [] [] [] [] [] [] []]; vm_compute; done. Qed.

Lemma literal_space c : PyFloat.is_space c = true -> literal_char c = true.
Proof. destruct c as [[] [] [] [] [] [] [] []]; vm_compute; done. Qed.

Lemma literal_exp c : Ascii.eqb c "e" || Ascii.eqb c "E" = true -> literal_char c = true.
Proof. destruct c as [[] [] [] [] [] [] [] []]; vm_compute; done. Qed.

Lemma drop_underscores_chars p s s1 :
  PyFloat.drop_underscores p s = Some s1 ->
  all_chars literal_char s1 = true -> all_chars literal_char s = true.
Proof.
  revert p s1. induction s as [|c s IH]; intros p s1; simpl; [done|].
  destruct (Ascii.eqb_spec c "_") as [->|Hc].
  - destruct (PyFloat.is_digit p); [|done]. intros H1 H2. by rewrite (IH _ _ H1 H2).
  - destruct (Ascii.eqb p "_" && negb (PyFloat.is_digit c)); [done|].
    destruct (PyFloat.drop_underscores c s) as [s2|] eqn:H2; [|done].
    intros [= <-]; simpl. intros [-> H]%andb_prop. by rewrite (IH _ _ H2 H).
Qed.

Lemma lstrip_chars s :
  all_chars literal_char (PyFloat.lstrip s) = true -> all_chars literal_char s = true.
Proof.
  induction s as [|c s IH]; simpl; [done|].
  destruct (PyFloat.is_space c) eqn:Hc; [|done].
  intros H. by rewrite (literal_space _ Hc), IH.
Qed.

Lemma rstrip_chars s :
  all_chars literal_char (PyFloat.rstrip s) = true -> all_chars literal_char s = true.
Proof.
  induction s as [|c s IH]; simpl; [done|].
  destruct (PyFloat.rstrip s) as [|d r]; simpl.
  - destruct (PyFloat.is_space c) eqn:Hc; simpl.
    + intros _. by rewrite (literal_space _ Hc), IH.
    + rewrite andb_true_r. intros ->. by rewrite IH.
  - intros [-> H]%andb_prop. by rewrite IH.
Qed.

Lemma split_sign_chars s :
  all_chars literal_char (PyFloat.split_sign s).2 = true ->
  all_chars literal_char s = true.
Proof.
  destruct s as [|c s]; simpl; [done|].
  destruct (Ascii.eqb_spec c "-") as [->|_]; simpl; [by intros ->|].
  destruct (Ascii.eqb_spec c "+") as [->|_]; simpl; [by intros ->|]. done.
Qed.

Lemma span_digits_chars s :
  all_chars literal_char s
  = all_chars literal_char (PyFloat.span_digits s).2.
Proof.
  induction s as [|c s IH]; simpl; [done|].
  destruct (PyFloat.is_digit c) eqn:Hc; [|done].
  rewrite (literal_digit _ Hc), IH. by destruct (PyFloat.span_digits s).
Qed.

Lemma parse_special_chars neg s x :
  PyFloat.parse_special neg s = Some x -> all_chars literal_char s = true.
Proof.
  unfold PyFloat.parse_special, literal_char. rewrite all_chars_lower.
  destruct (String.eqb_spec (PyStr.lower s) "inf") as [->|_]; [done|].
  destruct (String.eqb_spec (PyStr.lower s) "infinity") as [->|_]; [done|].
  destruct (String.eqb_spec (PyStr.lower s) "nan") as [->|_]; done.
Qed.

Lemma parse_exponent_chars s ex :
  PyFloat.parse_exponent s = Some (ex, EmptyString) ->
  all_chars literal_char s = true.
Proof.
  destruct s as [|c s]; simpl; [done|].
  destruct (Ascii.eqb c "e" || Ascii.eqb c "E") eqn:Hc; [|done].
  rewrite (literal_exp _ Hc); simpl.
  pose proof (split_sign_chars s) as Hs.
  destruct (PyFloat.split_sign s) as [neg t]; simpl in Hs.
  pose proof (span_digits_chars t) as Ht.
  destruct (PyFloat.span_digits t) as [d r]; simpl in Ht.
  destruct d as [|a d]; [done|].
  destruct (PyFloat.digits_value (String a d)); simpl; [|done].
  intros [= _ ->]. apply Hs. by rewrite Ht.
Qed.

Lemma parse_decimal_chars neg s x :
  PyFloat.parse_decimal neg s = Some x -> all_chars literal_char s = true.
Proof.
  unfold PyFloat.parse_decimal.
  rewrite (span_digits_chars s).
  destruct (PyFloat.span_digits s) as [ip s1]; simpl.
  assert (Hfp : forall fp s2,
    match s1 with
    | EmptyString => (EmptyString, s1)
    | String c t =>
        if Ascii.eqb c "." then PyFloat.span_digits t else (EmptyString, s1)
    end = (fp, s2) ->
    all_chars literal_char s2 = true -> all_chars literal_char s1 = true).
  { intros fp s2. destruct s1 as [|c t]; [by intros [= _ <-]|].
    destruct (Ascii.eqb_spec c ".") as [->|_]; [|by intros [= _ <-]].
    intros Hsp H2; simpl. rewrite (span_digits_chars t), Hsp. done. }
  destruct (match s1 with
            | EmptyString => (EmptyString, s1)
            | String c t =>
                if Ascii.eqb c "." then PyFloat.span_digits t else (EmptyString, s1)
            end) as [fp s2].
  specialize (Hfp fp s2 eq_refl).
  destruct (String.append ip fp); [done|].
  destruct (PyFloat.digits_value _); simpl; [|done].
  destruct (PyFloat.parse_exponent s2) as [[ex s3]|] eqn:He; simpl; [|done].
  destruct s3; [|done]. intros _. eauto using parse_exponent_chars.
Qed.

Lemma of_string_chars s x :
  PyFloat.of_string s = Ok x -> all_chars literal_char s = true.
Proof.
  unfold PyFloat.of_string.
  destruct (PyFloat.drop_underscores "000" s) as [s1|] eqn:H1; [|done].
  intros H. eapply drop_underscores_chars; [done|].
  apply lstrip_chars, rstrip_chars, split_sign_chars.
  destruct (PyFloat.split_sign _) as [neg body]; simpl.
  destruct (PyFloat.parse_special neg body) eqn:Hs;
    [by eapply parse_special_chars|].
  destruct (PyFloat.parse_decimal neg body) eqn:Hd;
    [by eapply parse_decimal_chars|done].
Qed.

(** A character that no literal holds makes [float] raise. *)
Lemma of_string_foreign c s :
  literal_char c = false -> PyStr.char_in c s = true ->
  PyFloat.of_string s = Raise ValueError.
Proof.
  intros Hc Hin.
  destruct (PyFloat.of_string s) as [x|e] eqn:H.
  - apply of_string_chars in H. exfalso.
    induction s as [|d s IH]; simpl in *; [done|].
    apply andb_prop in H as [Hd Hs].
    destruct (Ascii.eqb_spec d c) as [->|_]; [congruence|]. by apply IH.
  - revert H. unfold PyFloat.of_string.
    destruct (PyFloat.drop_underscores "000" s); [|by intros [= <-]].
    destruct (PyFloat.split_sign _) as [neg body].
    destruct (PyFloat.parse_special neg body); [done|].
    destruct (PyFloat.parse_decimal neg body); [done|]. by intros [= <-].
Qed.

(** ** The funding amount *)

Lemma remove_char_absent c s :
  PyStr.char_in c s = false -> PyStr.remove_char c s = s.
Proof.
  induction s as [|d s IH]; simpl; [done|].
  destruct (Ascii.eqb d c); simpl; [done|]. intros H. by rewrite IH.
Qed.

Lemma char_in_remove_other c d s :
  c <> d -> PyStr.char_in c (PyStr.remove_char d s) = PyStr.char_in c s.
Proof.
  intros Hcd. induction s as [|a s IH]; simpl; [done|].
  destruct (Ascii.eqb_spec a d) as [->|_]; simpl.
  - rewrite IH. by destruct (Ascii.eqb_spec d c) as [->|_].
  - by rewrite IH.
Qed.

Lemma literal_chars_absent c s :
  literal_char c = false -> all_chars literal_char s = true ->
  PyStr.char_in c s = false.
Proof.
  intros Hc. induction s as [|d s IH]; simpl; [done|].
  intros [Hd Hs]%andb_prop. rewrite (IH Hs).
  destruct (Ascii.eqb_spec d c) as [->|_]; [congruence|done].
Qed.

Lemma of_string_raises s e : PyFloat.of_string s = Raise e -> e = ValueError.
Proof.
  unfold PyFloat.of_string.
  destruct (PyFloat.drop_underscores "000" s); [|by intros [= <-]].
  destruct (PyFloat.split_sign _) as [neg body].
  destruct (PyFloat.parse_special neg body); [done|].
  destruct (PyFloat.parse_decimal neg body); [done|]. by intros [= <-].
Qed.

(** The code's funding amount is the specification's Normalizer. *)
Lemma funding_Normalizer text : funding (PStr text) = Spec.Normalizer text.
Proof.
  unfold funding, funding_str, funding_of_text, Spec.Normalizer; simpl.
  fold (Spec.strip_separators text). set (cleaned := Spec.strip_separators text).
  rewrite (char_in_upper "M" "m" eqb_upper_M), (char_in_upper "B" "b" eqb_upper_B).
  rewrite (remove_char_upper "M" "m" eqb_upper_M).
  rewrite (remove_char_upper "B" "b" eqb_upper_B).
  by rewrite !of_string_upper.
Qed.

Lemma Normalizer_raises text e : Spec.Normalizer text = Raise e -> e = ValueError.
Proof.
  unfold Spec.Normalizer.
  destruct (Spec.has_letter "M" "m" _); [|destruct (Spec.has_letter "B" "b" _)];
    eauto using of_string_raises;
    destruct (PyFloat.of_string _) eqn:Hread; simpl; try done;
    intros [= <-]; eauto using of_string_raises.
Qed.




(** Stripping the separators keeps the letters. *)
Lemma letter_kept_M text :
  PyStr.char_in "M" (PyStr.upper text) = true ->
  PyStr.char_in "M" (PyStr.upper (Spec.strip_separators text)) = true.
Proof.
  rewrite !(char_in_upper "M" "m" eqb_upper_M).
  unfold Spec.has_letter, Spec.strip_separators.
  by rewrite !char_in_remove_other.
Qed.

Lemma letter_kept_B text :
  PyStr.char_in "B" (PyStr.upper text) = true ->
  PyStr.char_in "B" (PyStr.upper (Spec.strip_separators text)) = true.
Proof.
  rewrite !(char_in_upper "B" "b" eqb_upper_B).
  unfold Spec.has_letter, Spec.strip_separators.
  by rewrite !char_in_remove_other.
Qed.

(** A text with an M, in either case, takes the M branch, whatever else it
    holds. *)
Lemma funding_M_branch text :
  PyStr.char_in "M" (PyStr.upper text) = true ->
  funding (PStr text)
  = (x ← PyFloat.of_string
          (PyStr.remove_char "M" (PyStr.upper (Spec.strip_separators text)));
     Ok (PyFloat.mul x (PyFloat.of_int 1000000))).
Proof.
  intros HM. unfold funding, funding_str, funding_of_text; simpl.
  fold (Spec.strip_separators text).
  by rewrite (letter_kept_M text HM).
Qed.

(** With a B as well, the remainder still holds the B, which no float
    literal has: such a text never parses. *)
Lemma funding_M_and_B_raises text :
  PyStr.char_in "M" (PyStr.upper text) = true ->
  PyStr.char_in "B" (PyStr.upper text) = true ->
  funding (PStr text) = Raise ValueError.
Proof.
  intros HM HB. unfold funding, funding_str, funding_of_text; simpl.
  fold (Spec.strip_separators text). rewrite (letter_kept_M text HM).
  rewrite (of_string_foreign "B"); [done|done|].
  rewrite char_in_remove_other by done. by apply letter_kept_B.
Qed.

(** ** The loop of [filter_startups] *)

Lemma loop_body_turn st r o :
  turn r = Ok o -> loop_body st r = Ok (extend st [r] [o]).
Proof.
  intros Ho. unfold loop_body, extend. rewrite Ho.
  destruct o; simpl; by rewrite ?app_nil_r.
Qed.

Lemma loop_body_raise st r e : turn r = Raise e -> loop_body st r = Raise e.
Proof. intros Ho. unfold loop_body. by rewrite Ho. Qed.

Lemma extend_nil st : extend st [] [] = st.
Proof. destruct st; unfold extend; simpl. by rewrite !app_nil_r. Qed.

Lemma extend_cons st r rs o os :
  extend (extend st [r] [o]) rs os = extend st (r :: rs) (o :: os).
Proof. unfold extend; simpl. by rewrite ?app_nil_r, <- !app_assoc. Qed.

Lemma for_each_loop_body rs st st' :
  for_each loop_body rs st = Ok st' <->
  exists os, Forall2 (fun r o => turn r = Ok o) rs os /\ st' = extend st rs os.
Proof.
  revert st. induction rs as [|r rs IH]; intros st; cbn [for_each].
  - split.
    + intros [= <-]. exists []. by rewrite extend_nil.
    + intros (os & Hos & ->). inversion Hos; subst. by rewrite extend_nil.
  - destruct (turn r) as [o|e] eqn:Ho.
    + rewrite (loop_body_turn _ _ _ Ho).
      change (for_each loop_body rs (extend st [r] [o]) = Ok st' <->
              exists os, Forall2 (fun r o => turn r = Ok o) (r :: rs) os
                         /\ st' = extend st (r :: rs) os).
      rewrite IH. split.
      * intros (os & Hos & ->). exists (o :: os). split; [by constructor|].
        apply extend_cons.
      * intros (os & Hos & ->). inversion Hos as [|? o' ? os' Ho' Hos']; subst.
        assert (o' = o) as -> by congruence.
        exists os'. split; [done|]. symmetry. apply extend_cons.
    + rewrite (loop_body_raise _ _ _ Ho). split; [done|].
      intros (os & Hos & _). inversion Hos; congruence.
Qed.

Lemma filter_startups_outcomes rs st :
  filter_startups rs = Ok st <->
  exists os, Forall2 (fun r o => turn r = Ok o) rs os
    /\ st = {| objects := zip_with object_after rs os;
               filtered := concat (kept <$> os);
               warnings := concat (warned <$> os) |}.
Proof. unfold filter_startups. by rewrite for_each_loop_body. Qed.

(** ** One row *)

Lemma lower_eqb_empty s : String.eqb (PyStr.lower s) "" = String.eqb s "".
Proof. by destruct s. Qed.

Lemma not_ipod_forallb s :
  not_ipod s = forallb (fun word => negb (String.eqb s word)) ["ipo"; "public"; "listed"].
Proof.
  unfold not_ipod, PyStr.in_list. cbn [existsb forallb].
  by destruct (String.eqb s "ipo"), (String.eqb s "public"), (String.eqb s "listed").
Qed.

Lemma get_text r k default :
  r !! k <> Some PNone ->
  get r k default = PStr (match r !! k with Some (PStr s) => s | _ => default end).
Proof. unfold get. by destruct (r !! k) as [[]|]. Qed.

Lemma funding_default : funding (PStr "0") = Ok (S754_zero false).
Proof. vm_compute. reflexivity. Qed.

Lemma Normalizer_empty : Spec.Normalizer "" = Raise ValueError.
Proof. vm_compute. reflexivity. Qed.

Lemma examine_text r :
  r !! "location" <> Some PNone -> r !! "status" <> Some PNone ->
  r !! "ipo_status" <> Some PNone ->
  examine r = x ← funding (get r "funding_amount" "0"); Ok (verdict r x).
Proof.
  intros Hl Hs Hi. unfold examine.
  rewrite (get_text r "location"), (get_text r "status"), (get_text r "ipo_status")
    by done.
  destruct (funding _) as [x|e]; [|done].
  unfold verdict, Spec.location_ok, Spec.status_ok, Spec.ipo_ok, Spec.field.
  cbn [mbind result_bind bind fmap result_fmap str_receiver].
  unfold meets_location, meets_status.
  rewrite lower_eqb_empty, not_ipod_forallb.
  by destruct (_ && _).
Qed.

Lemma examine_cases r :
  examine r
  = x ← funding (get r "funding_amount" "0");
    if side_cells_text r then Ok (verdict r x) else Raise AttributeError.
Proof.
  destruct (side_cells_text r) eqn:Hside.
  - unfold side_cells_text in Hside.
    apply andb_prop in Hside as [[Hl Hs]%andb_prop Hi].
    apply examine_text; intros H; rewrite H in *; done.
  - unfold side_cells_text in Hside. unfold examine, get.
    destruct (funding _) as [x|e]; [|done].
    cbn [mbind result_bind bind fmap result_fmap].
    destruct (r !! "location") as [[l|]|]; cbn [str_receiver bind]; try done;
      (destruct (r !! "status") as [[s|]|]; cbn [str_receiver bind]; try done);
      (destruct (r !! "ipo_status") as [[i|]|]; cbn [str_receiver bind]; done).
Qed.

Lemma turn_cases r :
  turn r
  = match funding (get r "funding_amount" "0") with
    | Ok x => if side_cells_text r then Ok (verdict r x) else Raise AttributeError
    | Raise e =>
        if caught e then Ok (Skipped (py_str (get r "company_name" "Unknown")))
        else Raise e
    end.
Proof.
  unfold turn. rewrite examine_cases.
  destruct (funding _) as [x|e]; [|done].
  by destruct (side_cells_text r).
Qed.

Lemma verdict_eligible r text x :
  r !! "funding_amount" = Some (PStr text) -> Spec.Normalizer text = Ok x ->
  verdict r x = if Spec.eligible r then Kept (Spec.EligibleRecord r) else Dropped.
Proof.
  intros Hr Hx.
  unfold verdict, Spec.eligible, Spec.funding_ok, Spec.EligibleRecord,
    Spec.FundingAmount, Spec.field.
  by rewrite Hr, Hx.
Qed.

(** What a turn that returns has done, in the words of the specification. *)
Lemma turn_spec r o :
  turn r = Ok o ->
  (Spec.eligible r = true /\ o = Kept (Spec.EligibleRecord r))
  \/ (Spec.eligible r = false
      /\ (o = Dropped \/ o = Skipped (py_str (get r "company_name" "Unknown")))).
Proof.
  rewrite turn_cases. unfold get at 1.
  destruct (r !! "funding_amount") as [[text|]|] eqn:Hr.
  - rewrite funding_Normalizer.
    destruct (Spec.Normalizer text) as [x|e] eqn:Hx.
    + destruct (side_cells_text r); [|done].
      rewrite (verdict_eligible _ _ _ Hr Hx).
      destruct (Spec.eligible r); intros [= <-]; auto.
    + assert (Spec.eligible r = false) as ->.
      { unfold Spec.eligible, Spec.funding_ok, Spec.field. by rewrite Hr, Hx. }
      destruct (caught e); [|done]. intros [= <-]; auto.
  - done.
  - rewrite funding_default.
    assert (Spec.eligible r = false) as ->.
    { unfold Spec.eligible, Spec.funding_ok, Spec.field.
      by rewrite Hr, Normalizer_empty. }
    destruct (side_cells_text r); [|done].
    unfold verdict. replace (meets_funding (S754_zero false)) with false by done.
    intros [= <-]; auto.
Qed.

(** On a row whose cells are text the turn returns. *)
Lemma turn_total r : text_row r -> exists o, turn r = Ok o.
Proof.
  intros (Hf & Hl & Hs & Hi). rewrite turn_cases.
  assert (side_cells_text r = true) as ->.
  { unfold side_cells_text.
    by destruct (r !! "location") as [[]|], (r !! "status") as [[]|],
      (r !! "ipo_status") as [[]|]. }
  unfold get. destruct (r !! "funding_amount") as [[text|]|]; [|done|].
  - rewrite funding_Normalizer.
    destruct (Spec.Normalizer text) as [x|e] eqn:Hx; [eauto|].
    apply Normalizer_raises in Hx as ->. simpl. eauto.
  - rewrite funding_default. eauto.
Qed.

Lemma kept_eligible rs os :
  Forall2 (fun r o => turn r = Ok o) rs os ->
  concat (kept <$> os) = Spec.EligibleRecord <$> List.filter Spec.eligible rs.
Proof.
  induction 1 as [|r o rs os Ho _ IH]; [done|].
  cbn [fmap list_fmap concat List.filter]. rewrite IH.
  destruct (turn_spec _ _ Ho) as [[-> ->]|[-> [->| ->]]]; done.
Qed.

Lemma objects_eligible rs os :
  Forall2 (fun r o => turn r = Ok o) rs os ->
  zip_with object_after rs os
  = (fun r => if Spec.eligible r then Spec.EligibleRecord r else r) <$> rs.
Proof.
  induction 1 as [|r o rs os Ho _ IH]; [done|].
  cbn [fmap list_fmap zip_with]. rewrite IH.
  destruct (turn_spec _ _ Ho) as [[-> ->]|[-> [->| ->]]]; done.
Qed.

Lemma filtered_eligible rs st :
  filter_startups rs = Ok st ->
  filtered st = Spec.EligibleRecord <$> List.filter Spec.eligible rs.
Proof.
  intros (os & Hos & ->)%filter_startups_outcomes. simpl. by apply kept_eligible.
Qed.

(** The rows of [self.startups] after the run: the eligible ones are the
    records of [filtered], the others are as they were. *)
Lemma objects_after_run rs st :
  filter_startups rs = Ok st ->
  objects st = (fun r => if Spec.eligible r then Spec.EligibleRecord r else r) <$> rs.
Proof.
  intros (os & Hos & ->)%filter_startups_outcomes. simpl. by apply objects_eligible.
Qed.

Lemma filter_startups_total rs :
  Forall text_row rs -> exists st, filter_startups rs = Ok st.
Proof.
  intros Hrs.
  assert (exists os, Forall2 (fun r o => turn r = Ok o) rs os) as [os Hos].
  { induction Hrs as [|r rs Hr _ [os IH]]; [by exists []|].
    destruct (turn_total _ Hr) as [o Ho]. exists (o :: os). by constructor. }
  eexists. apply filter_startups_outcomes. eauto.
Qed.

(** ** The eligibility filter *)

Lemma sample_rows_text : Forall text_row sample_rows.
Proof. repeat constructor; vm_compute; discriminate. Qed.

(** The end-to-end example: only row A is eligible. *)
Lemma sample_run : filter_startups sample_rows = Ok sample_state.
Proof. by_evaluation. Qed.



Lemma mixed_run : filter_startups mixed_rows = Ok mixed_state.
Proof. by_evaluation. Qed.



(** ** The status test *)

Lemma starts_with_prefix needle hay :
  PyStr.starts_with needle hay = true <->
  exists after, hay = String.append needle after.
Proof.
  revert hay. induction needle as [|a n IH]; intros hay; simpl.
  - split; [eauto|done].
  - destruct hay as [|b h]; [split; [done|by intros [? [=]]]|].
    rewrite andb_true_iff, IH. split.
    + intros [->%Ascii.eqb_eq [after ->]]. eauto.
    + intros [after [= -> ->]]. split; [apply Ascii.eqb_refl|eauto].
Qed.

Lemma contains_substring needle hay :
  PyStr.contains needle hay = true <-> Spec.substring needle hay.
Proof.
  unfold Spec.substring. induction hay as [|b h IH].
  - cbn [PyStr.contains]. rewrite orb_false_r, starts_with_prefix. split.
    + intros [after ->]. by exists EmptyString, after.
    + intros ([|c before] & after & H); [eauto|done].
  - cbn [PyStr.contains]. rewrite orb_true_iff, starts_with_prefix, IH. split.
    + intros [[after ->]|(before & after & ->)].
      * by exists EmptyString, after.
      * by exists (String b before), after.
    + intros ([|c before] & after & H); simpl in H; [eauto|].
      injection H as -> ->. eauto.
Qed.

(** C6: the status test is literal containment of "active" in the lower-cased
    status, an empty status passing too; an absent status is read as empty.
    So the statuses "", "Active, hiring" and "inactive" all pass, the last
    because "inactive" has "active" within it; a row with status "inactive"
    that passes the other tests is kept. *)
Theorem status_contains_active :
  (forall status,
     meets_status (PyStr.lower status) = true <->
     Spec.substring "active" (PyStr.lower status) \/ status = "")
  /\ (forall r : record, r !! "status" = None -> get r "status" "" = PStr "")
  /\ meets_status (PyStr.lower "") = true
  /\ meets_status (PyStr.lower "Active, hiring") = true
  /\ meets_status (PyStr.lower "inactive") = true
  /\ filtered <$> filter_startups [sample_row "X" "150M" "Austin, USA" "inactive" ""]
     = Ok [Spec.EligibleRecord (sample_row "X" "150M" "Austin, USA" "inactive" "")].
Proof.
  split.
  { intros status. unfold meets_status.
    rewrite orb_true_iff, contains_substring, lower_eqb_empty, String.eqb_eq. done. }
  split; [by intros r Hr; unfold get; rewrite Hr|].
  repeat (split; [by_evaluation|]). by_evaluation.
Qed.

Lemma status_contains_active_witness :
  Spec.substring "active" (PyStr.lower "Inactive") \/ "Inactive"%string = ""%string.
Proof.
  apply (proj1 (proj1 status_contains_active "Inactive")). reflexivity.
Defined.

(** ** Export *)

(** C7: exporting a non-empty list of records to a writable destination
    writes the header and exactly one data row per record, each with one cell
    per column: as many data rows as the filter found eligible records. *)
Theorem export_row_count (filtered_startups : list record) :
  filtered_startups <> [] ->
  exists rows,
    export_to_csv filtered_startups true = (true, Some (fieldnames :: rows))
    /\ length rows = length filtered_startups
    /\ Forall (fun row => length row = length fieldnames) rows.
Proof.
  intros Hne. exists (row_of <$> filtered_startups).
  split; [by destruct filtered_startups|].
  split; [apply length_fmap|].
  apply Forall_fmap, Forall_true. intros r. unfold compose, row_of.
  apply length_fmap.
Qed.

Lemma export_row_count_witness :
  exists rows,
    export_to_csv sample_rows true = (true, Some (fieldnames :: rows))
    /\ length rows = length sample_rows
    /\ Forall (fun row => length row = length fieldnames) rows.
Proof. apply (export_row_count sample_rows). discriminate. Defined.

(** ** Rows without a funding cell, and rows with an empty one *)

(** C10: a row without the key [funding_amount] is read as the text 0, which
    parses to the amount 0 and fails the threshold: the row is dropped and no
    skip warning is printed (its location, status and IPO cells being text or
    absent). *)
Theorem absent_funding_dropped (r : record) :
  r !! "funding_amount" = None -> side_cells_text r = true ->
  get r "funding_amount" "0" = PStr "0"
  /\ funding (PStr "0") = Ok (S754_zero false)
  /\ meets_funding (S754_zero false) = false
  /\ turn r = Ok Dropped
  /\ filter_startups [r] = Ok {| objects := [r]; filtered := []; warnings := [] |}.
Proof.
  intros Hr Hside.
  assert (Hget : get r "funding_amount" "0" = PStr "0") by (unfold get; by rewrite Hr).
  assert (Hturn : turn r = Ok Dropped).
  { rewrite turn_cases, Hget, funding_default, Hside. done. }
  split; [done|]. split; [apply funding_default|].
  split; [done|]. split; [done|].
  apply filter_startups_outcomes. exists [Dropped]. split; [by repeat constructor|done].
Qed.

Lemma absent_funding_dropped_witness :
  filter_startups [{[ "company_name" := PStr "Nameless"; "location" := PStr "USA" ]}]
  = Ok {| objects := [{[ "company_name" := PStr "Nameless"; "location" := PStr "USA" ]}];
          filtered := []; warnings := [] |}.
Proof.
  apply (absent_funding_dropped
           {[ "company_name" := PStr "Nameless"; "location" := PStr "USA" ]});
    reflexivity.
Defined.

(** ** Rows that do not parse *)

Lemma turn_unparsable r text :
  r !! "funding_amount" = Some (PStr text) ->
  Spec.Normalizer text = Raise ValueError ->
  turn r = Ok (Skipped (py_str (get r "company_name" "Unknown"))).
Proof.
  intros Hr Hx. rewrite turn_cases. unfold get at 1.
  by rewrite Hr, funding_Normalizer, Hx.
Qed.

Lemma Forall2_turn_app rs1 rs2 os :
  Forall2 (fun r o => turn r = Ok o) (rs1 ++ rs2) os ->
  exists os1 os2, os = os1 ++ os2
    /\ Forall2 (fun r o => turn r = Ok o) rs1 os1
    /\ Forall2 (fun r o => turn r = Ok o) rs2 os2.
Proof. intros (os1 & os2 & H1 & H2 & ->)%Forall2_app_inv_l. eauto. Qed.

(** C4, as the code has it: a funding text with an M, in either case, takes
    the M branch whether or not it has a B, and gives what [float] reads from
    the upper-cased cleaned text without its M, times 1,000,000, when [float]
    reads it.  With a B as well it never does: the B is still there, the
    Normalizer fails with [ValueError], no amount is produced, and the row is
    skipped with a warning. *)
Theorem funding_M_and_B_fails text :
  Spec.has_letter "M" "m" text = true ->
  funding (PStr text)
  = (x ← PyFloat.of_string
          (PyStr.remove_char "M" (PyStr.upper (Spec.strip_separators text)));
     Ok (PyFloat.mul x (PyFloat.of_int 1000000)))
  /\ (Spec.has_letter "B" "b" text = true ->
      PyStr.char_in "B"
        (PyStr.remove_char "M" (PyStr.upper (Spec.strip_separators text))) = true
      /\ funding (PStr text) = Raise ValueError
      /\ forall r,
           r !! "funding_amount" = Some (PStr text) ->
           turn r = Ok (Skipped (shown_name r))).
Proof.
  rewrite <- (char_in_upper "M" "m" eqb_upper_M).
  intros HM. split; [by apply funding_M_branch|].
  rewrite <- (char_in_upper "B" "b" eqb_upper_B). intros HB.
  split; [rewrite char_in_remove_other by done; by apply letter_kept_B|].
  split; [by apply funding_M_and_B_raises|].
  intros r Hr. apply (turn_unparsable r text Hr).
  rewrite <- funding_Normalizer. by apply funding_M_and_B_raises.
Qed.

Lemma funding_M_and_B_fails_witness :
  Spec.has_letter "M" "m" "$1.5mb" = true
  /\ Spec.has_letter "B" "b" "$1.5mb" = true
  /\ funding (PStr "$1.5mb") = Raise ValueError
  /\ turn (sample_row "Both" "$1.5mb" "USA" "active" "private") = Ok (Skipped "Both")
  /\ Spec.has_letter "M" "m" "150m" = true
  /\ funding (PStr "150m")
     = (x ← PyFloat.of_string "150"; Ok (PyFloat.mul x (PyFloat.of_int 1000000)))
  /\ PyFloat.to_integer <$> funding (PStr "150m") = Ok (Some 150000000%Z).
Proof.
  destruct (funding_M_and_B_fails "$1.5mb" eq_refl) as [_ H].
  destruct (H eq_refl) as (_ & Hfunding & Hturn).
  split; [reflexivity|]. split; [reflexivity|]. split; [exact Hfunding|].
  split; [exact (Hturn (sample_row "Both" "$1.5mb" "USA" "active" "private") eq_refl)|].
  split; [reflexivity|].
  split; [exact (proj1 (funding_M_and_B_fails "150m" eq_refl))|].
  vm_compute. reflexivity.
Defined.

(** C4 as stated fails: the text 1.5MB has an M and a B, and the Normalizer
    gives no amount for it, so not 1,500,000 nor any other parsed remainder
    times 1,000,000; the row is skipped. *)
Lemma funding_M_and_B_no_amount :
  funding (PStr "1.5MB") = Raise ValueError
  /\ (forall x, funding (PStr "1.5MB") <> Ok (PyFloat.mul x (PyFloat.of_int 1000000)))
  /\ PyFloat.of_string (PyStr.remove_char "M" (PyStr.upper "1.5MB")) = Raise ValueError
  /\ turn (sample_row "Both" "1.5MB" "USA" "active" "private") = Ok (Skipped "Both").
Proof.
  assert (H : funding (PStr "1.5MB") = Raise ValueError) by by_evaluation.
  split; [exact H|]. split; [intros x; by rewrite H|].
  split; by_evaluation.
Qed.

(** A row whose funding text does not parse is left out, its name is
    reported, and the rows before and after it are handled as without it. *)
Lemma unparsable_row_skipped rs1 r rs2 text st :
  r !! "funding_amount" = Some (PStr text) ->
  Spec.Normalizer text = Raise ValueError ->
  filter_startups (rs1 ++ r :: rs2) = Ok st ->
  exists st1 st2,
    filter_startups rs1 = Ok st1 /\ filter_startups rs2 = Ok st2
    /\ filtered st = filtered st1 ++ filtered st2
    /\ warnings st
       = warnings st1 ++ py_str (get r "company_name" "Unknown") :: warnings st2
    /\ objects st = objects st1 ++ r :: objects st2.
Proof.
  intros Hr Hx (os & Hos & ->)%filter_startups_outcomes.
  apply Forall2_turn_app in Hos as (os1 & os' & -> & H1 & H2).
  inversion H2 as [|? o ? os2 Ho H2']; subst.
  rewrite (turn_unparsable _ _ Hr Hx) in Ho. injection Ho as <-.
  eexists _, _. split; [apply filter_startups_outcomes; eauto|].
  split; [apply filter_startups_outcomes; eauto|]. simpl.
  rewrite !fmap_app, !concat_app. simpl.
  repeat split.
  rewrite zip_with_app by eauto using Forall2_length. done.
Qed.

(** C5, where the code departs from it: a line shorter than the header gives
    a row whose funding cell is [None]; calling [replace] on it raises
    [AttributeError], which the [except] clause does not catch, and the run
    ends there, before the rows that follow are looked at. *)
Theorem short_row_aborts :
  funding (get short_row "funding_amount" "0") = Raise AttributeError
  /\ caught AttributeError = false
  /\ turn short_row = Raise AttributeError
  /\ filter_startups (short_row :: sample_rows) = Raise AttributeError.
Proof. repeat split; by_evaluation. Qed.

(** ** The order of floats *)

Ltac order_cases :=
  repeat match goal with
  | |- context [Pos.compare_cont Eq ?a ?b] =>
      change (Pos.compare_cont Eq a b) with (a ?= b)%positive
  | |- context [(?a ?= ?b)%Z] => destruct (Z.compare_spec a b)
  | |- context [(?a ?= ?b)%positive] => destruct (Pos.compare_spec a b)
  end; cbn [CompOpp]; try done; try lia.

Lemma ltb_asym x y : PyFloat.ltb x y = true -> PyFloat.ltb y x = false.
Proof.
  unfold PyFloat.ltb, SFltb, SFcompare.
  destruct x as [[]|[]| |[] m1 e1], y as [[]|[]| |[] m2 e2]; try done;
    order_cases.
Qed.

(** On numbers, "not below" is transitive. *)
Lemma ltb_false_trans x y z :
  x <> S754_nan -> y <> S754_nan -> z <> S754_nan ->
  PyFloat.ltb y x = false -> PyFloat.ltb z y = false -> PyFloat.ltb z x = false.
Proof.
  unfold PyFloat.ltb, SFltb, SFcompare. intros Hx Hy Hz.
  destruct x as [[]|[]| |[] m1 e1]; try done;
    destruct y as [[]|[]| |[] m2 e2]; try done;
    destruct z as [[]|[]| |[] m3 e3]; try done;
    order_cases.
Qed.

Lemma eqb_not_ltb x y :
  PyFloat.eqb x y = true -> PyFloat.ltb x y = false /\ PyFloat.ltb y x = false.
Proof.
  unfold PyFloat.eqb, PyFloat.ltb, SFeqb, SFltb, SFcompare.
  destruct x as [[]|[]| |[] m1 e1], y as [[]|[]| |[] m2 e2]; try done;
    order_cases.
Qed.

Lemma eqb_nan_r x : PyFloat.eqb x S754_nan = false.
Proof. by destruct x as [| | |[]]. Qed.

Lemma eqb_refl x : x <> S754_nan -> PyFloat.eqb x x = true.
Proof.
  unfold PyFloat.eqb, SFeqb, SFcompare.
  destruct x as [[]|[]| |[] m e]; try done; intros _;
    rewrite Z.compare_refl;
    change (Pos.compare_cont Eq m m) with (m ?= m)%positive;
    by rewrite Pos.compare_refl.
Qed.

Lemma not_ltb_eqb x y :
  x <> S754_nan -> y <> S754_nan ->
  PyFloat.ltb x y = false -> PyFloat.ltb y x = false -> PyFloat.eqb x y = true.
Proof.
  unfold PyFloat.eqb, PyFloat.ltb, SFeqb, SFltb, SFcompare. intros Hx Hy.
  destruct x as [[]|[]| |[] m1 e1], y as [[]|[]| |[] m2 e2]; try done;
    order_cases.
Qed.

(** ** Sorting in reverse

    [good] singles out the keys that [lt] orders (for floats, the numbers);
    [same] is an equality test that agrees with [lt]. *)
Section SortedFacts.
Context {A K : Type} (lt same : K -> K -> bool) (key : A -> K) (good : K -> Prop).

Hypothesis lt_asym : forall x y, lt x y = true -> lt y x = false.
Hypothesis lt_false_trans : forall x y z,
  good x -> good y -> good z ->
  lt y x = false -> lt z y = false -> lt z x = false.
Hypothesis same_not_lt : forall x y,
  same x y = true -> lt x y = false /\ lt y x = false.

Lemma insert_reverse_perm x l : insert_reverse lt key x l ≡ₚ x :: l.
Proof.
  induction l as [|y l IH]; simpl; [done|].
  destruct (lt (key x) (key y)); [|done].
  rewrite IH. apply Permutation_swap.
Qed.

Lemma sorted_reverse_perm l : sorted_reverse lt key l ≡ₚ l.
Proof.
  induction l as [|x l IH]; simpl; [done|].
  by rewrite insert_reverse_perm, IH.
Qed.

Lemma insert_reverse_sorted x l :
  good (key x) -> Forall (fun a => good (key a)) l ->
  StronglySorted (not_below lt key) l ->
  StronglySorted (not_below lt key) (insert_reverse lt key x l).
Proof.
  intros Hx Hl Hs. induction Hs as [|y l Hs IH Hy]; simpl.
  - repeat constructor.
  - apply Forall_cons in Hl as [Hgy Hl].
    destruct (lt (key x) (key y)) eqn:Hxy.
    + constructor; [by apply IH|].
      rewrite insert_reverse_perm. constructor; [|done].
      by apply lt_asym.
    + constructor; [by constructor|].
      constructor; [done|].
      apply Forall_forall. intros z Hz.
      rewrite Forall_forall in Hy, Hl.
      unfold not_below in *. eapply lt_false_trans; eauto.
Qed.

Lemma sorted_reverse_sorted l :
  Forall (fun a => good (key a)) l ->
  StronglySorted (not_below lt key) (sorted_reverse lt key l).
Proof.
  induction 1 as [|x l Hx Hl IH]; simpl; [constructor|].
  apply insert_reverse_sorted; [done| |done].
  by rewrite sorted_reverse_perm.
Qed.

(** Stability: the elements whose key equals [k] keep their order. *)
Lemma insert_reverse_stable k x l :
  good k -> good (key x) -> Forall (fun a => good (key a)) l ->
  List.filter (fun a => same (key a) k) (insert_reverse lt key x l)
  = List.filter (fun a => same (key a) k) (x :: l).
Proof.
  intros Hk Hx Hl. induction Hl as [|y l Hy Hl IH]; [done|].
  cbn [insert_reverse]. destruct (lt (key x) (key y)) eqn:Hxy; [|done].
  cbn [List.filter] in *. rewrite IH.
  destruct (same (key x) k) eqn:Exk, (same (key y) k) eqn:Eyk; try done.
  apply same_not_lt in Exk as [Hxk _]. apply same_not_lt in Eyk as [_ Hky].
  rewrite (lt_false_trans (key y) k (key x)) in Hxy; done.
Qed.

Lemma sorted_reverse_stable k l :
  good k -> Forall (fun a => good (key a)) l ->
  List.filter (fun a => same (key a) k) (sorted_reverse lt key l)
  = List.filter (fun a => same (key a) k) l.
Proof.
  intros Hk. induction 1 as [|x l Hx Hl IH]; [done|].
  cbn [sorted_reverse foldr]. fold (sorted_reverse lt key l).
  rewrite insert_reverse_stable; [|done|done|by rewrite sorted_reverse_perm].
  cbn [List.filter]. by rewrite IH.
Qed.

(** Sorted and stable determine the list: whatever stable sort Python runs
    returns what [sorted_reverse] returns. *)
Hypothesis same_refl : forall x, good x -> same x x = true.
Hypothesis not_lt_same : forall x y,
  good x -> good y -> lt x y = false -> lt y x = false -> same x y = true.

Lemma lt_irrefl x : lt x x = false.
Proof.
  destruct (lt x x) eqn:H; [|done]. pose proof (lt_asym _ _ H). congruence.
Qed.

Lemma head_not_below a l b :
  StronglySorted (not_below lt key) (a :: l) -> In b (a :: l) ->
  lt (key a) (key b) = false.
Proof.
  intros Hs [<-|Hb]; [apply lt_irrefl|].
  apply StronglySorted_inv in Hs as [_ Hs]. rewrite Forall_forall in Hs.
  by apply Hs, list_elem_of_In.
Qed.

Lemma filter_head_in k a l1 l2 :
  same (key a) k = true ->
  List.filter (fun b => same (key b) k) (a :: l1)
  = List.filter (fun b => same (key b) k) l2 ->
  In a l2.
Proof.
  intros Ha H. cbn [List.filter] in H. rewrite Ha in H.
  assert (Hin : In a (List.filter (fun b => same (key b) k) l2))
    by (rewrite <- H; by left).
  by apply filter_In in Hin as [? _].
Qed.

Lemma sorted_stable_unique l1 l2 :
  Forall (fun a => good (key a)) l1 -> Forall (fun a => good (key a)) l2 ->
  StronglySorted (not_below lt key) l1 -> StronglySorted (not_below lt key) l2 ->
  (forall k, good k ->
     List.filter (fun a => same (key a) k) l1 = List.filter (fun a => same (key a) k) l2) ->
  l1 = l2.
Proof.
  revert l2. induction l1 as [|a1 l1 IH]; intros l2 Hg1 Hg2 Hs1 Hs2 Hst.
  - destruct l2 as [|a2 l2]; [done|].
    apply Forall_cons in Hg2 as [Ha2 _].
    specialize (Hst (key a2) Ha2). cbn [List.filter] in Hst.
    by rewrite (same_refl _ Ha2) in Hst.
  - apply Forall_cons in Hg1 as [Ha1 Hg1].
    destruct l2 as [|a2 l2].
    { specialize (Hst (key a1) Ha1). cbn [List.filter] in Hst.
      by rewrite (same_refl _ Ha1) in Hst. }
    apply Forall_cons in Hg2 as [Ha2 Hg2].
    assert (H12 : lt (key a1) (key a2) = false).
    { apply (head_not_below a1 l1); [done|].
      apply (filter_head_in (key a2) a2 l2); [by apply same_refl|].
      symmetry. by apply Hst. }
    assert (H21 : lt (key a2) (key a1) = false).
    { apply (head_not_below a2 l2); [done|].
      apply (filter_head_in (key a1) a1 l1); [by apply same_refl|].
      by apply Hst. }
    assert (a1 = a2) as <-.
    { pose proof (Hst (key a1) Ha1) as H. cbn [List.filter] in H.
      rewrite (same_refl _ Ha1), (not_lt_same _ _ Ha2 Ha1 H21 H12) in H.
      by injection H. }
    f_equal. apply IH; [done|done|by apply StronglySorted_inv in Hs1 as []
                       |by apply StronglySorted_inv in Hs2 as []|].
    intros k Hk. specialize (Hst k Hk). cbn [List.filter] in Hst.
    destruct (same (key a1) k); [by injection Hst|done].
Qed.

Lemma sorted_reverse_unique l l' :
  Forall (fun a => good (key a)) l -> l' ≡ₚ l ->
  StronglySorted (not_below lt key) l' ->
  (forall k, good k ->
     List.filter (fun a => same (key a) k) l' = List.filter (fun a => same (key a) k) l) ->
  l' = sorted_reverse lt key l.
Proof.
  intros Hg Hp Hs Hst. apply sorted_stable_unique.
  - by rewrite Hp.
  - by rewrite sorted_reverse_perm.
  - done.
  - by apply sorted_reverse_sorted.
  - intros k Hk. rewrite sorted_reverse_stable by done. by apply Hst.
Qed.
End SortedFacts.

(** Sorting the pairs of key and element by the key, and dropping the keys,
    sorts the elements. *)
Lemma insert_reverse_decorated {A K : Type} (lt : K -> K -> bool) (key : A -> K) x l :
  insert_reverse lt fst (key x, x) ((fun a => (key a, a)) <$> l)
  = (fun a => (key a, a)) <$> insert_reverse lt key x l.
Proof.
  induction l as [|y l IH]; [done|].
  cbn [fmap list_fmap insert_reverse fst] in *.
  destruct (lt (key x) (key y)); [|done]. by rewrite IH.
Qed.

Lemma sorted_reverse_decorated {A K : Type} (lt : K -> K -> bool) (key : A -> K) l :
  snd <$> sorted_reverse lt fst ((fun a => (key a, a)) <$> l)
  = sorted_reverse lt key l.
Proof.
  assert (H : sorted_reverse lt fst ((fun a => (key a, a)) <$> l)
              = (fun a => (key a, a)) <$> sorted_reverse lt key l).
  { induction l as [|x l IH]; [done|].
    unfold sorted_reverse in *. rewrite fmap_cons. cbn [foldr].
    rewrite IH. apply insert_reverse_decorated. }
  rewrite H, <- list_fmap_compose. apply list_fmap_id.
Qed.

(** ** Rounding never yields a NaN *)

Lemma shr_1_nonneg mrs : (0 <= shr_m mrs)%Z -> (0 <= shr_m (shr_1 mrs))%Z.
Proof. destruct mrs as [[|[p|p|]|p] r s]; simpl; lia. Qed.

Lemma iter_pos_shr_1_nonneg n mrs :
  (0 <= shr_m mrs)%Z -> (0 <= shr_m (SpecFloat.iter_pos shr_1 n mrs))%Z.
Proof.
  revert mrs. induction n as [n IH|n IH|]; intros mrs H; simpl;
    auto using shr_1_nonneg.
Qed.

Lemma shr_nonneg mrs e n : (0 <= shr_m mrs)%Z -> (0 <= shr_m (shr mrs e n).1)%Z.
Proof. destruct n; simpl; auto using iter_pos_shr_1_nonneg. Qed.

Lemma shr_fexp_nonneg m e l :
  (0 <= m)%Z -> (0 <= shr_m (shr_fexp PyFloat.prec PyFloat.emax m e l).1)%Z.
Proof. intros H. apply shr_nonneg. by destruct l as [|[]]. Qed.

Lemma round_nearest_even_nonneg m l :
  (0 <= m)%Z -> (0 <= round_nearest_even m l)%Z.
Proof. destruct l as [|[]]; simpl; try lia. destruct (Z.even m); lia. Qed.

Lemma binary_round_aux_not_nan s m e l :
  (0 <= m)%Z -> binary_round_aux PyFloat.prec PyFloat.emax s m e l <> S754_nan.
Proof.
  intros Hm. unfold binary_round_aux.
  pose proof (shr_fexp_nonneg m e l Hm) as H1.
  destruct (shr_fexp PyFloat.prec PyFloat.emax m e l) as [mrs' e']; simpl in H1.
  pose proof (shr_fexp_nonneg _ e' loc_Exact
                (round_nearest_even_nonneg _ (loc_of_shr_record mrs') H1)) as H2.
  destruct (shr_fexp PyFloat.prec PyFloat.emax _ e' loc_Exact) as [mrs'' e''].
  simpl in H2. destruct (shr_m mrs''); [done| |lia].
  by destruct (_ <=? _)%Z.
Qed.

Lemma binary_round_not_nan s m e :
  binary_round PyFloat.prec PyFloat.emax s m e <> S754_nan.
Proof.
  unfold binary_round. destruct (shl_align _ _ _) as [mz ez].
  by apply binary_round_aux_not_nan.
Qed.

Lemma whole_not_nan x : x <> S754_nan -> whole x <> S754_nan.
Proof.
  destruct x as [| | |s m e]; try done. intros _. unfold whole, PyFloat.of_decimal.
  destruct (PyFloat.round_half_even m e); [done|].
  cbn [Z.leb Z.compare]. apply binary_round_not_nan.
Qed.

(** ** Reading back a displayed amount *)

Lemma digit_plain c :
  PyFloat.is_digit c = true ->
  Ascii.eqb c "_" = false /\ PyFloat.is_space c = false
  /\ Ascii.eqb c "-" = false /\ Ascii.eqb c "+" = false
  /\ Ascii.eqb c "," = false /\ Ascii.eqb c "$" = false
  /\ Ascii.eqb (PyStr.lower_char c) "i" = false
  /\ Ascii.eqb (PyStr.lower_char c) "n" = false.
Proof.
  destruct c as [[] [] [] [] [] [] [] []]; intros H; vm_compute in H;
    try discriminate H; vm_compute; done.
Qed.

Lemma string_of_uint_digits d :
  all_chars PyFloat.is_digit (NilEmpty.string_of_uint d) = true.
Proof. induction d; simpl; done. Qed.

Lemma string_of_uint_nonempty d :
  exists c t, NilZero.string_of_uint d = String c t
    /\ all_chars PyFloat.is_digit (String c t) = true.
Proof.
  pose proof (string_of_uint_digits d) as H.
  destruct d; simpl in *; eauto.
Qed.

Lemma digits_value_string_of_uint d :
  PyFloat.digits_value (NilZero.string_of_uint d) = Some (N.of_uint d).
Proof.
  unfold PyFloat.digits_value. destruct d; try done;
    unfold NilZero.string_of_uint; by rewrite NilEmpty.usu.
Qed.

Lemma drop_underscores_digits p ds :
  Ascii.eqb p "_" = false -> all_chars PyFloat.is_digit ds = true ->
  PyFloat.drop_underscores p ds = Some ds.
Proof.
  revert p. induction ds as [|c t IH]; intros p Hp; simpl.
  - by rewrite Hp.
  - intros [Hc Ht]%andb_prop. destruct (digit_plain c Hc) as (Hu & _).
    by rewrite Hu, Hc, andb_false_r, IH.
Qed.

Lemma lstrip_digits c t :
  PyFloat.is_digit c = true -> PyFloat.lstrip (String c t) = String c t.
Proof. intros (_ & Hs & _)%digit_plain. simpl. by rewrite Hs. Qed.

Lemma rstrip_digits ds :
  all_chars PyFloat.is_digit ds = true -> PyFloat.rstrip ds = ds.
Proof.
  induction ds as [|c t IH]; simpl; [done|].
  intros [(_ & Hs & _)%digit_plain Ht]%andb_prop.
  rewrite (IH Ht), Hs. by destruct t.
Qed.

Lemma split_sign_digits c t :
  PyFloat.is_digit c = true -> PyFloat.split_sign (String c t) = (false, String c t).
Proof. intros (_ & _ & Hm & Hp & _)%digit_plain. simpl. by rewrite Hm, Hp. Qed.

Lemma parse_special_digits neg c t :
  PyFloat.is_digit c = true -> PyFloat.parse_special neg (String c t) = None.
Proof.
  intros (_ & _ & _ & _ & _ & _ & Hi & Hn)%digit_plain.
  unfold PyFloat.parse_special. cbn [PyStr.lower String.eqb].
  by rewrite Hi, Hn.
Qed.

Lemma span_digits_digits ds :
  all_chars PyFloat.is_digit ds = true -> PyFloat.span_digits ds = (ds, EmptyString).
Proof.
  induction ds as [|c t IH]; simpl; [done|].
  intros [-> Ht]%andb_prop. by rewrite (IH Ht).
Qed.

Lemma append_empty_r s : String.append s EmptyString = s.
Proof.
  induction s as [|c s IH]; [done|].
  change (String c (String.append s EmptyString) = String c s). by rewrite IH.
Qed.

(** A plain decimal numeral reads as the nearest float to its value. *)
Lemma of_string_numeral d :
  PyFloat.of_string (NilZero.string_of_uint d)
  = Ok (PyFloat.of_decimal false (N.of_uint d) 0).
Proof.
  pose proof (digits_value_string_of_uint d) as Hv.
  destruct (string_of_uint_nonempty d) as (c & t & Hd & Hall).
  rewrite Hd in *. pose proof Hall as [Hc _]%andb_prop.
  unfold PyFloat.of_string.
  rewrite (drop_underscores_digits "000" _ eq_refl Hall).
  rewrite (lstrip_digits _ _ Hc), (rstrip_digits _ Hall), (split_sign_digits _ _ Hc).
  rewrite (parse_special_digits _ _ _ Hc).
  unfold PyFloat.parse_decimal.
  rewrite (span_digits_digits _ Hall), append_empty_r, Hv.
  done.
Qed.

Lemma remove_comma_grouped ds :
  all_chars PyFloat.is_digit ds = true ->
  PyStr.remove_char "," (PyFloat.group_thousands ds) = ds.
Proof.
  induction ds as [|c t IH]; simpl; [done|].
  intros [(_ & _ & _ & _ & Hc & _)%digit_plain Ht]%andb_prop.
  rewrite Hc. destruct (_ && _); simpl; by rewrite (IH Ht).
Qed.

Lemma remove_dollar_grouped ds :
  all_chars PyFloat.is_digit ds = true ->
  PyStr.remove_char "$" (PyFloat.group_thousands ds) = PyFloat.group_thousands ds.
Proof.
  induction ds as [|c t IH]; simpl; [done|].
  intros [(_ & _ & _ & _ & _ & Hc & _)%digit_plain Ht]%andb_prop.
  rewrite Hc. destruct (_ && _); simpl; by rewrite (IH Ht).
Qed.

(** The amounts that reach the threshold are positive, finite or infinite. *)
Lemma meets_funding_positive x :
  meets_funding x = true ->
  x = S754_infinity false \/ exists m e, x = S754_finite false m e.
Proof.
  unfold meets_funding.
  replace (PyFloat.of_int min_funding)
    with (S754_finite false 6710886400000000 (-26)) by (vm_compute; reflexivity).
  destruct x as [[]|[]| |[] m e]; try done; eauto.
Qed.

(** The sort key of a kept row is its amount rounded to a whole number. *)
Lemma sort_key_display r x :
  meets_funding x = true ->
  sort_key (<["funding_amount_parsed" := PStr (funding_display x)]> r) = Ok (whole x).
Proof.
  intros Hx. unfold sort_key, get. rewrite lookup_insert_eq.
  cbn [str_receiver mbind result_bind bind].
  destruct (meets_funding_positive x Hx) as [->|(m & e & ->)]; [by vm_compute|].
  unfold funding_display, PyFloat.format_comma_0f, whole.
  cbn [PyFloat.sign_text String.append PyStr.remove_char Ascii.eqb Bool.eqb].
  set (d := N.to_uint (PyFloat.round_half_even m e)).
  change (String.append "" (PyFloat.group_thousands (NilZero.string_of_uint d)))
    with (PyFloat.group_thousands (NilZero.string_of_uint d)).
  destruct (string_of_uint_nonempty d) as (c & t & Hd & Hall).
  rewrite Hd, (remove_dollar_grouped _ Hall), (remove_comma_grouped _ Hall), <- Hd.
  rewrite of_string_numeral. unfold d. by rewrite DecimalN.Unsigned.of_to.
Qed.

(** ** The ranking *)

Lemma field_insert_other r k v k' :
  k <> k' -> Spec.field (<[k := v]> r) k' = Spec.field r k'.
Proof. intros H. unfold Spec.field. by rewrite lookup_insert_ne. Qed.

Lemma get_insert_other r k v k' default :
  k <> k' -> get (<[k := v]> r) k' default = get r k' default.
Proof. intros H. unfold get. by rewrite lookup_insert_ne. Qed.

Lemma FundingAmount_insert r v :
  Spec.FundingAmount (<["funding_amount_parsed" := v]> r) = Spec.FundingAmount r.
Proof. unfold Spec.FundingAmount. by rewrite field_insert_other. Qed.

Lemma FundingAmount_EligibleRecord r :
  Spec.FundingAmount (Spec.EligibleRecord r) = Spec.FundingAmount r.
Proof. apply FundingAmount_insert. Qed.

Lemma eligible_meets_funding r :
  Spec.eligible r = true -> meets_funding (Spec.FundingAmount r) = true.
Proof.
  unfold Spec.eligible, Spec.funding_ok, Spec.FundingAmount, meets_funding.
  intros [[[H _]%andb_prop _]%andb_prop _]%andb_prop.
  by destruct (Spec.Normalizer _).
Qed.

Lemma eligible_not_nan r :
  Spec.eligible r = true -> Spec.FundingAmount r <> S754_nan.
Proof. intros H%eligible_meets_funding Hn. by rewrite Hn in H. Qed.

Lemma shown_amount_eligible r :
  Spec.eligible r = true ->
  sort_key (Spec.EligibleRecord r) = Ok (shown_amount (Spec.EligibleRecord r))
  /\ shown_amount (Spec.EligibleRecord r)
     = whole (Spec.FundingAmount (Spec.EligibleRecord r))
  /\ shown_amount (Spec.EligibleRecord r) <> S754_nan.
Proof.
  intros H.
  assert (Hk : sort_key (Spec.EligibleRecord r) = Ok (whole (Spec.FundingAmount r)))
    by apply sort_key_display, eligible_meets_funding, H.
  unfold shown_amount. rewrite Hk, FundingAmount_EligibleRecord.
  eauto using whole_not_nan, eligible_not_nan.
Qed.

Lemma keyed_shown l :
  Forall (fun e => sort_key e = Ok (shown_amount e)) l ->
  keyed l = Ok ((fun e => (shown_amount e, e)) <$> l).
Proof.
  induction 1 as [|e l He _ IH]; [done|].
  cbn [keyed]. rewrite He, IH. done.
Qed.

Lemma shown_amounts rs st :
  filter_startups rs = Ok st ->
  Forall (fun e => sort_key e = Ok (shown_amount e)
                   /\ shown_amount e = whole (Spec.FundingAmount e)
                   /\ shown_amount e <> S754_nan) (filtered st).
Proof.
  intros Hst. rewrite (filtered_eligible rs st Hst).
  apply Forall_fmap, Forall_forall. intros r Hr.
  apply list_elem_of_In, filter_In in Hr as [_ Hr].
  by apply shown_amount_eligible.
Qed.

Lemma sorted_startups_keyed l :
  Forall (fun e => sort_key e = Ok (shown_amount e)) l ->
  sorted_startups l = Ok (sorted_reverse PyFloat.ltb shown_amount l).
Proof.
  intros Hl. unfold sorted_startups. rewrite (keyed_shown _ Hl).
  cbn [mbind result_bind bind]. by rewrite sorted_reverse_decorated.
Qed.

Lemma filter_eqb_nan l :
  List.filter (fun a => PyFloat.eqb (shown_amount a) S754_nan) l = [].
Proof.
  induction l as [|a l IH]; [done|]. cbn [List.filter]. by rewrite eqb_nan_r.
Qed.

(** C3, as the code has it: the summary ranks the eligible records by the
    amount read back from their display text, which is the FundingAmount
    rounded to a whole number (ties to even).  The ranking exists for every
    output of the filter, holds the same records, is descending in that
    amount (no record stands before one with a strictly greater shown
    amount), and records with equal shown amounts keep their input order. *)
Theorem ranking_by_shown_amount rs st :
  filter_startups rs = Ok st ->
  exists ranked,
    sorted_startups (filtered st) = Ok ranked
    /\ ranked ≡ₚ filtered st
    /\ StronglySorted
         (fun a b => PyFloat.ltb (shown_amount a) (shown_amount b) = false) ranked
    /\ (forall k,
          List.filter (fun a => PyFloat.eqb (shown_amount a) k) ranked
          = List.filter (fun a => PyFloat.eqb (shown_amount a) k) (filtered st))
    /\ Forall (fun e => shown_amount e = whole (Spec.FundingAmount e)) (filtered st).
Proof.
  intros Hst. pose proof (shown_amounts rs st Hst) as Hl.
  set (l := filtered st) in *.
  assert (Hnum : Forall (fun e => shown_amount e <> S754_nan) l)
    by (eapply Forall_impl; [exact Hl|]; by intros e (? & ? & ?)).
  exists (sorted_reverse PyFloat.ltb shown_amount l).
  split.
  { apply sorted_startups_keyed.
    eapply Forall_impl; [exact Hl|]. by intros e (? & ? & ?). }
  split; [apply sorted_reverse_perm|].
  split.
  { apply (sorted_reverse_sorted PyFloat.ltb shown_amount (fun k => k <> S754_nan));
      [apply ltb_asym| |exact Hnum].
    intros x y z. apply ltb_false_trans. }
  split.
  { intros k.
    assert (k = S754_nan \/ k <> S754_nan) as [->|Hk]
      by (destruct k; [right|right|left|right]; done).
    - by rewrite !filter_eqb_nan.
    - apply (sorted_reverse_stable PyFloat.ltb PyFloat.eqb shown_amount
               (fun k => k <> S754_nan)); [|apply eqb_not_ltb|done|exact Hnum].
      intros x y z. apply ltb_false_trans. }
  eapply Forall_impl; [exact Hl|]. by intros e (? & ? & ?).
Qed.

(** Any stable descending rearrangement of the eligible records by shown
    amount is the ranking that [display_summary] computes. *)
Lemma ranking_unique rs st other :
  filter_startups rs = Ok st ->
  other ≡ₚ filtered st ->
  StronglySorted
    (fun a b => PyFloat.ltb (shown_amount a) (shown_amount b) = false) other ->
  (forall k,
     List.filter (fun a => PyFloat.eqb (shown_amount a) k) other
     = List.filter (fun a => PyFloat.eqb (shown_amount a) k) (filtered st)) ->
  sorted_startups (filtered st) = Ok other.
Proof.
  intros Hst Hp Hs Hstable. pose proof (shown_amounts rs st Hst) as Hl.
  rewrite sorted_startups_keyed
    by (eapply Forall_impl; [exact Hl|]; by intros e (? & ? & ?)).
  f_equal. symmetry.
  apply (sorted_reverse_unique PyFloat.ltb PyFloat.eqb shown_amount
           (fun k => k <> S754_nan)); try done.
  - apply ltb_asym.
  - intros x y z. apply ltb_false_trans.
  - apply eqb_not_ltb.
  - apply eqb_refl.
  - apply not_ltb_eqb.
  - eapply Forall_impl; [exact Hl|]. by intros e (? & ? & ?).
Qed.

Lemma ranking_by_shown_amount_witness :
  filter_startups mixed_rows = Ok mixed_state
  /\ length (filtered mixed_state) = 3
  /\ sorted_startups (filtered mixed_state)
     = Ok [ Spec.EligibleRecord (sample_row "Big" "200M" "Berlin, Germany" "active" "private");
            Spec.EligibleRecord (sample_row "P" "100000000.1" "USA" "active" "private");
            Spec.EligibleRecord (sample_row "Q" "100000000.3" "USA" "active" "private") ]
  /\ shown_amount (Spec.EligibleRecord (sample_row "P" "100000000.1" "USA" "active" "private"))
     = shown_amount (Spec.EligibleRecord (sample_row "Q" "100000000.3" "USA" "active" "private"))
  /\ exists ranked,
       sorted_startups (filtered mixed_state) = Ok ranked
       /\ ranked ≡ₚ filtered mixed_state
       /\ StronglySorted
            (fun a b => PyFloat.ltb (shown_amount a) (shown_amount b) = false) ranked
       /\ (forall k,
             List.filter (fun a => PyFloat.eqb (shown_amount a) k) ranked
             = List.filter (fun a => PyFloat.eqb (shown_amount a) k)
                 (filtered mixed_state))
       /\ Forall (fun e => shown_amount e = whole (Spec.FundingAmount e))
            (filtered mixed_state).
Proof.
  split; [exact mixed_run|]. split; [reflexivity|].
  split; [by_evaluation|]. split; [by_evaluation|].
  exact (ranking_by_shown_amount mixed_rows mixed_state mixed_run).
Defined.

(** C3 as stated fails: the two rows of [close_rows] are both kept,
    and the summary ranks the first before the second although its
    FundingAmount is strictly smaller. *)
Lemma ranking_ignores_fractions :
  (st ← filter_startups close_rows; sorted_startups (filtered st))
  = Ok (Spec.EligibleRecord <$> close_rows)
  /\ ~ StronglySorted
         (fun a b => PyFloat.ltb (Spec.FundingAmount a) (Spec.FundingAmount b) = false)
         (Spec.EligibleRecord <$> close_rows).
Proof.
  split; [by_evaluation|].
  intros H. inversion H as [|a l _ Hall]; subst.
  inversion Hall as [|b l' Hab _]; subst.
  vm_compute in Hab. discriminate Hab.
Qed.

(** ** Running the filter again *)

Lemma side_cells_text_insert r v :
  side_cells_text (<["funding_amount_parsed" := v]> r) = side_cells_text r.
Proof. unfold side_cells_text. by rewrite !lookup_insert_ne. Qed.

Lemma verdict_insert r v x :
  verdict (<["funding_amount_parsed" := v]> r) x
  = match verdict r x with
    | Kept _ => Kept (<["funding_amount_parsed" := PStr (funding_display x)]> r)
    | o => o
    end.
Proof.
  unfold verdict, Spec.location_ok, Spec.status_ok, Spec.ipo_ok.
  rewrite !field_insert_other by done.
  destruct (_ && _); [|done]. by rewrite insert_insert_eq.
Qed.

(** A kept row is kept again, as it is. *)
Lemma turn_kept_again r e : turn r = Ok (Kept e) -> turn e = Ok (Kept e).
Proof.
  rewrite turn_cases.
  destruct (funding (get r "funding_amount" "0")) as [x|err] eqn:Hx;
    [|by destruct (caught err)].
  destruct (side_cells_text r) eqn:Hside; [|done].
  intros [= Hv]. assert (e = <["funding_amount_parsed" := PStr (funding_display x)]> r) as ->.
  { unfold verdict in Hv.
    destruct (meets_funding x && Spec.location_ok r && Spec.status_ok r
              && Spec.ipo_ok r); congruence. }
  rewrite turn_cases, get_insert_other, Hx, side_cells_text_insert, Hside by done.
  by rewrite verdict_insert, Hv.
Qed.

Lemma turn_object_after r o :
  turn r = Ok o ->
  turn (object_after r o) = Ok o /\ object_after (object_after r o) o = object_after r o.
Proof. destruct o; simpl; eauto using turn_kept_again. Qed.

Lemma rerun_outcomes rs os :
  Forall2 (fun r o => turn r = Ok o) rs os ->
  Forall2 (fun r o => turn r = Ok o) (zip_with object_after rs os) os
  /\ zip_with object_after (zip_with object_after rs os) os
     = zip_with object_after rs os.
Proof.
  induction 1 as [|r o rs os Ho _ [IH1 IH2]]; [done|].
  destruct (turn_object_after _ _ Ho) as [H1 H2]. simpl.
  split; [by constructor|]. by rewrite H2, IH2.
Qed.

Lemma filter_startups_again rs st :
  filter_startups rs = Ok st -> filter_startups (objects st) = Ok st.
Proof.
  intros (os & Hos & ->)%filter_startups_outcomes. simpl.
  destruct (rerun_outcomes _ _ Hos) as [H1 H2].
  apply filter_startups_outcomes. exists os. split; [done|]. by rewrite H2.
Qed.

(** C9: the pipeline is a function of its input, and running it again on
    the rows as the first run left them (the kept rows carry their display
    text) gives the same eligible records, the same warnings, the same rows
    and the same summary. *)
Theorem pipeline_rerun rs st :
  filter_startups rs = Ok st ->
  filter_startups (objects st) = Ok st
  /\ (st' ← filter_startups (objects st); display_summary (filtered st'))
     = display_summary (filtered st)
  /\ (st' ← filter_startups rs; display_summary (filtered st'))
     = display_summary (filtered st).
Proof.
  intros Hst. rewrite (filter_startups_again _ _ Hst), Hst. done.
Qed.

Lemma pipeline_rerun_witness :
  filter_startups sample_rows = Ok sample_state
  /\ filter_startups (objects sample_state) = Ok sample_state.
Proof.
  split; [exact sample_run|].
  exact (proj1 (pipeline_rerun sample_rows sample_state sample_run)).
Defined.

(** ** Records are only read after the filter *)

Lemma tally_add_total loc locations :
  sum_list (snd <$> tally_add loc locations) = S (sum_list (snd <$> locations)).
Proof.
  induction locations as [|[l n] rest IH]; [done|].
  cbn [tally_add]. destruct (decide (l = loc)); rewrite !fmap_cons in *;
    simpl in *; lia.
Qed.

Lemma location_tally_total l : sum_list (snd <$> location_tally l) = length l.
Proof.
  unfold location_tally.
  assert (H : forall acc,
    sum_list (snd <$> fold_left
      (fun locations startup => tally_add (get startup "location" "Unknown") locations)
      l acc) = sum_list (snd <$> acc) + length l).
  { induction l as [|r l IH]; intros acc; cbn [fold_left length]; [lia|].
    rewrite IH, tally_add_total. lia. }
  rewrite H. done.
Qed.

Lemma EligibleRecord_frame r :
  Spec.EligibleRecord r !! "funding_amount_parsed"
  = Some (PStr (funding_display (Spec.FundingAmount r)))
  /\ (forall k, k <> "funding_amount_parsed" -> Spec.EligibleRecord r !! k = r !! k)
  /\ (r !! "funding_amount_parsed" = None ->
      dom (Spec.EligibleRecord r) = {["funding_amount_parsed"]} ∪ dom r
      /\ size (Spec.EligibleRecord r) = S (size r)).
Proof.
  unfold Spec.EligibleRecord. split; [apply lookup_insert_eq|].
  split; [by intros k Hk; rewrite lookup_insert_ne|].
  intros Hr. split; [apply dom_insert_L|by apply map_size_insert_None].
Qed.

(** C8, as the code has it: each eligible record is its source row with the
    field [funding_amount_parsed] set to the display text of its amount, and
    with every other field as it was; when the source row has no such field
    this adds exactly one field.  The ranking holds the very same records,
    and the tally only counts them. *)
Theorem eligible_record_frame rs st :
  filter_startups rs = Ok st ->
  Forall2
    (fun e r =>
       e !! "funding_amount_parsed"
       = Some (PStr (funding_display (Spec.FundingAmount r)))
       /\ (forall k, k <> "funding_amount_parsed" -> e !! k = r !! k)
       /\ (r !! "funding_amount_parsed" = None ->
           dom e = {["funding_amount_parsed"]} ∪ dom r /\ size e = S (size r)))
    (filtered st) (List.filter Spec.eligible rs)
  /\ (exists ranked,
        sorted_startups (filtered st) = Ok ranked /\ ranked ≡ₚ filtered st)
  /\ sum_list (snd <$> location_tally (filtered st)) = length (filtered st).
Proof.
  intros Hst. split; [|split].
  - rewrite (filtered_eligible _ _ Hst). apply Forall2_fmap_l, Forall_Forall2_diag.
    apply Forall_true, EligibleRecord_frame.
  - exists (sorted_reverse PyFloat.ltb shown_amount (filtered st)).
    split; [|apply sorted_reverse_perm].
    apply sorted_startups_keyed.
    eapply Forall_impl; [exact (shown_amounts _ _ Hst)|]. by intros e (? & ? & ?).
  - apply location_tally_total.
Qed.

Lemma eligible_record_frame_witness :
  filter_startups sample_rows = Ok sample_state
  /\ (exists ranked,
        sorted_startups (filtered sample_state) = Ok ranked
        /\ ranked ≡ₚ filtered sample_state)
  /\ sum_list (snd <$> location_tally (filtered sample_state))
     = length (filtered sample_state).
Proof.
  split; [exact sample_run|].
  exact (proj2 (eligible_record_frame sample_rows sample_state sample_run)).
Defined.

(** C8 as stated fails on a row that already has the field: the
    eligible record made from [stale_row] has no field more than its source,
    and the source's value of [funding_amount_parsed] is gone. *)
Lemma eligible_record_overwrites :
  filtered <$> filter_startups [stale_row] = Ok [Spec.EligibleRecord stale_row]
  /\ stale_row !! "funding_amount_parsed" = Some (PStr "stale")
  /\ Spec.EligibleRecord stale_row !! "funding_amount_parsed"
     = Some (PStr "$150,000,000")
  /\ size (Spec.EligibleRecord stale_row) = size stale_row
  /\ ~ (exists k v, stale_row !! k = None
                   /\ Spec.EligibleRecord stale_row = <[k := v]> stale_row).
Proof.
  assert (Hsize : size (Spec.EligibleRecord stale_row) = size stale_row)
    by by_evaluation.
  repeat split; try by_evaluation.
  intros (k & v & Hk & He). rewrite He, map_size_insert_None in Hsize by done. lia.
Qed.

(** ** The examples of the specification, evaluated *)

Lemma locations_evaluated :
  filtered <$> filter_startups [sample_row "T" "150M" "Tokyo, Japan" "active" "private"]
  = Ok []
  /\ length <$> (filtered <$> filter_startups
       [ sample_row "G" "150M" "Berlin, Germany" "active" "private";
         sample_row "U" "150M" "Austin, USA" "active" "private" ])
     = Ok 2.
Proof. split; by_evaluation. Qed.

Lemma ipo_statuses_evaluated :
  filtered <$> filter_startups
    [ sample_row "I" "150M" "USA" "active" "IPO";
      sample_row "P" "150M" "USA" "active" "Public" ]
  = Ok []
  /\ length <$> (filtered <$> filter_startups
       [ sample_row "E" "150M" "USA" "active" "";
         sample_row "V" "150M" "USA" "active" "private" ])
     = Ok 2.
Proof. split; by_evaluation. Qed.

Lemma unparsable_evaluated :
  funding (PStr "abc") = Raise ValueError
  /\ filter_startups
       [ sample_row "Bad" "abc" "USA" "active" "private";
         sample_row "A" "150M" "USA" "active" "private" ]
     = Ok {| objects :=
               [ sample_row "Bad" "abc" "USA" "active" "private";
                 Spec.EligibleRecord (sample_row "A" "150M" "USA" "active" "private") ];
             filtered :=
               [Spec.EligibleRecord (sample_row "A" "150M" "USA" "active" "private")];
             warnings := ["Bad"] |}.
Proof. split; by_evaluation. Qed.

(** * Further facts *)

(** ** The funding amount: letter case and the place of the suffix *)

Lemma upper_upper_char c : PyStr.upper_char (PyStr.upper_char c) = PyStr.upper_char c.
Proof. by_cases_on_char c. Qed.

Lemma upper_lower_char c : PyStr.upper_char (PyStr.lower_char c) = PyStr.upper_char c.
Proof. by_cases_on_char c. Qed.

Lemma eqb_upper_comma c : Ascii.eqb (PyStr.upper_char c) "," = Ascii.eqb c ",".
Proof. by_cases_on_char c. Qed.

Lemma eqb_upper_dollar c : Ascii.eqb (PyStr.upper_char c) "$" = Ascii.eqb c "$".
Proof. by_cases_on_char c. Qed.

Lemma eqb_lower_comma c : Ascii.eqb (PyStr.lower_char c) "," = Ascii.eqb c ",".
Proof. by_cases_on_char c. Qed.

Lemma eqb_lower_dollar c : Ascii.eqb (PyStr.lower_char c) "$" = Ascii.eqb c "$".
Proof. by_cases_on_char c. Qed.

Lemma upper_upper s : PyStr.upper (PyStr.upper s) = PyStr.upper s.
Proof. induction s as [|c s IH]; simpl; [done|]. by rewrite upper_upper_char, IH. Qed.

Lemma upper_lower s : PyStr.upper (PyStr.lower s) = PyStr.upper s.
Proof. induction s as [|c s IH]; simpl; [done|]. by rewrite upper_lower_char, IH. Qed.

Lemma of_string_lower s : PyFloat.of_string (PyStr.lower s) = PyFloat.of_string s.
Proof. by rewrite <- (of_string_upper (PyStr.lower s)), upper_lower, of_string_upper. Qed.

(** Case mapping commutes with removing a character that has no case. *)
Lemma remove_char_mapped (f : ascii -> ascii) (map : string -> string) c s :
  (forall d t, map (String d t) = String (f d) (map t)) ->
  map EmptyString = EmptyString ->
  (forall d, Ascii.eqb (f d) c = Ascii.eqb d c) ->
  PyStr.remove_char c (map s) = map (PyStr.remove_char c s).
Proof.
  intros Hcons Hnil Hf. induction s as [|d s IH]; [by rewrite Hnil|].
  rewrite Hcons. cbn [PyStr.remove_char]. rewrite Hf, IH.
  destruct (Ascii.eqb d c); [done|]. by rewrite Hcons.
Qed.

Lemma strip_separators_upper s :
  Spec.strip_separators (PyStr.upper s) = PyStr.upper (Spec.strip_separators s).
Proof.
  unfold Spec.strip_separators.
  rewrite (remove_char_mapped PyStr.upper_char PyStr.upper ",") by auto using eqb_upper_comma.
  by rewrite (remove_char_mapped PyStr.upper_char PyStr.upper "$")
    by auto using eqb_upper_dollar.
Qed.

Lemma strip_separators_lower s :
  Spec.strip_separators (PyStr.lower s) = PyStr.lower (Spec.strip_separators s).
Proof.
  unfold Spec.strip_separators.
  rewrite (remove_char_mapped PyStr.lower_char PyStr.lower ",") by auto using eqb_lower_comma.
  by rewrite (remove_char_mapped PyStr.lower_char PyStr.lower "$")
    by auto using eqb_lower_dollar.
Qed.

Lemma funding_unfold text :
  funding (PStr text) = funding_of_text (Spec.strip_separators text).
Proof. reflexivity. Qed.

(** X1: the funding amount does not depend on the letter case of the text:
    the upper-cased and the lower-cased text give what the text gives. *)
Theorem funding_case_insensitive text :
  funding (PStr (PyStr.upper text)) = funding (PStr text)
  /\ funding (PStr (PyStr.lower text)) = funding (PStr text).
Proof.
  rewrite !funding_unfold, strip_separators_upper, strip_separators_lower.
  set (cleaned := Spec.strip_separators text). unfold funding_of_text.
  rewrite !upper_upper, !upper_lower, of_string_upper, of_string_lower. done.
Qed.

Lemma char_in_app c s t :
  PyStr.char_in c (String.append s t) = PyStr.char_in c s || PyStr.char_in c t.
Proof.
  induction s as [|d s IH]; [done|].
  change (PyStr.char_in c (String d (String.append s t))
          = PyStr.char_in c (String d s) || PyStr.char_in c t).
  cbn [PyStr.char_in]. rewrite IH. by destruct (Ascii.eqb d c).
Qed.

Lemma remove_char_app c s t :
  PyStr.remove_char c (String.append s t)
  = String.append (PyStr.remove_char c s) (PyStr.remove_char c t).
Proof.
  induction s as [|d s IH]; [done|].
  change (PyStr.remove_char c (String d (String.append s t))
          = String.append (PyStr.remove_char c (String d s)) (PyStr.remove_char c t)).
  cbn [PyStr.remove_char]. rewrite IH. by destruct (Ascii.eqb d c).
Qed.

Lemma all_chars_app P s t :
  all_chars P (String.append s t) = all_chars P s && all_chars P t.
Proof.
  induction s as [|d s IH]; [done|].
  change (all_chars P (String d (String.append s t))
          = all_chars P (String d s) && all_chars P t).
  cbn [all_chars]. rewrite IH. by destruct (P d).
Qed.

(** A magnitude letter put anywhere into a valid literal scales its value. *)
Lemma funding_with_letter (big small letter : ascii) before after x :
  literal_char big = false -> literal_char small = false ->
  letter = big \/ letter = small -> big <> small ->
  letter <> ","%char -> letter <> "$"%char ->
  PyFloat.of_string (String.append before after) = Ok x ->
  Spec.has_letter big small (String.append before (String letter after)) = true
  /\ Spec.remove_letter big small (String.append before (String letter after))
     = String.append before after
  /\ Spec.strip_separators (String.append before (String letter after))
     = String.append before (String letter after).
Proof.
  intros Hbig Hsmall Hletter Hne Hcomma Hdollar Hx.
  pose proof (of_string_chars _ _ Hx) as Hall.
  rewrite all_chars_app in Hall. apply andb_prop in Hall as [Hb Ha].
  assert (Habs : forall c, literal_char c = false ->
            PyStr.char_in c before = false /\ PyStr.char_in c after = false)
    by eauto using literal_chars_absent.
  assert (Hl : literal_char letter = false) by (destruct Hletter; by subst).
  split; [|split].
  - unfold Spec.has_letter. rewrite !char_in_app. cbn [PyStr.char_in].
    destruct Hletter as [-> | ->]; rewrite Ascii.eqb_refl; simpl;
      by rewrite ?orb_true_r.
  - unfold Spec.remove_letter. rewrite !remove_char_app. cbn [PyStr.remove_char].
    destruct (Habs big Hbig) as [B1 B2], (Habs small Hsmall) as [S1 S2].
    destruct Hletter as [-> | ->].
    + rewrite Ascii.eqb_refl, !(remove_char_absent big), !(remove_char_absent small);
        done.
    + assert (Ascii.eqb small big = false) as -> by (apply Ascii.eqb_neq; congruence).
      rewrite !(remove_char_absent big) by done. cbn [PyStr.remove_char].
      rewrite Ascii.eqb_refl, !(remove_char_absent small); done.
  - unfold Spec.strip_separators. rewrite !remove_char_app. cbn [PyStr.remove_char].
    destruct (Habs ","%char eq_refl) as [C1 C2], (Habs "$"%char eq_refl) as [D1 D2].
    assert (Ascii.eqb letter "," = false) as -> by by apply Ascii.eqb_neq.
    rewrite !(remove_char_absent ",") by done. cbn [PyStr.remove_char].
    assert (Ascii.eqb letter "$" = false) as -> by by apply Ascii.eqb_neq.
    by rewrite !(remove_char_absent "$").
Qed.

(** X2: an M (or m) put anywhere into a text that [float] reads as [x] gives
    the amount [x * 1,000,000], and a B (or b) gives [x * 1,000,000,000]. *)
Theorem funding_suffix_scales before after x :
  PyFloat.of_string (String.append before after) = Ok x ->
  funding (PStr (String.append before (String "M" after)))
  = Ok (PyFloat.mul x (PyFloat.of_int 1000000))
  /\ funding (PStr (String.append before (String "m" after)))
     = Ok (PyFloat.mul x (PyFloat.of_int 1000000))
  /\ funding (PStr (String.append before (String "B" after)))
     = Ok (PyFloat.mul x (PyFloat.of_int 1000000000))
  /\ funding (PStr (String.append before (String "b" after)))
     = Ok (PyFloat.mul x (PyFloat.of_int 1000000000)).
Proof.
  intros Hx. rewrite !funding_Normalizer. unfold Spec.Normalizer.
  destruct (funding_with_letter "M" "m" "M" before after x) as (M1 & M2 & M3);
    [done|done|by left|done|done|done|done|].
  destruct (funding_with_letter "M" "m" "m" before after x) as (m1 & m2 & m3);
    [done|done|by right|done|done|done|done|].
  destruct (funding_with_letter "B" "b" "B" before after x) as (B1 & B2 & B3);
    [done|done|by left|done|done|done|done|].
  destruct (funding_with_letter "B" "b" "b" before after x) as (b1 & b2 & b3);
    [done|done|by right|done|done|done|done|].
  rewrite M3, m3, B3, b3, M1, m1, M2, m2, Hx.
  assert (HnoM : forall letter,
    letter = "B"%char \/ letter = "b"%char ->
    Spec.has_letter "M" "m" (String.append before (String letter after)) = false).
  { intros letter Hl. pose proof (of_string_chars _ _ Hx) as Hall.
    rewrite all_chars_app in Hall. apply andb_prop in Hall as [Hb Ha].
    unfold Spec.has_letter. rewrite !char_in_app. cbn [PyStr.char_in].
    rewrite !(literal_chars_absent _ before), !(literal_chars_absent _ after) by done.
    by destruct Hl as [-> | ->]. }
  rewrite !HnoM by auto. by rewrite B1, b1, B2, b2, Hx.
Qed.

Lemma funding_suffix_scales_witness :
  funding (PStr (String.append "1.5" (String "M" "")))
  = Ok (PyFloat.mul (S754_finite false 6755399441055744 (-52)) (PyFloat.of_int 1000000)).
Proof.
  apply (funding_suffix_scales "1.5" "" (S754_finite false 6755399441055744 (-52))).
  vm_compute. reflexivity.
Defined.

(** ** The filter: when it raises, what it reports, what it changes *)

Lemma has_none_cell_text r : has_none_cell r = false <-> text_row r.
Proof.
  unfold has_none_cell, text_row.
  destruct (r !! "funding_amount") as [[]|], (r !! "location") as [[]|],
    (r !! "status") as [[]|], (r !! "ipo_status") as [[]|]; simpl;
    split; try done; intros (? & ? & ? & ?); done.
Qed.

Lemma has_none_cell_side r : side_cells_text r = false -> has_none_cell r = true.
Proof.
  unfold has_none_cell, side_cells_text.
  destruct (is_none (r !! "funding_amount")), (is_none (r !! "location")),
    (is_none (r !! "status")), (is_none (r !! "ipo_status")); done.
Qed.

Lemma turn_raises r e :
  turn r = Raise e -> e = AttributeError /\ has_none_cell r = true.
Proof.
  rewrite turn_cases. unfold get at 1.
  destruct (r !! "funding_amount") as [[text|]|] eqn:Hr.
  - rewrite funding_Normalizer.
    destruct (Spec.Normalizer text) as [x|err] eqn:Hx.
    + destruct (side_cells_text r) eqn:Hside; [done|].
      intros [= <-]. auto using has_none_cell_side.
    + by apply Normalizer_raises in Hx as ->.
  - intros [= <-]. split; [done|]. unfold has_none_cell. by rewrite Hr.
  - rewrite funding_default.
    destruct (side_cells_text r) eqn:Hside; [done|].
    intros [= <-]. auto using has_none_cell_side.
Qed.

Lemma for_each_loop_body_raises rs st e :
  for_each loop_body rs st = Raise e -> Exists (fun r => turn r = Raise e) rs.
Proof.
  revert st. induction rs as [|r rs IH]; intros st; cbn [for_each]; [done|].
  destruct (turn r) as [o|err] eqn:Ho.
  - rewrite (loop_body_turn _ _ _ Ho). intros H. right. exact (IH _ H).
  - rewrite (loop_body_raise _ _ _ Ho). intros [= <-]. by left.
Qed.

(** X3: [filter_startups] raises nothing but [AttributeError], and only when
    some row has [None] in its funding, location, status or IPO cell; when no
    row has, it returns. *)
Theorem filter_raises_only_on_none rs :
  (forall e, filter_startups rs = Raise e ->
     e = AttributeError /\ Exists (fun r => has_none_cell r = true) rs)
  /\ (Forall (fun r => has_none_cell r = false) rs ->
      exists st, filter_startups rs = Ok st).
Proof.
  split.
  - intros e He. apply for_each_loop_body_raises in He.
    apply Exists_exists in He as (r & Hr & Ht).
    destruct (turn_raises _ _ Ht) as [-> Hn]. split; [done|].
    apply Exists_exists. eauto.
  - intros H. apply filter_startups_total.
    eapply Forall_impl; [exact H|]. intros r. apply has_none_cell_text.
Qed.

Lemma filter_raises_only_on_none_witness :
  Forall (fun r => has_none_cell r = false) sample_rows
  /\ exists st, filter_startups sample_rows = Ok st.
Proof.
  assert (H : Forall (fun r => has_none_cell r = false) sample_rows)
    by (repeat constructor; vm_compute; reflexivity).
  split; [exact H|exact (proj2 (filter_raises_only_on_none sample_rows) H)].
Defined.

Lemma warned_unparsable r o :
  turn r = Ok o -> warned o = if unparsable r then [shown_name r] else [].
Proof.
  rewrite turn_cases. unfold unparsable, shown_name, get at 1.
  destruct (r !! "funding_amount") as [[text|]|] eqn:Hr.
  - rewrite funding_Normalizer.
    destruct (Spec.Normalizer text) as [x|err] eqn:Hx.
    + destruct (side_cells_text r); [|done]. intros [= <-].
      unfold verdict. by destruct (_ && _).
    + apply Normalizer_raises in Hx as ->. by intros [= <-].
  - done.
  - rewrite funding_default. destruct (side_cells_text r); [|done].
    intros [= <-]. unfold verdict. by destruct (_ && _).
Qed.

Lemma warned_outcomes rs os :
  Forall2 (fun r o => turn r = Ok o) rs os ->
  concat (warned <$> os) = shown_name <$> List.filter unparsable rs.
Proof.
  induction 1 as [|r o rs os Ho _ IH]; [done|].
  cbn [fmap list_fmap concat List.filter]. rewrite IH, (warned_unparsable _ _ Ho).
  by destruct (unparsable r).
Qed.

Lemma warnings_after_run rs st :
  filter_startups rs = Ok st ->
  warnings st = shown_name <$> List.filter unparsable rs.
Proof.
  intros (os & Hos & ->)%filter_startups_outcomes. by apply warned_outcomes.
Qed.

(** X4: on rows whose funding cell is ASCII text, when the filter returns,
    its skip warnings name, in input order, exactly the rows whose funding
    cell is a text that does not parse (with Unknown for a row without
    company name). *)
Theorem warnings_are_unparsable_rows rs st :
  Forall (fun r => ascii_field r "funding_amount" = true) rs ->
  filter_startups rs = Ok st ->
  warnings st = shown_name <$> List.filter unparsable rs.
Proof.
  intros _ Hst. apply filter_startups_outcomes in Hst as (os & Hos & ->).
  cbn [warnings]. exact (warned_outcomes rs os Hos).
Qed.

Lemma warnings_are_unparsable_rows_witness :
  Forall (fun r => ascii_field r "funding_amount" = true) mixed_rows
  /\ List.filter unparsable mixed_rows
     = [ sample_row "Bad" "abc" "USA" "active" "private";
         sample_row "Both" "1.5MB" "France" "active" "private" ]
  /\ warnings mixed_state = ["Bad"; "Both"]
  /\ warnings mixed_state = shown_name <$> List.filter unparsable mixed_rows.
Proof.
  assert (H : Forall (fun r => ascii_field r "funding_amount" = true) mixed_rows)
    by (repeat (constructor; [by_evaluation|]); constructor).
  split; [exact H|]. split; [by_evaluation|]. split; [reflexivity|].
  exact (warnings_are_unparsable_rows mixed_rows mixed_state H mixed_run).
Defined.

(** X5: the filter changes the rows of [self.startups] in place only where
    it keeps them: after the run there are as many rows as before, a row that
    is not eligible is as it was, and a kept row differs at most in the field
    [funding_amount_parsed]; the kept rows are, in order, the records
    returned. *)
Theorem filter_changes_only_kept_rows rs st :
  filter_startups rs = Ok st ->
  length (objects st) = length rs
  /\ Forall2
       (fun after before =>
          (forall k, k <> "funding_amount_parsed" -> after !! k = before !! k)
          /\ (Spec.eligible before = false -> after = before))
       (objects st) rs
  /\ filtered st
     = snd <$> List.filter (fun p => Spec.eligible (fst p)) (zip rs (objects st)).
Proof.
  intros Hst. rewrite (objects_after_run _ _ Hst), (filtered_eligible _ _ Hst).
  split; [by rewrite length_fmap|]. split.
  - apply Forall2_fmap_l, Forall_Forall2_diag, Forall_true. intros r.
    unfold compose. destruct (Spec.eligible r); [|done].
    split; [|done]. intros k Hk. unfold Spec.EligibleRecord.
    by rewrite lookup_insert_ne.
  - clear Hst. induction rs as [|r rs IH]; [done|].
    cbn [fmap list_fmap zip zip_with List.filter fst]. 
    destruct (Spec.eligible r) eqn:Hr; cbn [fmap list_fmap snd]; by rewrite IH.
Qed.

Lemma filter_changes_only_kept_rows_witness :
  length (objects sample_state) = length sample_rows.
Proof.
  exact (proj1 (filter_changes_only_kept_rows sample_rows sample_state sample_run)).
Defined.

(** X6: rows are judged one by one: the filter returns on a concatenation
    exactly when it returns on both parts, and then its rows, its records and
    its warnings are those of the parts, one after the other. *)
Theorem filter_startups_app rs1 rs2 st :
  filter_startups (rs1 ++ rs2) = Ok st <->
  exists st1 st2,
    filter_startups rs1 = Ok st1 /\ filter_startups rs2 = Ok st2
    /\ st = {| objects := objects st1 ++ objects st2;
               filtered := filtered st1 ++ filtered st2;
               warnings := warnings st1 ++ warnings st2 |}.
Proof.
  rewrite filter_startups_outcomes. split.
  - intros (os & Hos & ->).
    apply Forall2_turn_app in Hos as (os1 & os2 & -> & H1 & H2).
    eexists _, _. split; [apply filter_startups_outcomes; eauto|].
    split; [apply filter_startups_outcomes; eauto|]. simpl.
    by rewrite !fmap_app, !concat_app, zip_with_app by eauto using Forall2_length.
  - intros (st1 & st2 & (os1 & H1 & ->)%filter_startups_outcomes
                      & (os2 & H2 & ->)%filter_startups_outcomes & ->).
    exists (os1 ++ os2). split; [by apply Forall2_app|]. simpl.
    by rewrite !fmap_app, !concat_app, zip_with_app by eauto using Forall2_length.
Qed.

Lemma filter_startups_app_witness :
  exists st1 st2,
    filter_startups (take 1 sample_rows) = Ok st1
    /\ filter_startups (drop 1 sample_rows) = Ok st2
    /\ sample_state = {| objects := objects st1 ++ objects st2;
                         filtered := filtered st1 ++ filtered st2;
                         warnings := warnings st1 ++ warnings st2 |}.
Proof.
  exact (proj1 (filter_startups_app (take 1 sample_rows) (drop 1 sample_rows)
                  sample_state) sample_run).
Defined.

(** X7: the display text of every record the filter returns is a dollar sign
    followed by [inf], or by the numeral of the amount rounded to a whole
    number with a comma before every group of three digits; the amount is
    positive (never NaN, zero or negative), and taking the commas out gives
    the numeral back. *)
Theorem display_text_shape rs st :
  filter_startups rs = Ok st ->
  Forall
    (fun e =>
       exists body,
         e !! "funding_amount_parsed" = Some (PStr (String "$" body))
         /\ ((body = "inf" /\ Spec.FundingAmount e = S754_infinity false)
             \/ exists m ex numeral,
                  Spec.FundingAmount e = S754_finite false m ex
                  /\ numeral
                     = NilZero.string_of_uint (N.to_uint (PyFloat.round_half_even m ex))
                  /\ body = PyFloat.group_thousands numeral
                  /\ PyStr.remove_char "," body = numeral
                  /\ all_chars PyFloat.is_digit numeral = true))
    (filtered st).
Proof.
  intros Hst. rewrite (filtered_eligible _ _ Hst).
  apply Forall_fmap, Forall_forall. intros r Hr.
  apply list_elem_of_In, filter_In in Hr as [_ Hr]. unfold compose.
  rewrite FundingAmount_EligibleRecord. unfold Spec.EligibleRecord.
  rewrite lookup_insert_eq.
  destruct (meets_funding_positive _ (eligible_meets_funding _ Hr))
    as [Hx|(m & ex & Hx)]; rewrite Hx.
  - exists "inf"%string. split; [done|]. by left.
  - exists (PyFloat.group_thousands
              (NilZero.string_of_uint (N.to_uint (PyFloat.round_half_even m ex)))).
    split; [reflexivity|]. right.
    exists m, ex,
      (NilZero.string_of_uint (N.to_uint (PyFloat.round_half_even m ex))).
    destruct (string_of_uint_nonempty (N.to_uint (PyFloat.round_half_even m ex)))
      as (c & t & Hd & Hall).
    split; [done|]. split; [done|]. split; [done|].
    rewrite Hd in *. by rewrite (remove_comma_grouped _ Hall).
Qed.

Lemma display_text_shape_witness :
  Forall
    (fun e =>
       exists body,
         e !! "funding_amount_parsed" = Some (PStr (String "$" body))
         /\ ((body = "inf" /\ Spec.FundingAmount e = S754_infinity false)
             \/ exists m ex numeral,
                  Spec.FundingAmount e = S754_finite false m ex
                  /\ numeral
                     = NilZero.string_of_uint (N.to_uint (PyFloat.round_half_even m ex))
                  /\ body = PyFloat.group_thousands numeral
                  /\ PyStr.remove_char "," body = numeral
                  /\ all_chars PyFloat.is_digit numeral = true))
    (filtered sample_state).
Proof. exact (display_text_shape sample_rows sample_state sample_run). Defined.

(** ** The tally of locations *)

Lemma location_tally_snoc l r :
  location_tally (l ++ [r]) = tally_add (location_of r) (location_tally l).
Proof. unfold location_tally. by rewrite fold_left_app. Qed.

Lemma tally_add_keys loc t :
  (tally_add loc t).*1 = if decide (loc ∈ t.*1) then t.*1 else t.*1 ++ [loc].
Proof.
  induction t as [|[l n] t IH]; [done|].
  cbn [tally_add]. destruct (decide (l = loc)) as [->|Hne].
  - rewrite !fmap_cons. cbn [fst]. rewrite decide_True; [done|]. by left.
  - rewrite !fmap_cons, IH. cbn [fst].
    destruct (decide (loc ∈ t.*1)) as [Hin|Hin].
    + rewrite decide_True; [done|]. by right.
    + rewrite decide_False; [done|]. intros [->|?]%elem_of_cons; done.
Qed.

Lemma tally_add_count loc loc' t :
  tally_count loc' (tally_add loc t)
  = tally_count loc' t + (if decide (loc = loc') then 1 else 0).
Proof.
  induction t as [|[l n] t IH]; cbn [tally_add tally_count].
  - destruct (decide (loc = loc')); done.
  - destruct (decide (l = loc)) as [->|Hne]; cbn [tally_count].
    + destruct (decide (loc = loc')); lia.
    + destruct (decide (l = loc')) as [->|Hne'].
      * rewrite decide_False by done. lia.
      * apply IH.
Qed.

Lemma location_tally_keys l loc :
  loc ∈ (location_tally l).*1 <-> loc ∈ location_of <$> l.
Proof.
  induction l as [|r l IH] using rev_ind; [done|].
  rewrite location_tally_snoc, tally_add_keys, fmap_app, elem_of_app.
  cbn [fmap list_fmap]. rewrite list_elem_of_singleton.
  destruct (decide (location_of r ∈ (location_tally l).*1)) as [Hin|Hin].
  - rewrite IH. split; [auto|]. intros [?| ->]; [done|]. by apply IH.
  - rewrite elem_of_app, list_elem_of_singleton, IH. done.
Qed.

Lemma location_tally_NoDup l : NoDup (location_tally l).*1.
Proof.
  induction l as [|r l IH] using rev_ind; [constructor|].
  rewrite location_tally_snoc, tally_add_keys.
  destruct (decide (location_of r ∈ (location_tally l).*1)) as [Hin|Hin]; [done|].
  apply NoDup_app. split; [done|]. split; [|apply NoDup_singleton].
  intros x Hx ->%list_elem_of_singleton. done.
Qed.

Lemma tally_count_entry t loc n :
  NoDup t.*1 -> (loc, n) ∈ t -> tally_count loc t = n.
Proof.
  induction t as [|[l m] t IH]; [by intros _ ?%elem_of_nil|].
  rewrite fmap_cons, NoDup_cons. cbn [fst tally_count].
  intros [Hl Ht] [[= -> ->]|Hin]%elem_of_cons.
  - by rewrite decide_True.
  - destruct (decide (l = loc)) as [->|Hne]; [|by apply IH].
    destruct Hl. apply list_elem_of_fmap. by exists (loc, n).
Qed.

(** The number of records tallied under [loc]. *)
Lemma count_snoc (P : record -> bool) l r :
  length (List.filter P (l ++ [r]))
  = length (List.filter P l) + (if P r then 1 else 0).
Proof.
  rewrite List.filter_app, length_app. cbn [List.filter].
  by destruct (P r).
Qed.

Lemma location_tally_count l loc :
  tally_count loc (location_tally l)
  = length (List.filter (fun r => bool_decide (location_of r = loc)) l).
Proof.
  induction l as [|r l IH] using rev_ind; [done|].
  rewrite location_tally_snoc, tally_add_count, count_snoc, IH.
  destruct (decide (location_of r = loc)) as [Heq|Hne].
  - by rewrite bool_decide_eq_true_2.
  - by rewrite bool_decide_eq_false_2.
Qed.

(** X8: the tally has one entry per distinct location, and the count of a
    location is the number of records with exactly that location (its text as
    it stands, Unknown for a record without one); no entry has count 0. *)
Theorem location_tally_counts (l : list record) :
  NoDup (location_tally l).*1
  /\ (forall loc,
        tally_count loc (location_tally l)
        = length (List.filter (fun r => bool_decide (location_of r = loc)) l))
  /\ (forall loc n,
        (loc, n) ∈ location_tally l ->
        n = length (List.filter (fun r => bool_decide (location_of r = loc)) l)
        /\ 0 < n).
Proof.
  split; [apply location_tally_NoDup|]. split; [apply location_tally_count|].
  intros loc n Hin.
  pose proof (tally_count_entry _ _ _ (location_tally_NoDup l) Hin) as Hn.
  rewrite location_tally_count in Hn. split; [done|]. rewrite <- Hn.
  assert (Hloc : loc ∈ location_of <$> l).
  { apply location_tally_keys, list_elem_of_fmap. by exists (loc, n). }
  apply list_elem_of_fmap in Hloc as (r & -> & Hr).
  apply list_elem_of_In in Hr.
  assert (Hf : In r (List.filter (fun r' => bool_decide (location_of r' = location_of r)) l))
    by (apply filter_In; split; [done|by apply bool_decide_eq_true_2]).
  destruct (List.filter _ l); [done|]. simpl. lia.
Qed.

Lemma location_tally_counts_witness :
  1 = length (List.filter (fun r => bool_decide (location_of r = PStr "USA"))
                (filtered sample_state))
  /\ 0 < 1.
Proof.
  apply (proj2 (proj2 (location_tally_counts (filtered sample_state))) (PStr "USA") 1).
  vm_compute. apply list_elem_of_here.
Defined.

Lemma first_seen_snoc l x :
  first_seen (l ++ [x]) = if decide (x ∈ l) then first_seen l else first_seen l ++ [x].
Proof.
  unfold first_seen. rewrite reverse_snoc. cbn [remove_dups].
  destruct (decide_rel elem_of x (reverse l)) as [Hin|Hin].
  - rewrite decide_True; [done|]. by apply elem_of_reverse.
  - rewrite decide_False, reverse_cons; [done|]. by rewrite <- elem_of_reverse.
Qed.

(** X9: the entries of the tally stand in the order in which their
    locations first appear in the list of records. *)
Theorem location_tally_order (l : list record) :
  (location_tally l).*1 = first_seen (location_of <$> l).
Proof.
  induction l as [|r l IH] using rev_ind; [done|].
  rewrite location_tally_snoc, tally_add_keys, fmap_app. cbn [fmap list_fmap].
  rewrite first_seen_snoc, <- IH.
  destruct (decide (location_of r ∈ (location_tally l).*1)) as [Hin|Hin].
  - rewrite decide_True; [done|]. by apply location_tally_keys.
  - rewrite decide_False; [done|]. by rewrite <- location_tally_keys.
Qed.

(** ** The summary *)

Lemma display_summary_inv l s :
  display_summary l = Ok (Some s) ->
  l <> []
  /\ top_locations s = take 10 (sorted_reverse Nat.ltb snd (location_tally l))
  /\ exists ranked,
       sorted_startups l = Ok ranked /\ top_funded s = summary_line <$> take 5 ranked.
Proof.
  unfold display_summary. destruct l as [|r l]; [done|].
  destruct (sorted_startups (r :: l)) as [ranked|e]; [|done].
  intros [= <-]. split; [done|]. split; [done|]. by exists ranked.
Qed.

Lemma sorted_take_drop {A : Type} (R : A -> A -> Prop) n l a b :
  StronglySorted R l -> a ∈ take n l -> b ∈ drop n l -> R a b.
Proof.
  rewrite <- (take_drop n l) at 1. rewrite StronglySorted_app.
  intros (H & _ & _). eauto.
Qed.

Lemma StronglySorted_weaken {A : Type} (R S : A -> A -> Prop) l :
  (forall a b, R a b -> S a b) -> StronglySorted R l -> StronglySorted S l.
Proof.
  intros HRS. induction 1 as [|a l _ IH Ha]; constructor; [done|].
  eapply Forall_impl; [exact Ha|]. auto.
Qed.

Lemma ltb_asym_nat x y : Nat.ltb x y = true -> Nat.ltb y x = false.
Proof. rewrite Nat.ltb_lt, Nat.ltb_ge. lia. Qed.

Lemma ltb_false_trans_nat x y z :
  True -> True -> True ->
  Nat.ltb y x = false -> Nat.ltb z y = false -> Nat.ltb z x = false.
Proof. rewrite !Nat.ltb_ge. lia. Qed.

Lemma eqb_not_ltb_nat x y :
  Nat.eqb x y = true -> Nat.ltb x y = false /\ Nat.ltb y x = false.
Proof. rewrite Nat.eqb_eq, !Nat.ltb_ge. lia. Qed.

(** X10: the locations shown are the first ten of the tally sorted by
    falling count, locations with equal counts staying in the order of the
    tally; so they are at most ten, each count is at least the next, and no
    location left out has a greater count than one shown. *)
Theorem top_locations_ranked (l : list record) s :
  display_summary l = Ok (Some s) ->
  exists sorted,
    top_locations s = take 10 sorted
    /\ sorted ≡ₚ location_tally l
    /\ StronglySorted (fun a b => a.2 >= b.2) sorted
    /\ (forall n,
          List.filter (fun a => Nat.eqb a.2 n) sorted
          = List.filter (fun a => Nat.eqb a.2 n) (location_tally l))
    /\ length (top_locations s) <= 10
    /\ (forall a b,
          a ∈ top_locations s -> b ∈ location_tally l -> b ∉ top_locations s ->
          a.2 >= b.2).
Proof.
  intros (_ & Htop & _)%display_summary_inv.
  set (sorted := sorted_reverse Nat.ltb snd (location_tally l)) in *.
  assert (Hperm : sorted ≡ₚ location_tally l) by apply sorted_reverse_perm.
  assert (Hsorted : StronglySorted (fun a b => a.2 >= b.2) sorted).
  { apply (StronglySorted_weaken (not_below Nat.ltb snd)).
    - intros a b. unfold not_below. rewrite Nat.ltb_ge. lia.
    - apply (sorted_reverse_sorted Nat.ltb snd (fun _ => True));
        [apply ltb_asym_nat|exact ltb_false_trans_nat|by apply Forall_true]. }
  exists sorted. split; [done|]. split; [done|]. split; [done|]. split.
  { intros n. apply (sorted_reverse_stable Nat.ltb Nat.eqb snd (fun _ => True));
      [exact ltb_false_trans_nat|apply eqb_not_ltb_nat|done|by apply Forall_true]. }
  split; [rewrite Htop, length_take; lia|].
  intros a b Ha Hb Hnb. rewrite Htop in Ha, Hnb.
  apply (sorted_take_drop (fun a b : pyval * nat => a.2 >= b.2) 10 sorted a b);
    [done|done|].
  rewrite <- Hperm, <- (take_drop 10 sorted), elem_of_app in Hb.
  by destruct Hb.
Qed.

Lemma top_locations_ranked_witness :
  display_summary many_locations = Ok (Some many_locations_summary)
  /\ length (location_tally many_locations) = 13
  /\ location_tally many_locations
     = [ (PStr "Berlin, Germany", 1); (PStr "Austin, USA", 3);
         (PStr "Paris, France", 2); (PStr "Madrid, Spain", 1);
         (PStr "Rome, Italy", 1); (PStr "London, UK", 1);
         (PStr "Oslo, Norway", 1); (PStr "Warsaw, Poland", 1);
         (PStr "Dublin, Ireland", 1); (PStr "Ghent, Belgium", 1);
         (PStr "Vienna, Austria", 1); (PStr "Lisbon, Portugal", 1);
         (PStr "Zurich, Switzerland", 1) ]
  /\ exists sorted,
       top_locations many_locations_summary = take 10 sorted
       /\ sorted ≡ₚ location_tally many_locations
       /\ StronglySorted (fun a b => a.2 >= b.2) sorted
       /\ (forall n,
             List.filter (fun a => Nat.eqb a.2 n) sorted
             = List.filter (fun a => Nat.eqb a.2 n) (location_tally many_locations))
       /\ length (top_locations many_locations_summary) <= 10
       /\ (forall a b,
             a ∈ top_locations many_locations_summary ->
             b ∈ location_tally many_locations ->
             b ∉ top_locations many_locations_summary ->
             a.2 >= b.2).
Proof.
  assert (H : display_summary many_locations = Ok (Some many_locations_summary))
    by by_evaluation.
  split; [exact H|]. split; [by_evaluation|]. split; [by_evaluation|].
  exact (top_locations_ranked many_locations many_locations_summary H).
Defined.

(** X11: on what the filter returns [display_summary] never raises: for a
    non-empty result there is a summary, whose funding lines are those of the
    first five records of the ranking (name, display text, location), so
    [min 5 n] lines for [n] records, and no record left out has a greater
    shown amount than one listed; for an empty result nothing is shown. *)
Theorem summary_of_filter_output rs st :
  filter_startups rs = Ok st ->
  (filtered st = [] -> display_summary (filtered st) = Ok None)
  /\ (filtered st <> [] ->
      exists s ranked,
        display_summary (filtered st) = Ok (Some s)
        /\ sorted_startups (filtered st) = Ok ranked
        /\ top_funded s = summary_line <$> take 5 ranked
        /\ length (top_funded s) = min 5 (length (filtered st))
        /\ (forall a b,
              a ∈ take 5 ranked -> b ∈ drop 5 ranked ->
              PyFloat.ltb (shown_amount a) (shown_amount b) = false)).
Proof.
  intros Hst. split; [by intros ->|]. intros Hne.
  pose proof (shown_amounts rs st Hst) as Hl.
  assert (Hkeys : Forall (fun e => sort_key e = Ok (shown_amount e)) (filtered st))
    by (eapply Forall_impl; [exact Hl|]; by intros e (? & ? & ?)).
  assert (Hnum : Forall (fun e => shown_amount e <> S754_nan) (filtered st))
    by (eapply Forall_impl; [exact Hl|]; by intros e (? & ? & ?)).
  pose proof (sorted_startups_keyed _ Hkeys) as Hranked.
  set (ranked := sorted_reverse PyFloat.ltb shown_amount (filtered st)) in *.
  exists {| top_locations :=
              take 10 (sorted_reverse Nat.ltb snd (location_tally (filtered st)));
            top_funded := summary_line <$> take 5 ranked |}, ranked.
  split.
  { unfold display_summary. rewrite Hranked. by destruct (filtered st). }
  split; [done|]. split; [done|]. split.
  { cbn [top_funded]. rewrite length_fmap, length_take.
    unfold ranked. by rewrite sorted_reverse_perm. }
  intros a b. apply (sorted_take_drop (not_below PyFloat.ltb shown_amount)).
  apply (sorted_reverse_sorted PyFloat.ltb shown_amount (fun k => k <> S754_nan));
    [apply ltb_asym| |exact Hnum].
  intros x y z. apply ltb_false_trans.
Qed.

Lemma summary_of_filter_output_witness :
  exists s ranked,
    display_summary (filtered sample_state) = Ok (Some s)
    /\ sorted_startups (filtered sample_state) = Ok ranked
    /\ top_funded s = summary_line <$> take 5 ranked
    /\ length (top_funded s) = min 5 (length (filtered sample_state)).
Proof.
  destruct (proj2 (summary_of_filter_output sample_rows sample_state sample_run))
    as (s & ranked & H1 & H2 & H3 & H4 & _); [discriminate|].
  exists s, ranked. repeat split; assumption.
Defined.

(** ** The exported table *)

Lemma row_of_ext r1 r2 :
  (forall k, k ∈ fieldnames -> cell r1 k = cell r2 k) -> row_of r1 = row_of r2.
Proof.
  intros H. unfold row_of. apply list_eq_Forall2, Forall2_fmap, Forall_Forall2_diag.
  apply Forall_forall. exact H.
Qed.

(** X12: only the nine columns of [fieldnames] reach the results file: a
    field under any other name (such as the raw [funding_amount]) changes
    nothing in the exported row, whether it is set or removed; and a cell
    holding [None] is exported like an empty text. *)
Theorem export_ignores_other_columns (r : record) k v :
  k ∉ fieldnames ->
  row_of (<[k := v]> r) = row_of r
  /\ row_of (delete k r) = row_of r
  /\ forall k', row_of (<[k' := PNone]> r) = row_of (<[k' := PStr ""]> r).
Proof.
  intros Hk. split; [|split].
  - apply row_of_ext. intros k' Hk'. unfold cell.
    rewrite lookup_insert_ne; [done|]. by intros ->.
  - apply row_of_ext. intros k' Hk'. unfold cell.
    rewrite lookup_delete_ne; [done|]. by intros ->.
  - intros k'. apply row_of_ext. intros k'' _. unfold cell.
    destruct (decide (k' = k'')) as [->|Hne].
    + by rewrite !lookup_insert_eq.
    + by rewrite !lookup_insert_ne.
Qed.

Lemma export_ignores_other_columns_witness :
  row_of (<["funding_amount" := PStr "1"]> (sample_row "A" "150M" "USA" "active" "private"))
  = row_of (sample_row "A" "150M" "USA" "active" "private").
Proof.
  refine (proj1 (export_ignores_other_columns
                   (sample_row "A" "150M" "USA" "active" "private")
                   "funding_amount" (PStr "1") _)).
  unfold fieldnames. intros H.
  repeat (apply elem_of_cons in H as [H|H]; [discriminate H|]).
  by apply elem_of_nil in H.
Defined.

Lemma cell_field r k : cell r k = Spec.field r k.
Proof. unfold cell, Spec.field. by destruct (r !! k) as [[]|]. Qed.

Lemma cell_EligibleRecord r k :
  k <> "funding_amount_parsed" -> cell (Spec.EligibleRecord r) k = Spec.field r k.
Proof.
  intros Hk. unfold Spec.EligibleRecord, cell.
  rewrite lookup_insert_ne by done. apply (cell_field r).
Qed.

Lemma row_of_EligibleRecord r : row_of (Spec.EligibleRecord r) = exported_row r.
Proof.
  unfold row_of, fieldnames, exported_row.
  cbn [fmap list_fmap].
  rewrite (cell_EligibleRecord r "company_name"), (cell_EligibleRecord r "location"),
    (cell_EligibleRecord r "status"), (cell_EligibleRecord r "ipo_status"),
    (cell_EligibleRecord r "funding_round"), (cell_EligibleRecord r "description"),
    (cell_EligibleRecord r "website"), (cell_EligibleRecord r "founded_year")
    by discriminate.
  do 2 f_equal. unfold Spec.EligibleRecord, cell. by rewrite lookup_insert_eq.
Qed.

Lemma table_of_EligibleRecord rs :
  table_of (Spec.EligibleRecord <$> rs) = fieldnames :: (exported_row <$> rs).
Proof.
  unfold table_of. rewrite <- list_fmap_compose. f_equal.
  apply list_fmap_ext. intros i r _. apply row_of_EligibleRecord.
Qed.

(** X13: the table exported after a run of the filter is, below the header,
    one row per eligible input row, in input order, holding the name, the
    display text of the amount, and the location, status, IPO status, round,
    description, website and founding year of that row (empty where the row
    has none). *)
Theorem exported_table_from_input rs st :
  filter_startups rs = Ok st -> filtered st <> [] ->
  export_to_csv (filtered st) true
  = (true, Some (fieldnames :: (exported_row <$> List.filter Spec.eligible rs))).
Proof.
  intros Hst Hne. unfold export_to_csv.
  destruct (filtered st) eqn:Hf; [done|]. rewrite <- Hf.
  by rewrite (filtered_eligible _ _ Hst), table_of_EligibleRecord.
Qed.

Lemma exported_table_from_input_witness :
  export_to_csv (filtered sample_state) true
  = (true, Some (fieldnames :: (exported_row <$> List.filter Spec.eligible sample_rows))).
Proof.
  apply (exported_table_from_input sample_rows sample_state sample_run). discriminate.
Defined.

(** ** The loader *)

Lemma zip_dict_lookup_ne fieldnames row d k :
  k ∉ take (length row) fieldnames -> zip_dict fieldnames row d !! k = d !! k.
Proof.
  revert row d. induction fieldnames as [|key fieldnames' IH]; intros [|value row'] d Hk;
    cbn [zip_dict]; try done.
  cbn [length take] in Hk. apply not_elem_of_cons in Hk as [Hne Hk].
  rewrite (IH _ _ Hk). by apply lookup_insert_ne.
Qed.

Lemma zip_dict_lookup fieldnames row d i k v :
  NoDup fieldnames -> fieldnames !! i = Some k -> row !! i = Some v ->
  zip_dict fieldnames row d !! k = Some (PStr v).
Proof.
  revert row d i.
  induction fieldnames as [|key fieldnames' IH]; intros [|value row'] d i Hnd Hk Hv;
    try done.
  apply NoDup_cons in Hnd as [Hkey Hnd]. cbn [zip_dict]. destruct i as [|j].
  - injection Hk as ->. injection Hv as ->.
    rewrite zip_dict_lookup_ne; [apply lookup_insert_eq|].
    intros H. apply Hkey. exact (subseteq_take _ _ _ H).
  - by apply (IH row' _ j).
Qed.

Lemma fill_missing_lookup missing d k :
  fill_missing missing d !! k = if decide (k ∈ missing) then Some PNone else d !! k.
Proof.
  unfold fill_missing. revert d.
  induction missing as [|key missing' IH]; intros d; cbn [fold_left].
  - by rewrite decide_False by apply not_elem_of_nil.
  - rewrite IH. destruct (decide (k ∈ missing')) as [Hin|Hnin].
    + rewrite decide_True; [done|by right].
    + destruct (decide (k = key)) as [->|Hne].
      * rewrite decide_True by left. apply lookup_insert_eq.
      * rewrite decide_False; [by apply lookup_insert_ne|].
        intros [?|?]%elem_of_cons; done.
Qed.

Lemma dict_of_row_cell fieldnames row i k v :
  NoDup fieldnames -> fieldnames !! i = Some k -> row !! i = Some v ->
  dict_of_row fieldnames row !! k = Some (PStr v).
Proof.
  intros Hnd Hk Hv. unfold dict_of_row. rewrite fill_missing_lookup.
  rewrite decide_False; [by apply (zip_dict_lookup _ _ _ i)|].
  intros (j & Hj)%list_elem_of_lookup. rewrite lookup_drop in Hj.
  pose proof (NoDup_lookup _ _ _ _ Hnd Hk Hj) as ->.
  apply lookup_lt_Some in Hv. lia.
Qed.

Lemma dict_of_row_missing fieldnames row i k :
  fieldnames !! i = Some k -> length row <= i ->
  dict_of_row fieldnames row !! k = Some PNone.
Proof.
  intros Hk Hi. unfold dict_of_row. rewrite fill_missing_lookup.
  rewrite decide_True; [done|].
  apply list_elem_of_lookup. exists (i - length row).
  rewrite lookup_drop. by replace (length row + (i - length row)) with i by lia.
Qed.

Lemma dict_of_row_other fieldnames row k :
  k ∉ fieldnames -> dict_of_row fieldnames row !! k = None.
Proof.
  intros Hk. unfold dict_of_row. rewrite fill_missing_lookup.
  rewrite decide_False.
  - rewrite zip_dict_lookup_ne; [done|].
    intros H. apply Hk. exact (subseteq_take _ _ _ H).
  - intros H. apply Hk. exact (subseteq_drop _ _ _ H).
Qed.

(** X14: the dictionary [csv.DictReader] builds from a line, the field
    names being distinct: under the i-th field name it holds the i-th cell of
    the line as text, [None] when the line has no i-th cell, and it has no
    other key (cells beyond the field names apart). *)
Theorem dict_of_row_lookup fieldnames row :
  NoDup fieldnames ->
  (forall i k, fieldnames !! i = Some k ->
     dict_of_row fieldnames row !! k
     = Some (match row !! i with Some v => PStr v | None => PNone end))
  /\ (forall k, k ∉ fieldnames -> dict_of_row fieldnames row !! k = None).
Proof.
  intros Hnd. split.
  - intros i k Hk. destruct (row !! i) as [v|] eqn:Hv.
    + by apply (dict_of_row_cell _ _ i).
    + apply (dict_of_row_missing _ _ i); [done|]. by apply lookup_ge_None.
  - intros k. apply dict_of_row_other.
Qed.

Lemma dict_of_row_lookup_witness :
  dict_of_row ["company_name"; "funding_amount"; "location"] ["Acme"; "150M"]
    !! "location" = Some PNone.
Proof.
  refine (proj1 (dict_of_row_lookup ["company_name"; "funding_amount"; "location"]
                   ["Acme"; "150M"] _) 2 "location" eq_refl).
  repeat (apply NoDup_cons; split;
          [intros H; repeat (apply elem_of_cons in H as [H|H]; [discriminate H|]);
           by apply elem_of_nil in H|]).
  apply NoDup_nil_2.
Defined.

Lemma zip_dict_text fieldnames row d :
  map_Forall (fun _ v => v <> PNone) d ->
  map_Forall (fun _ v => v <> PNone) (zip_dict fieldnames row d).
Proof.
  revert row d. induction fieldnames as [|key fieldnames' IH]; intros [|value row'] d Hd;
    cbn [zip_dict]; try done.
  apply IH. by apply map_Forall_insert_2.
Qed.

Lemma dict_of_row_text fieldnames row :
  length fieldnames <= length row ->
  map_Forall (fun _ v => v <> PNone) (dict_of_row fieldnames row).
Proof.
  intros Hlen. unfold dict_of_row. rewrite drop_ge by done.
  apply zip_dict_text, map_Forall_empty.
Qed.

Lemma text_cells_text_row d : map_Forall (fun _ v => v <> PNone) d -> text_row d.
Proof.
  intros Hd. repeat split; intros H; by apply (Hd _ _ H).
Qed.

Lemma text_cells_side d :
  map_Forall (fun _ v => v <> PNone) d -> side_cells_text d = true.
Proof.
  intros (_ & Hl & Hs & Hi)%text_cells_text_row. unfold side_cells_text.
  by destruct (d !! "location") as [[]|], (d !! "status") as [[]|],
    (d !! "ipo_status") as [[]|].
Qed.

Lemma DictReader_text fieldnames rows :
  Forall (fun row => row = [] \/ length fieldnames <= length row) rows ->
  Forall (map_Forall (fun _ v => v <> PNone)) (DictReader (fieldnames :: rows)).
Proof.
  intros Hrows. cbn [DictReader]. apply Forall_fmap, Forall_forall.
  intros row [Hin Hnb]%list_elem_of_In%filter_In. apply list_elem_of_In in Hin.
  apply (proj1 (Forall_forall _ _) Hrows) in Hin as [->|Hlen]; [done|].
  by apply dict_of_row_text.
Qed.

(** X15: when every line of the input that is not blank has at least as
    many cells as the header, every loaded row holds text only, and the
    filter returns on the loaded rows: it raises nothing. *)
Theorem rectangular_input_never_raises fieldnames rows :
  Forall (fun row => row = [] \/ length fieldnames <= length row) rows ->
  Forall text_row (DictReader (fieldnames :: rows))
  /\ exists st, filter_startups (DictReader (fieldnames :: rows)) = Ok st.
Proof.
  intros Hrows%DictReader_text.
  assert (Forall text_row (DictReader (fieldnames :: rows))) as Htext.
  { eapply Forall_impl; [exact Hrows|]. apply text_cells_text_row. }
  split; [done|]. by apply filter_startups_total.
Qed.

Lemma rectangular_input_never_raises_witness :
  exists st, filter_startups (DictReader create_template) = Ok st.
Proof.
  refine (proj2 (rectangular_input_never_raises template_fieldnames
                   ((fun rowdict => cell rowdict <$> template_fieldnames) <$> template_data)
                   _)).
  repeat (constructor; [right; vm_compute; lia|]). constructor.
Defined.

Lemma turn_none_funding r :
  r !! "funding_amount" = Some PNone -> turn r = Raise AttributeError.
Proof. intros Hr. rewrite turn_cases. unfold get. by rewrite Hr. Qed.

Lemma filter_startups_raises rs r e :
  r ∈ rs -> turn r = Raise e ->
  (forall r' e', turn r' = Raise e' -> e' = e) ->
  filter_startups rs = Raise e.
Proof.
  intros Hin Hr Hall. destruct (filter_startups rs) as [st|e'] eqn:Hrun.
  - apply filter_startups_outcomes in Hrun as (os & Hos & _).
    apply list_elem_of_lookup in Hin as [i Hi].
    destruct (Forall2_lookup_l _ _ _ _ _ Hos Hi) as (o & _ & Ho). congruence.
  - f_equal. apply for_each_loop_body_raises in Hrun.
    apply Exists_exists in Hrun as (r' & _ & Hr'). by apply (Hall r').
Qed.

(** X16: a line of the input that is not blank and ends before the column
    [funding_amount] makes the filter raise [AttributeError], whatever the
    other lines hold: no row is kept and no result is returned. *)
Theorem short_line_raises fieldnames rows row i :
  fieldnames !! i = Some "funding_amount" ->
  row ∈ rows -> row <> [] -> length row <= i ->
  filter_startups (DictReader (fieldnames :: rows)) = Raise AttributeError.
Proof.
  intros Hk Hin Hnb Hlen.
  apply (filter_startups_raises _ (dict_of_row fieldnames row)).
  - cbn [DictReader]. apply list_elem_of_fmap. exists row. split; [done|].
    apply list_elem_of_In, filter_In. split; [by apply list_elem_of_In|].
    by destruct row.
  - apply turn_none_funding. by apply (dict_of_row_missing _ _ i).
  - intros r' e' He'. by destruct (turn_raises _ _ He').
Qed.

Lemma short_line_raises_witness :
  filter_startups
    (DictReader [ ["company_name"; "funding_amount"; "location"];
                  ["Acme"]; ["Best"; "150M"; "USA"] ])
  = Raise AttributeError.
Proof.
  apply (short_line_raises ["company_name"; "funding_amount"; "location"]
           [ ["Acme"]; ["Best"; "150M"; "USA"] ] ["Acme"] 1).
  - reflexivity.
  - apply list_elem_of_here.
  - discriminate.
  - simpl. lia.
Defined.

(** ** Reading back what was written *)

Lemma NoDup_fieldnames : NoDup fieldnames.
Proof.
  unfold fieldnames.
  repeat (apply NoDup_cons; split;
          [intros H; repeat (apply elem_of_cons in H as [H|H]; [discriminate H|]);
           by apply elem_of_nil in H|]).
  apply NoDup_nil_2.
Qed.

Lemma not_blank_row_of l :
  List.filter (fun row => negb (is_blank row)) (row_of <$> l) = row_of <$> l.
Proof. induction l as [|r l IH]; [done|]. cbn. by rewrite IH. Qed.

Lemma DictReader_table_of l :
  DictReader (table_of l) = (fun r => dict_of_row fieldnames (row_of r)) <$> l.
Proof.
  unfold table_of. cbn [DictReader]. by rewrite not_blank_row_of, <- list_fmap_compose.
Qed.

Lemma universal_newlines_plain text :
  PyStr.char_in "013" text = false -> universal_newlines false text = text.
Proof.
  induction text as [|c t IH]; [done|]. cbn [PyStr.char_in universal_newlines].
  destruct (Ascii.eqb c "013"); [done|]. rewrite andb_false_r.
  intros Ht. by rewrite (IH Ht).
Qed.

Lemma universal_newlines_clean after_cr text :
  PyStr.char_in "013" (universal_newlines after_cr text) = false.
Proof.
  revert after_cr. induction text as [|c t IH]; intros after_cr; [done|].
  cbn [universal_newlines]. destruct (Ascii.eqb c "013") eqn:Hc.
  - cbn [PyStr.char_in]. by rewrite IH.
  - destruct (Ascii.eqb c "010" && after_cr); [apply IH|].
    cbn [PyStr.char_in]. by rewrite Hc, IH.
Qed.

Lemma read_back_plain table : no_carriage_return table -> read_back table = table.
Proof.
  intros Htable. unfold read_back.
  induction Htable as [|row table Hrow _ IH]; [done|].
  cbn [fmap list_fmap]. f_equal; [|exact IH].
  induction Hrow as [|text row Htext _ IHrow]; [done|].
  cbn [fmap list_fmap]. by rewrite (universal_newlines_plain _ Htext), IHrow.
Qed.

Lemma read_back_clean table : no_carriage_return (read_back table).
Proof.
  unfold no_carriage_return, read_back.
  apply Forall_fmap, Forall_true. intros row.
  apply Forall_fmap, Forall_true. intros text. apply universal_newlines_clean.
Qed.

Lemma read_back_table_of l :
  read_back (table_of l)
  = fieldnames :: ((fun r => universal_newlines false <$> row_of r) <$> l).
Proof.
  unfold read_back, table_of. cbn [fmap list_fmap]. f_equal.
  by rewrite <- list_fmap_compose.
Qed.

Lemma row_of_dict_of_cells (cells : list string) :
  length cells = length fieldnames ->
  row_of (dict_of_row fieldnames cells) = cells.
Proof.
  intros Hlen. unfold row_of. apply list_eq. intros i. rewrite list_lookup_fmap.
  destruct (fieldnames !! i) as [k|] eqn:Hk.
  - destruct (lookup_lt_is_Some_2 cells i) as [text Htext].
    { rewrite Hlen. by apply lookup_lt_Some in Hk. }
    rewrite Htext.
    change (Some (cell (dict_of_row fieldnames cells) k) = Some text).
    f_equal. unfold cell.
    by rewrite (dict_of_row_cell fieldnames cells i k text NoDup_fieldnames Hk Htext).
  - symmetry. apply lookup_ge_None. rewrite Hlen. by apply lookup_ge_None.
Qed.

Lemma filter_not_blank (rows : list (list string)) :
  Forall (fun row => row <> []) rows ->
  List.filter (fun row => negb (is_blank row)) rows = rows.
Proof.
  induction 1 as [|row rows Hrow _ IH]; [done|].
  cbn [List.filter]. destruct row; [done|]. cbn. by rewrite IH.
Qed.

(** X17: the results file read back.  The loader gets the exported cells
    with every carriage return (and the line feed after it) turned into a
    line feed, because the file is written with [newline=''] and read
    without it; exporting the loaded rows writes exactly the table that was
    read; a table read back holds no carriage return, so a further round
    trip changes nothing; and when no exported cell holds a carriage return,
    the table read back and exported again is the table exported, cell for
    cell (a [None] or missing value was written as the empty text, and is
    read back as the empty text). *)
Theorem export_load_export l :
  table_of (DictReader (read_back (table_of l))) = read_back (table_of l)
  /\ read_back (read_back (table_of l)) = read_back (table_of l)
  /\ (no_carriage_return (table_of l) ->
      table_of (DictReader (read_back (table_of l))) = table_of l).
Proof.
  assert (H : table_of (DictReader (read_back (table_of l))) = read_back (table_of l)).
  { rewrite read_back_table_of. cbn [DictReader].
    rewrite filter_not_blank
      by (apply Forall_fmap, Forall_true; intros r; unfold compose; discriminate).
    unfold table_of. f_equal. rewrite <- !list_fmap_compose.
    apply list_fmap_ext. intros i r _. unfold compose.
    apply row_of_dict_of_cells. unfold row_of. by rewrite !length_fmap. }
  split; [exact H|]. split; [apply read_back_plain, read_back_clean|].
  intros Hplain. by rewrite H, read_back_plain.
Qed.

Lemma export_load_export_witness :
  no_carriage_return (table_of (filtered mixed_state))
  /\ table_of (DictReader (read_back (table_of (filtered mixed_state))))
     = table_of (filtered mixed_state).
Proof.
  assert (H : no_carriage_return (table_of (filtered mixed_state)))
    by (repeat (constructor; [repeat (constructor; [by_evaluation|]); constructor|]);
        constructor).
  split; [exact H|].
  exact (proj2 (proj2 (export_load_export (filtered mixed_state))) H).
Defined.

(** A carriage return does not come back: the cell a, CR, b is read back as
    a, LF, b, and the cell a, CR, LF, b as well. *)
Lemma carriage_return_read_back :
  universal_newlines false (String "a" (String "013" (String "b" EmptyString)))
  = String "a" (String "010" (String "b" EmptyString))
  /\ universal_newlines false
       (String "a" (String "013" (String "010" (String "b" EmptyString))))
     = String "a" (String "010" (String "b" EmptyString)).
Proof. split; reflexivity. Qed.

Lemma turn_without_funding r :
  r !! "funding_amount" = None -> side_cells_text r = true -> turn r = Ok Dropped.
Proof.
  intros Hr Hside. rewrite turn_cases. unfold get at 1.
  by rewrite Hr, funding_default, Hside.
Qed.

Lemma filter_startups_all_dropped rs :
  Forall (fun r => turn r = Ok Dropped) rs ->
  filter_startups rs = Ok {| objects := rs; filtered := []; warnings := [] |}.
Proof.
  intros Hrs. apply filter_startups_outcomes.
  exists (replicate (length rs) Dropped).
  induction Hrs as [|r rs Hr _ [IH1 IH2]]; [by split; [constructor|]|].
  split; [by constructor|]. cbn.
  injection IH2 as Ho Hf Hw. cbn in Hf, Hw. by rewrite <- Ho, <- Hf, <- Hw.
Qed.

(** X18: an input whose header has no column [funding_amount], and whose
    lines are not shorter than the header, passes through the filter
    without a match, without a warning, without an exception and without a
    change to a row: every row counts as funded with 0. *)
Theorem no_funding_column_no_match fieldnames rows :
  "funding_amount" ∉ fieldnames ->
  Forall (fun row => row = [] \/ length fieldnames <= length row) rows ->
  filter_startups (DictReader (fieldnames :: rows))
  = Ok {| objects := DictReader (fieldnames :: rows); filtered := []; warnings := [] |}.
Proof.
  intros Hk Hrows. apply filter_startups_all_dropped.
  pose proof (DictReader_text _ _ Hrows) as Htext. cbn [DictReader] in *.
  rewrite Forall_fmap in Htext |- *.
  eapply Forall_impl; [exact Htext|]. intros row Hrow. unfold compose in *.
  apply turn_without_funding; [by apply dict_of_row_other|by apply text_cells_side].
Qed.

Lemma no_funding_column_no_match_witness :
  filter_startups (DictReader [ ["company_name"; "location"]; ["Acme"; "USA"] ])
  = Ok {| objects := DictReader [ ["company_name"; "location"]; ["Acme"; "USA"] ];
          filtered := []; warnings := [] |}.
Proof.
  apply (no_funding_column_no_match ["company_name"; "location"] [ ["Acme"; "USA"] ]).
  - intros H. repeat (apply elem_of_cons in H as [H|H]; [discriminate H|]).
    by apply elem_of_nil in H.
  - constructor; [right; simpl; lia|constructor].
Defined.

Lemma not_elem_of_fieldnames : "funding_amount" ∉ fieldnames.
Proof.
  unfold fieldnames. intros H.
  repeat (apply elem_of_cons in H as [H|H]; [discriminate H|]).
  by apply elem_of_nil in H.
Qed.

(** X19: the results file is no input for a further run: read back by the
    loader, every row of an exported table is dropped by the filter (the
    amount is under [funding_amount_parsed], and a row without
    [funding_amount] counts as funded with 0), whatever the rows were. *)
Theorem results_reloaded_no_match l :
  filter_startups (DictReader (table_of l))
  = Ok {| objects := DictReader (table_of l); filtered := []; warnings := [] |}.
Proof.
  apply filter_startups_all_dropped. rewrite DictReader_table_of.
  apply Forall_fmap, Forall_forall. intros r _. unfold compose. cbv beta.
  apply turn_without_funding.
  - apply dict_of_row_other, not_elem_of_fieldnames.
  - apply text_cells_side, dict_of_row_text. unfold row_of.
    by rewrite length_fmap.
Qed.

(** ** The template *)

(** X20: the template file the program writes is a valid input for it: the
    loader reads back the two example rows as they were written, the filter
    keeps both without a warning, and their amounts are displayed as
    $150,000,000 and $200,000,000. *)
Theorem template_is_valid_input :
  DictReader create_template = template_data
  /\ filter_startups (DictReader create_template)
     = Ok {| objects := Spec.EligibleRecord <$> template_data;
             filtered := Spec.EligibleRecord <$> template_data;
             warnings := [] |}
  /\ (fun r => cell r "funding_amount_parsed") <$> (Spec.EligibleRecord <$> template_data)
     = ["$150,000,000"; "$200,000,000"].
Proof.
  split; [by_evaluation|]. split; by_evaluation.
Qed.

(** ** The whole program *)

Lemma display_summary_after_run rs st :
  filter_startups rs = Ok st ->
  display_summary (filtered st)
  = Ok (match filtered st with [] => None | _ => Some (summary_of (filtered st)) end).
Proof.
  intros Hst. pose proof (shown_amounts rs st Hst) as Hl.
  assert (Hkeys : Forall (fun e => sort_key e = Ok (shown_amount e)) (filtered st))
    by (eapply Forall_impl; [exact Hl|]; by intros e (? & ? & ?)).
  unfold display_summary. rewrite (sorted_startups_keyed _ Hkeys).
  by destruct (filtered st).
Qed.

(** What [main] does once the input file is there and could be read. *)
Lemma main_loaded w lines :
  input_exists w = true -> input_file w = Lines lines ->
  main w
  = match filter_startups (DictReader lines) with
    | Raise e => FilterRaised e
    | Ok st =>
        let rows := List.filter Spec.eligible (DictReader lines) in
        match rows with
        | [] => NoMatch (shown_name <$> List.filter unparsable (DictReader lines))
        | _ =>
            Complete (shown_name <$> List.filter unparsable (DictReader lines))
              (Some (summary_of (Spec.EligibleRecord <$> rows)))
              (results_writable w)
              (if results_writable w
               then Some (fieldnames :: (exported_row <$> rows)) else None)
        end
    end.
Proof.
  intros Hex Hfile. unfold main. rewrite Hex, Hfile. cbn [negb load_manual_data].
  destruct (filter_startups (DictReader lines)) as [st|e] eqn:Hst; [|done].
  pose proof (display_summary_after_run _ _ Hst) as Hshown.
  pose proof (filtered_eligible _ _ Hst) as Hfound.
  rewrite (warnings_after_run _ _ Hst). cbn zeta.
  destruct (List.filter Spec.eligible (DictReader lines)) as [|r rows] eqn:Hrows.
  { by rewrite Hfound. }
  destruct (filtered st) as [|e found]; [done|].
  rewrite Hshown, Hfound. unfold export_to_csv.
  change (table_of (Spec.EligibleRecord <$> r :: rows))
    with (table_of (Spec.EligibleRecord <$> (r :: rows))).
  rewrite table_of_EligibleRecord.
  by destruct (results_writable w).
Qed.

(** X21: when [main] runs to its end, the input file was there and could be
    read, some loaded row is eligible, the warnings printed name the rows
    with unparsable funding text, the summary is that of the eligible
    records, and the results file, if it could be written, holds the header
    and one row per eligible input row, in input order; the flag returned by
    [export_to_csv] says whether it could. *)
Theorem main_complete w skipped shown exported results :
  main w = Complete skipped shown exported results ->
  input_exists w = true
  /\ exists lines,
       input_file w = Lines lines
       /\ List.filter Spec.eligible (DictReader lines) <> []
       /\ skipped = shown_name <$> List.filter unparsable (DictReader lines)
       /\ shown = Some (summary_of (Spec.EligibleRecord
                                      <$> List.filter Spec.eligible (DictReader lines)))
       /\ exported = results_writable w
       /\ results = if results_writable w
                    then Some (fieldnames
                                 :: (exported_row
                                       <$> List.filter Spec.eligible (DictReader lines)))
                    else None.
Proof.
  destruct (input_exists w) eqn:Hex.
  2: { unfold main. rewrite Hex. by destruct (template_writable w). }
  destruct (input_file w) as [| |lines] eqn:Hfile.
  1,2: unfold main; by rewrite Hex, Hfile.
  rewrite (main_loaded _ _ Hex Hfile).
  destruct (filter_startups (DictReader lines)) as [st|e]; [|done]. cbn zeta.
  destruct (List.filter Spec.eligible (DictReader lines)) as [|r rows] eqn:Hrows; [done|].
  intros [= <- <- <- <-]. split; [done|]. exists lines. rewrite Hrows.
  repeat split; done.
Qed.

Lemma main_complete_witness :
  exists lines,
    Lines create_template = Lines lines
    /\ List.filter Spec.eligible (DictReader lines) <> [].
Proof.
  destruct (main_complete
              {| input_exists := true; input_file := Lines create_template;
                 template_writable := true; results_writable := true |}
              []
              (Some (summary_of (Spec.EligibleRecord <$> template_data)))
              true
              (Some (fieldnames :: (exported_row <$> template_data))))
    as (_ & lines & H1 & H2 & _); [by_evaluation|].
  exists lines. split; [exact H1|exact H2].
Defined.

(** X22: the other ends of [main].  [display_summary] never raises in it;
    the filter raises nothing but [AttributeError], and only when a loaded
    row has [None] in a cell the filter reads; when the run ends without a
    match, no loaded row is eligible, and the warnings are those of the
    unparsable rows; it ends after loading exactly when the file is there
    and cannot be read; and without input file nothing is read: only the
    template is written. *)
Theorem main_other_ends w :
  (forall e, main w <> SummaryRaised e)
  /\ (forall e, main w = FilterRaised e ->
        e = AttributeError
        /\ exists lines, input_file w = Lines lines
             /\ Exists (fun r => has_none_cell r = true) (DictReader lines))
  /\ (forall skipped, main w = NoMatch skipped ->
        exists lines, input_file w = Lines lines
          /\ List.filter Spec.eligible (DictReader lines) = []
          /\ skipped = shown_name <$> List.filter unparsable (DictReader lines))
  /\ (main w = LoadFailed <->
      input_exists w = true /\ forall lines, input_file w <> Lines lines)
  /\ (input_exists w = false ->
      main w = if template_writable w then TemplateCreated create_template
               else TemplateFailed).
Proof.
  destruct (input_exists w) eqn:Hex.
  2: { unfold main. rewrite Hex. cbn [negb].
       destruct (template_writable w); repeat split; try done; by intros []. }
  destruct (input_file w) as [| |lines] eqn:Hfile.
  1,2: unfold main; rewrite Hex, Hfile; cbn; repeat split; done.
  rewrite (main_loaded _ _ Hex Hfile).
  assert (Hload : forall o, o <> LoadFailed ->
            o = LoadFailed <-> true = true /\ forall lines', Lines lines <> Lines lines').
  { intros o Ho. split; [done|]. intros [_ H]. by destruct (H lines). }
  destruct (filter_startups (DictReader lines)) as [st|e] eqn:Hst.
  - cbn zeta.
    destruct (List.filter Spec.eligible (DictReader lines)) as [|r rows] eqn:Hrows.
    + split; [done|]. split; [done|]. split; [|split; [by apply Hload|done]].
      intros skipped [= <-]. exists lines. by rewrite Hrows.
    + split; [done|]. split; [done|]. split; [done|].
      split; [by apply Hload|done].
  - split; [done|]. split; [|split; [done|split; [by apply Hload|done]]].
    intros e' [= <-]. apply for_each_loop_body_raises in Hst.
    apply Exists_exists in Hst as (r & Hr & Ht).
    destruct (turn_raises _ _ Ht) as [-> Hnone]. split; [done|].
    exists lines. split; [done|]. apply Exists_exists. by exists r.
Qed.

Lemma main_other_ends_witness :
  main {| input_exists := false; input_file := FileNotFound;
          template_writable := true; results_writable := true |}
  = TemplateCreated create_template.
Proof.
  exact (proj2 (proj2 (proj2 (proj2
           (main_other_ends
              {| input_exists := false; input_file := FileNotFound;
                 template_writable := true; results_writable := true |}))))
           eq_refl).
Defined.

(** X23: an input file that is there, can be read, and has no line shorter
    than its header never makes [main] raise: the run ends either without a
    match or complete, with a summary. *)
Theorem main_on_rectangular_input w fieldnames rows :
  input_exists w = true -> input_file w = Lines (fieldnames :: rows) ->
  Forall (fun row => row = [] \/ length fieldnames <= length row) rows ->
  (exists skipped, main w = NoMatch skipped)
  \/ (exists skipped s exported results,
        main w = Complete skipped (Some s) exported results).
Proof.
  intros Hex Hfile Hrows. rewrite (main_loaded _ _ Hex Hfile).
  destruct (filter_startups_total (DictReader (fieldnames :: rows))) as [st ->].
  { eapply Forall_impl; [exact (DictReader_text _ _ Hrows)|].
    apply text_cells_text_row. }
  cbn zeta. destruct (List.filter Spec.eligible _); [left|right]; eauto 6.
Qed.

Lemma main_on_rectangular_input_witness :
  (exists skipped,
     main {| input_exists := true; input_file := Lines create_template;
             template_writable := true; results_writable := false |}
     = NoMatch skipped)
  \/ (exists skipped s exported results,
        main {| input_exists := true; input_file := Lines create_template;
                template_writable := true; results_writable := false |}
        = Complete skipped (Some s) exported results).
Proof.
  apply (main_on_rectangular_input
           {| input_exists := true; input_file := Lines create_template;
              template_writable := true; results_writable := false |}
           template_fieldnames
           ((fun rowdict => cell rowdict <$> template_fieldnames) <$> template_data)).
  - reflexivity.
  - reflexivity.
  - repeat (constructor; [right; vm_compute; lia|]). constructor.
Defined.

(** X24: [main] does not look at what [export_to_csv] returns: a run that
    is complete when the results file can or cannot be written is also
    complete, with the same warnings and summary, when it cannot, and then
    nothing is written and the flag is [False]. *)
Theorem main_ignores_export_flag w skipped shown exported results :
  main w = Complete skipped shown exported results ->
  main (results_locked w) = Complete skipped shown false None.
Proof.
  destruct (input_exists w) eqn:Hex.
  2: { unfold main. rewrite Hex. by destruct (template_writable w). }
  destruct (input_file w) as [| |lines] eqn:Hfile.
  1,2: unfold main; by rewrite Hex, Hfile.
  rewrite (main_loaded w lines Hex Hfile), (main_loaded (results_locked w) lines Hex Hfile).
  destruct (filter_startups (DictReader lines)) as [st|e]; [|done]. cbn zeta.
  destruct (List.filter Spec.eligible (DictReader lines)) as [|r rows]; [done|].
  by intros [= <- <- <- <-].
Qed.

Lemma main_ignores_export_flag_witness :
  main (results_locked
          {| input_exists := true; input_file := Lines create_template;
             template_writable := true; results_writable := true |})
  = Complete [] (Some (summary_of (Spec.EligibleRecord <$> template_data))) false None.
Proof.
  apply (main_ignores_export_flag
           {| input_exists := true; input_file := Lines create_template;
              template_writable := true; results_writable := true |}
           [] (Some (summary_of (Spec.EligibleRecord <$> template_data)))
           true (Some (fieldnames :: (exported_row <$> template_data)))).
  by_evaluation.
Defined.

(** ** Letter case, and the region keywords *)

Lemma lower_lower_char c : PyStr.lower_char (PyStr.lower_char c) = PyStr.lower_char c.
Proof. by_cases_on_char c. Qed.

Lemma lower_lower s : PyStr.lower (PyStr.lower s) = PyStr.lower s.
Proof. induction s as [|c s IH]; [done|]. simpl. by rewrite lower_lower_char, IH. Qed.

Lemma Normalizer_upper text : Spec.Normalizer (PyStr.upper text) = Spec.Normalizer text.
Proof.
  rewrite <- !funding_Normalizer, !funding_unfold, strip_separators_upper.
  unfold funding_of_text. by rewrite !upper_upper, of_string_upper.
Qed.

Lemma Normalizer_lower text : Spec.Normalizer (PyStr.lower text) = Spec.Normalizer text.
Proof.
  rewrite <- !funding_Normalizer, !funding_unfold, strip_separators_lower.
  unfold funding_of_text. by rewrite !upper_lower, of_string_lower.
Qed.

Lemma field_insert (r : record) k text name :
  Spec.field (<[k := PStr text]> r) name
  = if decide (k = name) then text else Spec.field r name.
Proof.
  unfold Spec.field. destruct (decide (k = name)) as [->|Hne].
  - by rewrite lookup_insert_eq.
  - by rewrite lookup_insert_ne.
Qed.

Lemma eqb_empty_upper s : String.eqb (PyStr.upper s) "" = String.eqb s "".
Proof. by destruct s. Qed.

(** X25: eligibility does not depend on the letter case of a cell: a row
    with a cell in upper case, or in lower case, is eligible exactly when the
    row with the cell as written is. *)
Theorem eligible_case_insensitive (r : record) k text :
  Spec.eligible (<[k := PStr (PyStr.upper text)]> r)
  = Spec.eligible (<[k := PStr text]> r)
  /\ Spec.eligible (<[k := PStr (PyStr.lower text)]> r)
     = Spec.eligible (<[k := PStr text]> r).
Proof.
  unfold Spec.eligible, Spec.funding_ok, Spec.location_ok, Spec.status_ok, Spec.ipo_ok.
  rewrite !field_insert.
  split.
  - destruct (decide (k = "funding_amount")); [rewrite Normalizer_upper|];
      destruct (decide (k = "location")); rewrite ?lower_upper;
      destruct (decide (k = "status")); rewrite ?lower_upper, ?eqb_empty_upper;
      destruct (decide (k = "ipo_status")); rewrite ?lower_upper; reflexivity.
  - destruct (decide (k = "funding_amount")); [rewrite Normalizer_lower|];
      destruct (decide (k = "location")); rewrite ?lower_lower;
      destruct (decide (k = "status")); rewrite ?lower_lower, ?lower_eqb_empty;
      destruct (decide (k = "ipo_status")); rewrite ?lower_lower; reflexivity.
Qed.

Lemma append_assoc_string (a b c : string) :
  String.append (String.append a b) c = String.append a (String.append b c).
Proof.
  induction a as [|x a IH]; [done|].
  change (String x (String.append (String.append a b) c)
          = String x (String.append a (String.append b c))).
  by rewrite IH.
Qed.

Lemma substring_trans a b c :
  Spec.substring a b -> Spec.substring b c -> Spec.substring a c.
Proof.
  intros (p & q & ->) (p' & q' & ->).
  exists (String.append p' p), (String.append q q').
  by rewrite !append_assoc_string.
Qed.

Lemma contains_within a b hay :
  Spec.substring a b -> PyStr.contains b hay = true -> PyStr.contains a hay = true.
Proof. rewrite !contains_substring. apply substring_trans. Qed.

(** X26: of the 22 region keywords of [__init__], [usa] and [austria] never
    decide: each contains the keyword [us], so the location test is the test
    against the other 20, and every location with [us] in it passes
    (Australia and Russia as well as USA). *)
Theorem us_subsumes_keywords location :
  meets_location location
  = existsb (fun region => PyStr.contains region location)
      [ "united states"; "us"; "america";
        "europe"; "uk"; "united kingdom"; "germany"; "france";
        "spain"; "italy"; "netherlands"; "sweden"; "ireland";
        "belgium"; "denmark"; "finland"; "norway";
        "switzerland"; "portugal"; "poland" ]
  /\ (PyStr.contains "us" location = true -> meets_location location = true).
Proof.
  unfold meets_location, target_regions. cbn [existsb].
  assert (Husa : PyStr.contains "usa" location = true ->
                 PyStr.contains "us" location = true).
  { apply contains_within. by exists "", "a". }
  assert (Haustria : PyStr.contains "austria" location = true ->
                     PyStr.contains "us" location = true).
  { apply contains_within. by exists "a", "tria". }
  destruct (PyStr.contains "us" location).
  - by destruct (PyStr.contains "usa" location),
      (PyStr.contains "united states" location).
  - split; [|done].
    destruct (PyStr.contains "usa" location); [by specialize (Husa eq_refl)|].
    destruct (PyStr.contains "austria" location); [by specialize (Haustria eq_refl)|].
    reflexivity.
Qed.

Lemma us_subsumes_keywords_witness : meets_location "australia" = true.
Proof. apply (us_subsumes_keywords "australia"). reflexivity. Defined.
